(** * Firebase-to-relational reconciliation of FASTPAY_BASE

    A shallow embedding of the synchronisation code of
    [BACKEND/api/utils.py]: the four fetchers
    ([get_firebase_device_info], [get_firebase_messages_for_device],
    [get_firebase_notifications_for_device],
    [get_firebase_contacts_for_device]), the per-device reconciler
    [hard_sync_device_from_firebase], the message-only variant
    [sync_messages_from_firebase] and the fleet driver
    [hard_sync_all_devices_from_firebase].

    Python values read from the Firebase Realtime Database are modelled
    by the type [json]; the relational tables of [BACKEND/api/models.py]
    by finite maps indexed by their natural keys ([unique_together]);
    exceptions by an error monad carrying [str(e)]. *)

From Stdlib Require Import ZArith String Ascii List Lia.
From stdpp Require Import gmap strings list fin_maps.

Set Warnings "-register-all".
Open Scope string_scope.
Open Scope Z_scope.
Open Scope list_scope.

(** ** Python values *)

(** What [ref.get()] of the Firebase Admin SDK can return: the decoded
    JSON tree.  Dictionaries keep their insertion order (the order in
    which [.items()] yields the entries), so they are association lists.
    A number with a fractional part is a Python [float], written here
    as mantissa and binary exponent; the reconciler only ever tests it
    for its type and for being zero. *)
Inductive json : Type :=
| JNull
| JBool (b : bool)
| JInt (n : Z)
| JFloat (mantissa exponent : Z)
| JStr (s : string)
| JList (l : list json)
| JDict (d : list (string * json)).

Abbreviation pydict := (list (string * json)).

(** Python truthiness ([if data:], [a or b], [not package_name]). *)
Definition truthy (v : json) : bool :=
  match v with
  | JNull => false
  | JBool b => b
  | JInt n => negb (n =? 0)
  | JFloat m _ => negb (m =? 0)
  | JStr s => negb (String.eqb s "")
  | JList l => match l with [] => false | _ => true end
  | JDict d => match d with [] => false | _ => true end
  end.

(** [a or b] *)
Definition py_or (a b : json) : json := if truthy a then a else b.

(** [d.get(key, default)] *)
Fixpoint dict_get (d : pydict) (key : string) (default : json) : json :=
  match d with
  | [] => default
  | (k, v) :: d' => if String.eqb k key then v else dict_get d' key default
  end.

(** [key in d] *)
Fixpoint dict_has (d : pydict) (key : string) : bool :=
  match d with
  | [] => false
  | (k, _) :: d' => String.eqb k key || dict_has d' key
  end.

(** [type(v).__name__], as it appears in the text of an
    [AttributeError] or [TypeError]. *)
Definition type_name (v : json) : string :=
  match v with
  | JNull => "NoneType"
  | JBool _ => "bool"
  | JInt _ => "int"
  | JFloat _ _ => "float"
  | JStr _ => "str"
  | JList _ => "list"
  | JDict _ => "dict"
  end.

(** ** Exceptions *)

(** A computation that returns or raises; [Raise msg] carries [str(e)].
    Every handler of the modelled code is [except Exception], so the
    class of the exception is not recorded. *)
Inductive exc (A : Type) : Type :=
| Ok (a : A)
| Raise (msg : string).
Arguments Ok {A} a.
Arguments Raise {A} msg.

Definition exc_bind {A B} (m : exc A) (f : A -> exc B) : exc B :=
  match m with
  | Ok a => f a
  | Raise msg => Raise msg
  end.

#[global] Instance exc_ret : MRet exc := fun A a => Ok a.
#[global] Instance exc_mbind : MBind exc := fun A B f m => exc_bind m f.

(** ** Strings *)

(** A Python [str] is modelled by a string of 8-bit characters, and
    the functions below are those of Python on strings of ASCII
    characters.  Beyond ASCII, [str.isdigit] and [int] know digits of
    other scripts, and [str.isdigit] accepts some characters (a
    superscript two) that [int] refuses; statements that depend on how
    a key is read either take the reading as a hypothesis or are made
    of ASCII keys ([store_key]). *)

Definition is_digit (c : ascii) : bool :=
  let n := nat_of_ascii c in (Nat.leb 48 n && Nat.leb n 57)%bool.

(** The characters [str.strip()] and [int()] treat as blanks. *)
Definition is_space (c : ascii) : bool :=
  let n := nat_of_ascii c in
  (Nat.eqb n 32 || (Nat.leb 9 n && Nat.leb n 13) || (Nat.leb 28 n && Nat.leb n 31))%bool.

Fixpoint lstrip (s : string) : string :=
  match s with
  | String c s' => if is_space c then lstrip s' else s
  | EmptyString => EmptyString
  end.

Fixpoint rstrip (s : string) : string :=
  match s with
  | String c s' =>
      match rstrip s' with
      | EmptyString => if is_space c then EmptyString else String c EmptyString
      | r => String c r
      end
  | EmptyString => EmptyString
  end.

(** The digits of a decimal literal, with the single underscores Python
    allows between two digits.  [prev] says that the character before
    was a digit. *)
Fixpoint digits_value (acc : Z) (prev : bool) (s : string) : option Z :=
  match s with
  | EmptyString => if prev then Some acc else None
  | String c s' =>
      if is_digit c then
        digits_value (10 * acc + (Z.of_nat (nat_of_ascii c) - 48)) true s'
      else if (Ascii.eqb c "_" && prev)%bool then digits_value acc false s'
      else None
  end.

Definition parse_int (s : string) : option Z :=
  match rstrip (lstrip s) with
  | String "+" s' => digits_value 0 false s'
  | String "-" s' => Z.opp <$> digits_value 0 false s'
  | s' => digits_value 0 false s'
  end.

(** [int(s)] for a string [s] of ASCII characters.  The text of the
    [ValueError] is that of CPython for a string that [repr] leaves
    as it is between single quotes (no quote, backslash or control
    character in it). *)
Definition py_int (s : string) : exc Z :=
  match parse_int s with
  | Some n => Ok n
  | None => Raise ("invalid literal for int() with base 10: '" +:+ s +:+ "'")
  end.

(** [s.isdigit()] for a string [s] of ASCII characters *)
Fixpoint all_digits (s : string) : bool :=
  match s with
  | EmptyString => true
  | String c s' => is_digit c && all_digits s'
  end.

Definition isdigit (s : string) : bool :=
  match s with
  | EmptyString => false
  | _ => all_digits s
  end.

(** [s.lower()] *)
Definition lower_ascii (c : ascii) : ascii :=
  let n := nat_of_ascii c in
  if (Nat.leb 65 n && Nat.leb n 90)%bool then ascii_of_nat (n + 32) else c.

Fixpoint lower (s : string) : string :=
  match s with
  | EmptyString => EmptyString
  | String c s' => String (lower_ascii c) (lower s')
  end.

(** [s.split(sep, maxsplit)] for a one-character separator. *)
Fixpoint split (sep : ascii) (maxsplit : nat) (s : string) : list string :=
  match s with
  | EmptyString => [EmptyString]
  | String c s' =>
      if Ascii.eqb c sep then
        match maxsplit with
        | O => [s]
        | S m => EmptyString :: split sep m s'
        end
      else
        match split sep maxsplit s' with
        | h :: t => String c h :: t
        | [] => [String c EmptyString]
        end
  end.

(** [sep.join(l)] *)
Fixpoint join (sep : string) (l : list string) : string :=
  match l with
  | [] => EmptyString
  | [x] => x
  | x :: l' => x +:+ sep +:+ join sep l'
  end.

(** [s[:n]] *)
Definition str_take (n : nat) (s : string) : string := String.substring 0 n s.

(** [x in (a, b, ...)] for strings *)
Definition str_in (x : string) (l : list string) : bool :=
  existsb (String.eqb x) l.

(** ** The relational tables ([BACKEND/api/models.py]) *)

(** A value the reconciler hands to a model field is whatever Firebase
    held, so row fields are [json] unless the code has fixed their
    type.  Whether the database accepts the value (column length,
    [NOT NULL], integer range, field validation) is the business of
    the ORM, see [ORM] below. *)

Module Message.
Record t := mk {
  message_type : string;
  phone : json;
  body : json;
  read : json }.
End Message.

Module Notification.
Record t := mk {
  package_name : json;
  title : json;
  text : json;
  extra : json }.
End Notification.

Module Contact.
(** The columns the reconciler assigns.  [created_at] and
    [updated_at] are not among them: the second is [auto_now], set by
    every [save()] to the instant of the save, so that two saves of
    the same values leave rows that differ in it. *)
Record t := mk {
  contact_id : json;
  name : json;
  display_name : json;
  phones : json;
  emails : json;
  addresses : json;
  websites : json;
  im_accounts : json;
  photo_uri : json;
  thumbnail_uri : json;
  company : json;
  job_title : json;
  department : json;
  birthday : json;
  anniversary : json;
  notes : json;
  last_contacted : json;
  times_contacted : json;
  is_starred : json;
  nickname : json;
  phonetic_name : json }.
End Contact.

Module Device.
(** The columns written from the Firebase device record. *)
Record profile := mk_profile {
  name : json;
  model : json;
  phone : json;
  code : json;
  is_active : bool;
  last_seen : json;
  battery_percentage : json;
  current_phone : json;
  current_identifier : json;
  time : json;
  bankcard : json;
  system_info : json }.

(** A row of the [Device] table; [device_id] is the key of the table.
    Dates are instants of the clock [timezone_now]. *)
Record t := mk {
  prof : profile;
  sync_status : string;
  sync_error_message : option string;
  last_sync_at : option Z;
  last_hard_sync_at : option Z;
  messages_last_synced_at : option Z;
  notifications_last_synced_at : option Z;
  contacts_last_synced_at : option Z;
  sync_metadata : list (string * nat) }.
End Device.

(** The database.  [Device.device_id] is [unique]; [Message] and
    [Notification] are [unique_together] on (device, timestamp),
    [Contact] on (device, phone_number).  The foreign key to the device
    is written as its [device_id]. *)
Record DB := mkDB {
  devices : gmap string Device.t;
  messages : gmap (string * Z) Message.t;
  notifications : gmap (string * Z) Notification.t;
  contacts : gmap (string * string) Contact.t }.

(** What the reconciler cannot see of the ORM: whether the database
    takes a row.  [Some msg] is the text of the exception that
    [create()] or [save()] raises for the row ([IntegrityError],
    [DataError], [ValidationError], ...), [None] means the write goes
    through.  Look-ups by natural key and writes of the sync-tracking
    columns alone (status, error text, dates, counts) do not fail. *)
Record ORM := mkORM {
  device_rejected : string -> Device.profile -> option string;
  message_rejected : string * Z -> Message.t -> option string;
  notification_rejected : string * Z -> Notification.t -> option string;
  contact_rejected : string * string -> Contact.t -> option string;
  timezone_now : Z }.

(** ** The external store *)

(** The Firebase Realtime Database as the backend sees it.
    [FIREBASE_AVAILABLE] is the module-level flag set by the guarded
    import of [firebase_admin]; [init_app] is what remains of
    [initialize_firebase] once the SDK is importable (credentials,
    [FIREBASE_DATABASE_URL]); [reference_get path] is
    [db.reference(path).get()]. *)
Record Firebase := mkFirebase {
  FIREBASE_AVAILABLE : bool;
  init_app : exc unit;
  reference_get : string -> exc json }.

Definition initialize_firebase (fb : Firebase) : exc unit :=
  if negb (FIREBASE_AVAILABLE fb) then
    Raise "Firebase Admin SDK not installed. Install with: pip install firebase-admin"
  else init_app fb.

(** The loop shared by the four fetchers:
<<
    for path in paths_to_try:
        try:
            data = db.reference(path).get()
            if data:
                messages = data
                break
        except Exception as e:
            continue
>>
    starting from the empty dictionary. *)
Fixpoint first_data (fb : Firebase) (paths_to_try : list string) : json :=
  match paths_to_try with
  | [] => JDict []
  | path :: rest =>
      match reference_get fb path with
      | Ok data => if truthy data then data else first_data fb rest
      | Raise _ => first_data fb rest
      end
  end.

Definition fetch (fb : Firebase) (paths_to_try : list string) : exc json :=
  if negb (FIREBASE_AVAILABLE fb) then Raise "Firebase Admin SDK not available"
  else
    match initialize_firebase fb with
    | Raise _ => Ok (JDict [])
    | Ok _ => Ok (first_data fb paths_to_try)
    end.

Definition message_paths (device_id : string) : list string :=
  [ "fastpay/" +:+ device_id +:+ "/messages";
    "message/" +:+ device_id;
    "fastpay/testing/" +:+ device_id +:+ "/messages";
    "fastpay/running/" +:+ device_id +:+ "/messages" ].

Definition notification_paths (device_id : string) : list string :=
  [ "device/" +:+ device_id +:+ "/Notification";
    "fastpay/" +:+ device_id +:+ "/Notification";
    "notification/" +:+ device_id;
    "fastpay/testing/" +:+ device_id +:+ "/Notification";
    "fastpay/running/" +:+ device_id +:+ "/Notification" ].

Definition contact_paths (device_id : string) : list string :=
  [ "device/" +:+ device_id +:+ "/Contact";
    "fastpay/" +:+ device_id +:+ "/Contact";
    "contact/" +:+ device_id;
    "fastpay/testing/" +:+ device_id +:+ "/Contact";
    "fastpay/running/" +:+ device_id +:+ "/Contact" ].

Definition device_info_paths (device_id : string) : list string :=
  [ "device/" +:+ device_id;
    "fastpay/" +:+ device_id;
    "fastpay/testing/" +:+ device_id;
    "fastpay/running/" +:+ device_id ].

(** [sorted(keys, key=lambda x: int(x) if x.isdigit() else 0, reverse=True)]:
    a stable sort, largest key first.  On a string of ASCII digits
    [int] does not raise ([isdigit_parse_int] below), so that the key
    function is total on ASCII keys; on a key that [str.isdigit]
    accepts and [int] refuses, which takes a character beyond ASCII,
    the sort of the code raises. *)
Definition timestamp_key (x : string) : Z :=
  if isdigit x then match parse_int x with Some n => n | None => 0 end else 0.

Fixpoint insert_desc (x : string) (l : list string) : list string :=
  match l with
  | [] => [x]
  | y :: l' =>
      if timestamp_key x <? timestamp_key y then y :: insert_desc x l'
      else x :: l
  end.

Definition sorted_timestamps (keys : list string) : list string :=
  foldr insert_desc [] keys.

(** [l[:n]] for an integer [n] of either sign *)
Definition slice_to {A} (n : Z) (l : list A) : list A :=
  if 0 <=? n then take (Z.to_nat n) l
  else take (length l - Z.to_nat (- n)) l.

(** [v.keys()] *)
Definition py_keys (v : json) : exc (list string) :=
  match v with
  | JDict d => Ok (map fst d)
  | _ => Raise ("'" +:+ type_name v +:+ "' object has no attribute 'keys'")
  end.

Definition get_firebase_messages_for_device
    (fb : Firebase) (device_id : string) (limit : option Z) : exc json :=
  if negb (FIREBASE_AVAILABLE fb) then Raise "Firebase Admin SDK not available"
  else
    match initialize_firebase fb with
    | Raise _ => Ok (JDict [])
    | Ok _ =>
        let messages := first_data fb (message_paths device_id) in
        match limit with
        | Some n =>
            if ((negb (n =? 0)) && truthy messages)%bool then
              keys ← py_keys messages;
              match messages with
              | JDict d =>
                  Ok (JDict (map (fun ts => (ts, dict_get d ts JNull))
                                 (slice_to n (sorted_timestamps keys))))
              | _ => Ok messages
              end
            else Ok messages
        | None => Ok messages
        end
    end.

Definition get_firebase_notifications_for_device
    (fb : Firebase) (device_id : string) : exc json :=
  fetch fb (notification_paths device_id).

Definition get_firebase_contacts_for_device
    (fb : Firebase) (device_id : string) : exc json :=
  fetch fb (contact_paths device_id).

Definition get_firebase_device_info
    (fb : Firebase) (device_id : string) : exc json :=
  fetch fb (device_info_paths device_id).

(** ** The result of a reconciliation *)

Record Counts := mkCounts {
  fetched : nat;
  created : nat;
  updated : nat;
  skipped : nat }.

(** The dictionary [result] of [hard_sync_device_from_firebase]; the
    twelve counters [<kind>_fetched], [<kind>_created], [<kind>_updated]
    and [<kind>_skipped] are grouped by kind. *)
Record SyncResult := mkResult {
  device_id : string;
  device_created : bool;
  device_updated : bool;
  messages_counts : Counts;
  notifications_counts : Counts;
  contacts_counts : Counts;
  errors : list string }.

Definition messages_fetched r := fetched (messages_counts r).
Definition messages_created r := created (messages_counts r).
Definition messages_updated r := updated (messages_counts r).
Definition messages_skipped r := skipped (messages_counts r).
Definition notifications_fetched r := fetched (notifications_counts r).
Definition notifications_created r := created (notifications_counts r).
Definition notifications_updated r := updated (notifications_counts r).
Definition notifications_skipped r := skipped (notifications_counts r).
Definition contacts_fetched r := fetched (contacts_counts r).
Definition contacts_created r := created (contacts_counts r).
Definition contacts_updated r := updated (contacts_counts r).
Definition contacts_skipped r := skipped (contacts_counts r).

Definition zero_counts : Counts := mkCounts 0 0 0 0.

Definition initial_result (device_id : string) : SyncResult :=
  mkResult device_id false false zero_counts zero_counts zero_counts [].

Inductive kind := KMessages | KNotifications | KContacts.

Definition counts_of (k : kind) (r : SyncResult) : Counts :=
  match k with
  | KMessages => messages_counts r
  | KNotifications => notifications_counts r
  | KContacts => contacts_counts r
  end.

Definition with_counts (k : kind) (f : Counts -> Counts) (r : SyncResult) : SyncResult :=
  match k with
  | KMessages =>
      mkResult (device_id r) (device_created r) (device_updated r)
        (f (messages_counts r)) (notifications_counts r) (contacts_counts r) (errors r)
  | KNotifications =>
      mkResult (device_id r) (device_created r) (device_updated r)
        (messages_counts r) (f (notifications_counts r)) (contacts_counts r) (errors r)
  | KContacts =>
      mkResult (device_id r) (device_created r) (device_updated r)
        (messages_counts r) (notifications_counts r) (f (contacts_counts r)) (errors r)
  end.

Definition set_fetched (n : nat) (c : Counts) : Counts :=
  mkCounts n (created c) (updated c) (skipped c).
Definition inc_created (c : Counts) : Counts :=
  mkCounts (fetched c) (S (created c)) (updated c) (skipped c).
Definition inc_updated (c : Counts) : Counts :=
  mkCounts (fetched c) (created c) (S (updated c)) (skipped c).
Definition inc_skipped (c : Counts) : Counts :=
  mkCounts (fetched c) (created c) (updated c) (S (skipped c)).

Definition append_error (msg : string) (r : SyncResult) : SyncResult :=
  mkResult (device_id r) (device_created r) (device_updated r)
    (messages_counts r) (notifications_counts r) (contacts_counts r)
    (errors r ++ [msg]).

Definition set_device_created (b : bool) (r : SyncResult) : SyncResult :=
  mkResult (device_id r) b (device_updated r)
    (messages_counts r) (notifications_counts r) (contacts_counts r) (errors r).

Definition set_device_updated (b : bool) (r : SyncResult) : SyncResult :=
  mkResult (device_id r) (device_created r) b
    (messages_counts r) (notifications_counts r) (contacts_counts r) (errors r).

(** ** State and exceptions together *)

(** What a run mutates: the dictionary [result] and the database.  A
    raised exception leaves both as they are at the point of the
    [raise]; only [atomic] undoes database writes. *)
Record State := mkState {
  result : SyncResult;
  db : DB }.

Definition M (A : Type) : Type := State -> exc A * State.

Definition ret {A} (a : A) : M A := fun st => (Ok a, st).

Definition bind {A B} (m : M A) (f : A -> M B) : M B :=
  fun st =>
    match m st with
    | (Ok a, st') => f a st'
    | (Raise msg, st') => (Raise msg, st')
    end.

(** stdpp's notations [x ← m; k] and [m ;; k] for sequencing. *)
#[global] Instance M_ret : MRet M := @ret.
#[global] Instance M_mbind : MBind M := fun A B f m => bind m f.

(** Run a pure computation that may raise. *)
Definition lift {A} (e : exc A) : M A := fun st => (e, st).

Definition raise {A} (msg : string) : M A := fun st => (Raise msg, st).

Definition get_db : M DB := fun st => (Ok (db st), st).

Definition get_result : M SyncResult := fun st => (Ok (result st), st).

Definition modify_db (f : DB -> DB) : M unit :=
  fun st => (Ok tt, mkState (result st) (f (db st))).

Definition modify_result (f : SyncResult -> SyncResult) : M unit :=
  fun st => (Ok tt, mkState (f (result st)) (db st)).

(** [try: body  except Exception as e: handler(str(e))] *)
Definition try_except (body : M unit) (handler : string -> M unit) : M unit :=
  fun st =>
    match body st with
    | (Ok _, st') => (Ok tt, st')
    | (Raise msg, st') => handler msg st'
    end.

(** [with transaction.atomic(): body]: an exception that leaves the
    block rolls the database back to what it was on entry. *)
Definition atomic {A} (body : M A) : M A :=
  fun st =>
    match body st with
    | (Ok a, st') => (Ok a, st')
    | (Raise msg, st') => (Raise msg, mkState (result st') (db st))
    end.

(** [for x in items: body(x)] *)
Fixpoint for_each {A} (items : list A) (body : A -> M unit) : M unit :=
  match items with
  | [] => ret tt
  | x :: rest => body x ;; for_each rest body
  end.

(** [len(v)] *)
Definition py_len (v : json) : exc nat :=
  match v with
  | JDict d => Ok (length d)
  | JList l => Ok (length l)
  | JStr s => Ok (String.length s)
  | _ => Raise ("object of type '" +:+ type_name v +:+ "' has no len()")
  end.

(** [v.items()] *)
Definition py_items (v : json) : exc pydict :=
  match v with
  | JDict d => Ok d
  | _ => Raise ("'" +:+ type_name v +:+ "' object has no attribute 'items'")
  end.

(** The receiver of [.get(...)] has to be a dictionary. *)
Definition as_dict (v : json) : exc pydict :=
  match v with
  | JDict d => Ok d
  | _ => Raise ("'" +:+ type_name v +:+ "' object has no attribute 'get'")
  end.

(** ** The ORM calls of the reconciler *)

Definition set_devices (f : gmap string Device.t -> gmap string Device.t) (d : DB) : DB :=
  mkDB (f (devices d)) (messages d) (notifications d) (contacts d).
Definition set_messages
    (f : gmap (string * Z) Message.t -> gmap (string * Z) Message.t) (d : DB) : DB :=
  mkDB (devices d) (f (messages d)) (notifications d) (contacts d).
Definition set_notifications
    (f : gmap (string * Z) Notification.t -> gmap (string * Z) Notification.t) (d : DB) : DB :=
  mkDB (devices d) (messages d) (f (notifications d)) (contacts d).
Definition set_contacts
    (f : gmap (string * string) Contact.t -> gmap (string * string) Contact.t) (d : DB) : DB :=
  mkDB (devices d) (messages d) (notifications d) (f (contacts d)).

(** [Message.objects.get_or_create(device=, timestamp=, defaults=)]:
    the row found and [False], or the row made from [defaults] and
    [True]; a rejected [create()] raises and writes nothing. *)
Definition Message_get_or_create
    (orm : ORM) (key : string * Z) (defaults : Message.t) : M (Message.t * bool) :=
  d ← get_db;
  match messages d !! key with
  | Some row => ret (row, false)
  | None =>
      match message_rejected orm key defaults with
      | Some msg => raise msg
      | None => modify_db (set_messages (insert key defaults));; ret (defaults, true)
      end
  end.

(** [message.save()] *)
Definition Message_save (orm : ORM) (key : string * Z) (row : Message.t) : M unit :=
  match message_rejected orm key row with
  | Some msg => raise msg
  | None => modify_db (set_messages (insert key row))
  end.

Definition Notification_get_or_create
    (orm : ORM) (key : string * Z) (defaults : Notification.t)
    : M (Notification.t * bool) :=
  d ← get_db;
  match notifications d !! key with
  | Some row => ret (row, false)
  | None =>
      match notification_rejected orm key defaults with
      | Some msg => raise msg
      | None => modify_db (set_notifications (insert key defaults));; ret (defaults, true)
      end
  end.

Definition Notification_save (orm : ORM) (key : string * Z) (row : Notification.t) : M unit :=
  match notification_rejected orm key row with
  | Some msg => raise msg
  | None => modify_db (set_notifications (insert key row))
  end.

Definition Contact_get_or_create
    (orm : ORM) (key : string * string) (defaults : Contact.t) : M (Contact.t * bool) :=
  d ← get_db;
  match contacts d !! key with
  | Some row => ret (row, false)
  | None =>
      match contact_rejected orm key defaults with
      | Some msg => raise msg
      | None => modify_db (set_contacts (insert key defaults));; ret (defaults, true)
      end
  end.

Definition Contact_save (orm : ORM) (key : string * string) (row : Contact.t) : M unit :=
  match contact_rejected orm key row with
  | Some msg => raise msg
  | None => modify_db (set_contacts (insert key row))
  end.

(** ** Reconciling messages *)

(** The two shapes of a message record:
<<
    if isinstance(message_data, dict):
        message_type = message_data.get('type', 'received') ...
    elif isinstance(message_data, str):
        parts = message_data.split('~', 2) ...
    else:
        skip
>>
    The result is (type, phone, body, read), [None] for the [else]. *)
Definition message_fields (message_data : json) : option (json * json * json * json) :=
  match message_data with
  | JDict d =>
      Some (dict_get d "type" (JStr "received"),
            dict_get d "phone" (JStr ""),
            dict_get d "body" (JStr ""),
            dict_get d "read" (JBool false))
  | JStr s =>
      let parts := split "~" 2 s in
      Some (JStr (default "received" (parts !! 0%nat)),
            JStr (default "" (parts !! 1%nat)),
            JStr (default "" (parts !! 2%nat)),
            JBool false)
  | _ => None
  end.

(** [if message_type not in ['received', 'sent']: message_type = 'received'] *)
Definition normalize_message_type (message_type : json) : string :=
  match message_type with
  | JStr s => if str_in s ["received"; "sent"] then s else "received"
  | _ => "received"
  end.

(** What stands under [try:] in the message loop of
    [hard_sync_device_from_firebase] (lines 411-454). *)
Definition message_entry_body
    (orm : ORM) (device : string) (update_existing : bool)
    (timestamp_str : string) (message_data : json) : M unit :=
  timestamp ← lift (py_int timestamp_str);
  match message_fields message_data with
  | None => modify_result (with_counts KMessages inc_skipped)
  | Some (message_type, phone, body, read) =>
      let message_type := normalize_message_type message_type in
      let fields := Message.mk message_type phone body read in
      '(message, created) ← Message_get_or_create orm (device, timestamp) fields;
      if created : bool then modify_result (with_counts KMessages inc_created)
      else if update_existing then
        Message_save orm (device, timestamp) fields;;
        modify_result (with_counts KMessages inc_updated)
      else modify_result (with_counts KMessages inc_skipped)
  end.

(** One turn of the message loop, with its [except] (lines 456-459). *)
Definition sync_message_entry
    (orm : ORM) (device : string) (update_existing : bool)
    (timestamp_str : string) (message_data : json) : M unit :=
  try_except
    (message_entry_body orm device update_existing timestamp_str message_data)
    (fun e =>
       modify_result
         (append_error ("Error processing message " +:+ timestamp_str +:+ ": " +:+ e))).

(** [for timestamp_str, message_data in firebase_messages.items(): ...] *)
Definition message_loop (orm : ORM) (device : string) (update_existing : bool)
    (items : pydict) : M unit :=
  for_each items (fun kv => sync_message_entry orm device update_existing kv.1 kv.2).

(** ** Reconciling notifications *)

(** (package_name, title, text), [None] for a record that is neither a
    dictionary nor a string. *)
Definition notification_fields (notification_data : json) : option (json * json * json) :=
  match notification_data with
  | JDict d =>
      Some (py_or (dict_get d "package" (JStr "")) (dict_get d "packageName" (JStr "")),
            dict_get d "title" (JStr ""),
            py_or (dict_get d "text" (JStr "")) (dict_get d "body" (JStr "")))
  | JStr s =>
      let parts := split "~" 2 s in
      Some (JStr (default "" (parts !! 0%nat)),
            JStr (default "" (parts !! 1%nat)),
            JStr (default "" (parts !! 2%nat)))
  | _ => None
  end.

(** What stands under [try:] in the notification loop (lines 467-506).
    A new row takes the default of the column [extra], an updated row
    keeps the one it has. *)
Definition notification_entry_body
    (orm : ORM) (device : string) (update_existing : bool)
    (timestamp_str : string) (notification_data : json) : M unit :=
  timestamp ← lift (py_int timestamp_str);
  match notification_fields notification_data with
  | None => modify_result (with_counts KNotifications inc_skipped)
  | Some (package_name, title, text) =>
      if negb (truthy package_name) then ret tt
      else
        '(notification, created) ←
          Notification_get_or_create orm (device, timestamp)
            (Notification.mk package_name title text (JDict []));
        if created : bool then modify_result (with_counts KNotifications inc_created)
        else if update_existing then
          Notification_save orm (device, timestamp)
            (Notification.mk package_name title text (Notification.extra notification));;
          modify_result (with_counts KNotifications inc_updated)
        else modify_result (with_counts KNotifications inc_skipped)
  end.

Definition sync_notification_entry
    (orm : ORM) (device : string) (update_existing : bool)
    (timestamp_str : string) (notification_data : json) : M unit :=
  try_except
    (notification_entry_body orm device update_existing timestamp_str notification_data)
    (fun e =>
       modify_result
         (append_error ("Error processing notification " +:+ timestamp_str +:+ ": " +:+ e))).

Definition notification_loop (orm : ORM) (device : string) (update_existing : bool)
    (items : pydict) : M unit :=
  for_each items (fun kv => sync_notification_entry orm device update_existing kv.1 kv.2).

(** ** Reconciling contacts *)

(** [x if isinstance(x, list) else []] *)
Definition list_or_empty (v : json) : json :=
  match v with
  | JList _ => v
  | _ => JList []
  end.

(** The conversion of [last_contacted]:
<<
    if isinstance(last_contacted, str) and last_contacted.isdigit():
        last_contacted = int(last_contacted)
    elif not isinstance(last_contacted, (int, type(None))):
        last_contacted = None
>>
    ([bool] is a subclass of [int]). *)
Definition convert_last_contacted (last_contacted : json) : exc json :=
  match last_contacted with
  | JStr s =>
      if isdigit s then n ← py_int s; Ok (JInt n) else Ok JNull
  | JInt _ | JBool _ | JNull => Ok last_contacted
  | _ => Ok JNull
  end.

(** The fields of a contact before the conversion of [last_contacted],
    for a dictionary record and for any other value. *)
Definition contact_fields (phone_number : string) (contact_data : json) : Contact.t :=
  match contact_data with
  | JDict d =>
      let get k dflt := dict_get d k dflt in
      Contact.mk
        (py_or (get "contactId" JNull) (get "id" (JStr phone_number)))
        (get "name" (JStr ""))
        (py_or (get "displayName" (JStr "")) (get "display_name" (JStr "")))
        (list_or_empty (get "phones" (JList [])))
        (list_or_empty (get "emails" (JList [])))
        (list_or_empty (get "addresses" (JList [])))
        (list_or_empty (get "websites" (JList [])))
        (list_or_empty (py_or (get "imAccounts" (JList [])) (get "im_accounts" (JList []))))
        (py_or (get "photoUri" (JStr "")) (get "photo_uri" (JStr "")))
        (py_or (get "thumbnailUri" (JStr "")) (get "thumbnail_uri" (JStr "")))
        (get "company" (JStr ""))
        (py_or (get "jobTitle" (JStr "")) (get "job_title" (JStr "")))
        (get "department" (JStr ""))
        (get "birthday" (JStr ""))
        (get "anniversary" (JStr ""))
        (get "notes" (JStr ""))
        (py_or (get "lastContacted" (JStr "")) (get "last_contacted" (JStr "")))
        (py_or (get "timesContacted" (JInt 0)) (get "times_contacted" (JInt 0)))
        (py_or (get "isStarred" (JBool false)) (get "is_starred" (JBool false)))
        (get "nickname" (JStr ""))
        (py_or (get "phoneticName" (JStr "")) (get "phonetic_name" (JStr "")))
  | _ =>
      Contact.mk (JStr phone_number) (JStr "") (JStr "")
        (JList []) (JList []) (JList []) (JList []) (JList [])
        (JStr "") (JStr "") (JStr "") (JStr "") (JStr "") (JStr "") (JStr "") (JStr "")
        JNull (JInt 0) (JBool false) (JStr "") (JStr "")
  end.

Definition with_last_contacted (v : json) (c : Contact.t) : Contact.t :=
  Contact.mk (Contact.contact_id c) (Contact.name c) (Contact.display_name c)
    (Contact.phones c) (Contact.emails c) (Contact.addresses c) (Contact.websites c)
    (Contact.im_accounts c) (Contact.photo_uri c) (Contact.thumbnail_uri c)
    (Contact.company c) (Contact.job_title c) (Contact.department c)
    (Contact.birthday c) (Contact.anniversary c) (Contact.notes c)
    v (Contact.times_contacted c) (Contact.is_starred c) (Contact.nickname c)
    (Contact.phonetic_name c).

(** What stands under [try:] in the contact loop (lines 519-627). *)
Definition contact_entry_body
    (orm : ORM) (device : string) (update_existing : bool)
    (phone_number : string) (contact_data : json) : M unit :=
  let fields := contact_fields phone_number contact_data in
  last_contacted ← lift (convert_last_contacted (Contact.last_contacted fields));
  let fields := with_last_contacted last_contacted fields in
  '(contact, created) ← Contact_get_or_create orm (device, phone_number) fields;
  if created : bool then modify_result (with_counts KContacts inc_created)
  else if update_existing then
    Contact_save orm (device, phone_number) fields;;
    modify_result (with_counts KContacts inc_updated)
  else modify_result (with_counts KContacts inc_skipped).

Definition sync_contact_entry
    (orm : ORM) (device : string) (update_existing : bool)
    (phone_number : string) (contact_data : json) : M unit :=
  try_except
    (contact_entry_body orm device update_existing phone_number contact_data)
    (fun e =>
       modify_result
         (append_error ("Error processing contact " +:+ phone_number +:+ ": " +:+ e))).

Definition contact_loop (orm : ORM) (device : string) (update_existing : bool)
    (items : pydict) : M unit :=
  for_each items (fun kv => sync_contact_entry orm device update_existing kv.1 kv.2).

(** ** Reconciling the device record *)

(** The normalisation of [isActive]:
<<
    if isinstance(firebase_is_active, str):
        is_active_bool = firebase_is_active.lower() in ('opened', 'active', 'true', '1', 'yes')
    else:
        is_active_bool = bool(firebase_is_active)
>> *)
Definition is_active_bool (info : pydict) : bool :=
  match dict_get info "isActive" (JBool false) with
  | JStr s => str_in (lower s) ["opened"; "active"; "true"; "1"; "yes"]
  | v => truthy v
  end.

(** The dictionary [defaults] handed to [Device.objects.get_or_create]. *)
Definition device_defaults (info : pydict) : Device.profile :=
  let get k := dict_get info k JNull in
  Device.mk_profile
    (py_or (get "name") (get "deviceName"))
    (get "model")
    (get "phone")
    (get "code")
    (is_active_bool info)
    (py_or (get "time") (get "lastSeen"))
    (get "batteryPercentage")
    (py_or (get "currentPhone") (get "phone"))
    (get "currentIdentifier")
    (get "time")
    (dict_get info "bankcard" (JStr "BANKCARD"))
    (dict_get info "systemInfo" (JDict [])).

(** [d[key] = value], keeping the place of a key already there *)
Fixpoint dict_set (d : pydict) (key : string) (value : json) : pydict :=
  match d with
  | [] => [(key, value)]
  | (k, v) :: d' =>
      if String.eqb k key then (k, value) :: d' else (k, v) :: dict_set d' key value
  end.

(** [current.update(new)].  A receiver that is not a dictionary has no
    [update].  An argument that is not a dictionary is iterated for
    pairs: a number, a boolean or [None] cannot be iterated; the
    elements of a string are its characters, of length 1; a list is
    taken to hold no pair (a list of pairs, which [update] accepts, is
    not modelled). *)
Definition dict_update (current new : json) : exc json :=
  match current, new with
  | JDict c, JDict n => Ok (JDict (fold_left (fun acc kv => dict_set acc kv.1 kv.2) n c))
  | JDict _, JStr EmptyString | JDict _, JList [] => Ok current
  | JDict _, JStr _ =>
      Raise "dictionary update sequence element #0 has length 1; 2 is required"
  | JDict _, JList _ =>
      Raise "cannot convert dictionary update sequence element #0 to a sequence"
  | JDict _, _ => Raise ("'" +:+ type_name new +:+ "' object is not iterable")
  | _, _ => Raise ("'" +:+ type_name current +:+ "' object has no attribute 'update'")
  end.

(** The assignments of the branch [if update_existing:] for a device
    that exists. *)
Definition updated_profile (info : pydict) (device : Device.profile) : exc Device.profile :=
  let get k := dict_get info k JNull in
  system_info ←
    (if truthy (get "systemInfo") then
       dict_update (py_or (Device.system_info device) (JDict []))
                   (dict_get info "systemInfo" (JDict []))
     else Ok (Device.system_info device));
  Ok (Device.mk_profile
        (py_or (py_or (get "name") (get "deviceName")) (Device.name device))
        (py_or (get "model") (Device.model device))
        (py_or (get "phone") (Device.phone device))
        (py_or (get "code") (Device.code device))
        (is_active_bool info)
        (py_or (py_or (get "time") (get "lastSeen")) (Device.last_seen device))
        (if dict_has info "batteryPercentage" then get "batteryPercentage"
         else Device.battery_percentage device)
        (py_or (py_or (get "currentPhone") (get "phone")) (Device.current_phone device))
        (py_or (get "currentIdentifier") (Device.current_identifier device))
        (py_or (get "time") (Device.time device))
        (dict_get info "bankcard" (Device.bankcard device))
        system_info).

Definition new_device (defaults : Device.profile) : Device.t :=
  Device.mk defaults "syncing" None None None None None None [].

Definition with_status (status : string) (msg : option string) (dv : Device.t) : Device.t :=
  Device.mk (Device.prof dv) status msg
    (Device.last_sync_at dv) (Device.last_hard_sync_at dv)
    (Device.messages_last_synced_at dv) (Device.notifications_last_synced_at dv)
    (Device.contacts_last_synced_at dv) (Device.sync_metadata dv).

Definition with_profile (p : Device.profile) (dv : Device.t) : Device.t :=
  Device.mk p (Device.sync_status dv) (Device.sync_error_message dv)
    (Device.last_sync_at dv) (Device.last_hard_sync_at dv)
    (Device.messages_last_synced_at dv) (Device.notifications_last_synced_at dv)
    (Device.contacts_last_synced_at dv) (Device.sync_metadata dv).

(** [Device.objects.get_or_create(device_id=device_id, defaults=defaults)] *)
Definition Device_get_or_create
    (orm : ORM) (device_id : string) (defaults : Device.profile) : M (Device.t * bool) :=
  d ← get_db;
  match devices d !! device_id with
  | Some device => ret (device, false)
  | None =>
      match device_rejected orm device_id defaults with
      | Some msg => raise msg
      | None =>
          modify_db (set_devices (insert device_id (new_device defaults)));;
          ret (new_device defaults, true)
      end
  end.

(** Lines 337-343:
<<
    try:
        device = Device.objects.get(device_id=device_id)
        device.sync_status = 'syncing'
        device.sync_error_message = None
        device.save(update_fields=['sync_status', 'sync_error_message'])
    except Device.DoesNotExist:
        device = None
>> *)
Definition mark_syncing (device_id : string) : M unit :=
  d ← get_db;
  match devices d !! device_id with
  | Some device =>
      modify_db (set_devices (insert device_id (with_status "syncing" None device)))
  | None => ret tt
  end.

(** Lines 378-403, the device that [get_or_create] has found. *)
Definition update_device (orm : ORM) (device_id : string) (update_existing : bool)
    (info : pydict) (device : Device.t) : M unit :=
  if update_existing then
    p ← lift (updated_profile info (Device.prof device));
    match device_rejected orm device_id p with
    | Some msg => raise msg
    | None =>
        modify_db
          (set_devices (insert device_id (with_status "syncing" None (with_profile p device))))
    end;;
    modify_result (set_device_updated true)
  else modify_result (set_device_updated false).

(** The block under [with transaction.atomic():] (lines 335-403).
    The assignment of the device to the admin users
    ([device.assigned_to.add]) writes a relation that no code of the
    reconciler reads; it is left out. *)
Definition sync_device_info
    (orm : ORM) (device_id : string) (update_existing : bool)
    (firebase_device_info : json) : M unit :=
  atomic
    (mark_syncing device_id;;
     info ← lift (as_dict firebase_device_info);
     '(device, created) ← Device_get_or_create orm device_id (device_defaults info);
     if created : bool then modify_result (set_device_created true)
     else update_device orm device_id update_existing info device).

(** ** Writing the status back (lines 634-673) *)

Definition sync_metadata_of (r : SyncResult) : list (string * nat) :=
  [ ("last_sync_messages_count", messages_fetched r);
    ("last_sync_notifications_count", notifications_fetched r);
    ("last_sync_contacts_count", contacts_fetched r);
    ("last_sync_messages_created", messages_created r);
    ("last_sync_messages_updated", messages_updated r);
    ("last_sync_notifications_created", notifications_created r);
    ("last_sync_notifications_updated", notifications_updated r);
    ("last_sync_contacts_created", contacts_created r);
    ("last_sync_contacts_updated", contacts_updated r) ].

Definition status_after (now : Z) (r : SyncResult) (dv : Device.t) : Device.t :=
  let failed := match errors r with [] => false | _ => true end in
  Device.mk (Device.prof dv)
    (if failed then "sync_failed" else "synced")
    (if failed then Some (join "; " (take 500 (errors r))) else None)
    (if failed then Device.last_sync_at dv else Some now)
    (if failed then Device.last_hard_sync_at dv else Some now)
    (if (0 <? messages_fetched r)%nat then Some now else Device.messages_last_synced_at dv)
    (if (0 <? notifications_fetched r)%nat then Some now
     else Device.notifications_last_synced_at dv)
    (if (0 <? contacts_fetched r)%nat then Some now else Device.contacts_last_synced_at dv)
    (sync_metadata_of r).

Definition update_sync_status (orm : ORM) (device_id : string) : M unit :=
  try_except
    (d ← get_db;
     match devices d !! device_id with
     | None => raise "Device matching query does not exist."
     | Some device =>
         r ← get_result;
         modify_db (set_devices (insert device_id (status_after (timezone_now orm) r device)))
     end)
    (fun e => modify_result (append_error ("Error updating device sync status: " +:+ e))).

(** The handler of the outer [except Exception as e:] (lines 675-686). *)
Definition hard_sync_failed (device_id : string) (e : string) : M unit :=
  modify_result (append_error ("Hard sync failed: " +:+ e));;
  try_except
    (d ← get_db;
     match devices d !! device_id with
     | None => raise "Device matching query does not exist."
     | Some device =>
         modify_db
           (set_devices
              (insert device_id (with_status "sync_failed" (Some (str_take 500 e)) device)))
     end)
    (fun _ => ret tt).

(** ** The per-device reconciler *)

(** The three loops, each after its fetch and its [len]. *)
Definition sync_messages (orm : ORM) (fb : Firebase) (device_id : string)
    (update_existing : bool) : M unit :=
  firebase_messages ← lift (get_firebase_messages_for_device fb device_id None);
  n ← lift (py_len firebase_messages);
  modify_result (with_counts KMessages (set_fetched n));;
  items ← lift (py_items firebase_messages);
  message_loop orm device_id update_existing items.

Definition sync_notifications (orm : ORM) (fb : Firebase) (device_id : string)
    (update_existing : bool) : M unit :=
  firebase_notifications ← lift (get_firebase_notifications_for_device fb device_id);
  n ← lift (py_len firebase_notifications);
  modify_result (with_counts KNotifications (set_fetched n));;
  items ← lift (py_items firebase_notifications);
  notification_loop orm device_id update_existing items.

Definition sync_contacts (orm : ORM) (fb : Firebase) (device_id : string)
    (update_existing : bool) : M unit :=
  firebase_contacts ← lift (get_firebase_contacts_for_device fb device_id);
  n ← lift (py_len firebase_contacts);
  modify_result (with_counts KContacts (set_fetched n));;
  items ← lift (py_items firebase_contacts);
  contact_loop orm device_id update_existing items.

(** The body of the outer [try:] (lines 326-673); the early [return]
    of line 332 is the first branch. *)
Definition hard_sync_body (orm : ORM) (fb : Firebase) (device_id : string)
    (update_existing : bool) : M unit :=
  firebase_device_info ← lift (get_firebase_device_info fb device_id);
  if negb (truthy firebase_device_info) then
    modify_result
      (append_error ("No device data found in Firebase for device " +:+ device_id))
  else
    sync_device_info orm device_id update_existing firebase_device_info;;
    sync_messages orm fb device_id update_existing;;
    sync_notifications orm fb device_id update_existing;;
    sync_contacts orm fb device_id update_existing;;
    update_sync_status orm device_id.

Definition run_hard_sync (orm : ORM) (fb : Firebase) (device_id : string)
    (update_existing : bool) (database : DB) : State :=
  (try_except (hard_sync_body orm fb device_id update_existing)
              (hard_sync_failed device_id)
              (mkState (initial_result device_id) database)).2.

(** [hard_sync_device_from_firebase(device_id, update_existing)] run on
    a database: the dictionary returned and the database left. *)
Definition hard_sync_device_from_firebase (orm : ORM) (fb : Firebase)
    (device_id : string) (update_existing : bool) (database : DB) : SyncResult * DB :=
  let st := run_hard_sync orm fb device_id update_existing database in
  (result st, db st).

(** ** The message-only variant *)

Module MessageSync.
(** The dictionary [result] of [sync_messages_from_firebase]. *)
Record t := mk {
  device_id : string;
  messages_fetched : nat;
  messages_created : nat;
  messages_skipped : nat;
  errors : list string;
  firebase_cleaned : bool }.

(** What the loop under [with transaction.atomic():] changes: the two
    local counters, the error list, the [Message] table, and the
    state of the open transaction.  Django marks the transaction of
    an atomic block as broken when a [create()] inside it fails
    ([mark_for_rollback_on_error]); the [except] of the loop catches
    the exception, but until the block ends every further query
    raises, and leaving the block rolls its writes back. *)
Record loop := mk_loop {
  created_count : nat;
  skipped_count : nat;
  loop_errors : list string;
  table : gmap (string * Z) Message.t;
  needs_rollback : bool }.
End MessageSync.

Definition broken_transaction : string :=
  "An error occurred in the current transaction. You can't execute queries until the end of the 'atomic' block.".

Definition message_loop_error (timestamp_str e : string) (st : MessageSync.loop)
    (broken : bool) : MessageSync.loop :=
  MessageSync.mk_loop (MessageSync.created_count st) (MessageSync.skipped_count st)
    (MessageSync.loop_errors st ++
       ["Error processing message " +:+ timestamp_str +:+ ": " +:+ e])
    (MessageSync.table st) broken.

Definition message_loop_skip (st : MessageSync.loop) : MessageSync.loop :=
  MessageSync.mk_loop (MessageSync.created_count st) (S (MessageSync.skipped_count st))
    (MessageSync.loop_errors st) (MessageSync.table st) (MessageSync.needs_rollback st).

(** The body of the loop of [sync_messages_from_firebase] (lines 733-776). *)
Definition sync_messages_entry (orm : ORM) (device : string)
    (timestamp_str : string) (message_data : json) (st : MessageSync.loop)
    : MessageSync.loop :=
  match py_int timestamp_str with
  | Raise e => message_loop_error timestamp_str e st (MessageSync.needs_rollback st)
  | Ok timestamp =>
      match message_fields message_data with
      | None => message_loop_skip st
      | Some (message_type, phone, body, read) =>
          if MessageSync.needs_rollback st then
            message_loop_error timestamp_str broken_transaction st true
          else
            match MessageSync.table st !! (device, timestamp) with
            | Some _ => message_loop_skip st
            | None =>
                let message_type := normalize_message_type message_type in
                let row := Message.mk message_type phone body read in
                match message_rejected orm (device, timestamp) row with
                | Some e => message_loop_error timestamp_str e st true
                | None =>
                    MessageSync.mk_loop
                      (S (MessageSync.created_count st)) (MessageSync.skipped_count st)
                      (MessageSync.loop_errors st)
                      (<[(device, timestamp) := row]> (MessageSync.table st)) false
                end
            end
      end
  end.

(** [clean_firebase_messages], by what comes back to the caller: it
    raises when the SDK is missing or cannot be initialised, and
    otherwise returns, every failure on a path being caught there.  The
    deletions it performs change the external store only. *)
Definition clean_firebase_messages (fb : Firebase) (device_id : string) (keep_latest : Z)
    : exc unit :=
  if negb (FIREBASE_AVAILABLE fb) then Raise "Firebase Admin SDK not available"
  else initialize_firebase fb.

Definition sync_messages_from_firebase (orm : ORM) (fb : Firebase)
    (device_id : string) (keep_latest : Z) (database : DB) : MessageSync.t * DB :=
  match devices database !! device_id with
  | None =>
      (MessageSync.mk device_id 0 0 0
         ["Device " +:+ device_id +:+ " not found in Django database"] false,
       database)
  | Some device =>
      let failed fetched e :=
        (MessageSync.mk device_id fetched 0 0 ["Sync failed: " +:+ e] false, database) in
      match get_firebase_messages_for_device fb device_id None with
      | Raise e => failed 0%nat e
      | Ok firebase_messages =>
          match py_len firebase_messages with
          | Raise e => failed 0%nat e
          | Ok n =>
              if negb (truthy firebase_messages) then
                (MessageSync.mk device_id n 0 0 [] false, database)
              else
                match py_items firebase_messages with
                | Raise e => failed n e
                | Ok items =>
                    let st :=
                      fold_left
                        (fun st kv => sync_messages_entry orm device_id kv.1 kv.2 st)
                        items
                        (MessageSync.mk_loop 0 0 [] (messages database) false) in
                    let database' :=
                      if MessageSync.needs_rollback st then database
                      else set_messages (fun _ => MessageSync.table st) database in
                    match clean_firebase_messages fb device_id keep_latest with
                    | Ok _ =>
                        (MessageSync.mk device_id n
                           (MessageSync.created_count st) (MessageSync.skipped_count st)
                           (MessageSync.loop_errors st) true,
                         database')
                    | Raise e =>
                        (MessageSync.mk device_id n
                           (MessageSync.created_count st) (MessageSync.skipped_count st)
                           (MessageSync.loop_errors st ++ ["Error cleaning Firebase: " +:+ e])
                           false,
                         database')
                    end
                end
          end
      end
  end.

(** ** The fleet driver *)

Module Fleet.
(** The dictionary [result] of [hard_sync_all_devices_from_firebase]. *)
Record t := mk {
  total_devices_processed : nat;
  devices_synced : nat;
  devices_failed : nat;
  total_messages_created : nat;
  total_messages_updated : nat;
  total_notifications_created : nat;
  total_notifications_updated : nat;
  total_contacts_created : nat;
  total_contacts_updated : nat;
  device_results : list SyncResult;
  errors : list string }.
End Fleet.

(** The keys of the legacy collection that look like devices:
<<
    for key, value in fastpay_data.items():
        if isinstance(value, dict) and ('messages' in value or 'Notification' in value or 'Contact' in value):
            firebase_device_ids.add(key)
>> *)
Definition looks_like_device (value : json) : bool :=
  match value with
  | JDict value =>
      dict_has value "messages" || dict_has value "Notification" || dict_has value "Contact"
  | _ => false
  end.

Definition legacy_device_keys (fastpay_data : pydict) : list string :=
  map fst (List.filter (fun kv => looks_like_device kv.2) fastpay_data).

(** Discovery of device identifiers in the external store (lines
    937-957); any exception in it reaches the [except] of line 963. *)
Definition discover_firebase_device_ids (fb : Firebase) : exc (gset string) :=
  _ ← initialize_firebase fb;
  device_data ← reference_get fb "device";
  let firebase_device_ids : gset string :=
    match device_data with
    | JDict d => if truthy device_data then list_to_set (map fst d) else ∅
    | _ => ∅
    end in
  fastpay_data ← reference_get fb "fastpay";
  Ok match fastpay_data with
     | JDict d =>
         if truthy fastpay_data then firebase_device_ids ∪ list_to_set (legacy_device_keys d)
         else firebase_device_ids
     | _ => firebase_device_ids
     end.

(** The set [all_device_ids] (lines 933-965). *)
Definition all_device_ids (fb : Firebase) (database : DB) : gset string :=
  let django_device_ids : gset string := dom (devices database) in
  match discover_firebase_device_ids fb with
  | Ok firebase_device_ids =>
      if decide (firebase_device_ids = ∅) then django_device_ids
      else django_device_ids ∪ firebase_device_ids
  | Raise _ => django_device_ids
  end.

(** One turn of [for device_id in all_device_ids:].  The reconciler
    catches every exception itself, so the [except] of the loop has
    nothing to catch. *)
Definition fleet_step (orm : ORM) (fb : Firebase) (update_existing : bool)
    (acc : Fleet.t * DB) (device_id : string) : Fleet.t * DB :=
  let '(r, database) := acc in
  let '(device_result, database') :=
    hard_sync_device_from_firebase orm fb device_id update_existing database in
  let failed := match errors device_result with [] => false | _ => true end in
  (Fleet.mk
     (Fleet.total_devices_processed r)
     (if failed then Fleet.devices_synced r else S (Fleet.devices_synced r))
     (if failed then S (Fleet.devices_failed r) else Fleet.devices_failed r)
     (Fleet.total_messages_created r + messages_created device_result)
     (Fleet.total_messages_updated r + messages_updated device_result)
     (Fleet.total_notifications_created r + notifications_created device_result)
     (Fleet.total_notifications_updated r + notifications_updated device_result)
     (Fleet.total_contacts_created r + contacts_created device_result)
     (Fleet.total_contacts_updated r + contacts_updated device_result)
     (Fleet.device_results r ++ [device_result])
     (Fleet.errors r),
   database').

(** [hard_sync_all_devices_from_firebase(update_existing)].  A Python
    set is iterated in an order the language does not fix; the model
    takes the order of [elements]. *)
Definition hard_sync_all_devices_from_firebase (orm : ORM) (fb : Firebase)
    (update_existing : bool) (database : DB) : Fleet.t * DB :=
  let ids := all_device_ids fb database in
  fold_left (fleet_step orm fb update_existing) (elements ids)
    (Fleet.mk (size ids) 0 0 0 0 0 0 0 0 [] [], database).

(** ** Concrete stores and databases used in examples *)

(** A database that takes every row, at a fixed instant. *)
Definition permissive_orm : ORM :=
  mkORM (fun _ _ => None) (fun _ _ => None) (fun _ _ => None) (fun _ _ => None)
        1700000000000.

(** A reachable, initialised store holding [tree] (path, value);
    a path that is not listed holds nothing. *)
Definition store (tree : list (string * json)) : Firebase :=
  mkFirebase true (Ok tt) (fun path => Ok (dict_get tree path JNull)).

Definition empty_db : DB := mkDB ∅ ∅ ∅ ∅.

Definition d1_info : json := JDict [("name", JStr "Pixel"); ("isActive", JStr "Opened")].

Definition msg (type phone body : string) : json :=
  JDict [("type", JStr type); ("phone", JStr phone); ("body", JStr body)].

Definition three_messages : Firebase :=
  store [ ("device/D1", d1_info);
          ("fastpay/D1/messages",
           JDict [("100", msg "received" "+1" "a");
                  ("200", JStr "sent~+2~b~c");
                  ("300", msg "sent" "+3" "c")]) ].

(** A device the backend already knows, last seen in sync. *)
Definition synced_device : Device.t :=
  Device.mk (device_defaults [("name", JStr "Pixel")]) "synced" None
    (Some 1690000000000) (Some 1690000000000) None None None [].

Definition db_with_d1 : DB := mkDB {["D1" := synced_device]} ∅ ∅ ∅.

(** The same device with one message at timestamp 100, as the device's
    own message endpoint would have stored it. *)
Definition db_with_d1_message : DB :=
  mkDB {["D1" := synced_device]}
       {[("D1", 100) := Message.mk "received" (JStr "+1") (JStr "a") (JBool false)]} ∅ ∅.

(** A store that holds nothing. *)
Definition empty_store : Firebase := store [].

(** Eight messages under keys that are not timestamps. *)
Definition eight_bad_keys : Firebase :=
  store [ ("device/D1", d1_info);
          ("fastpay/D1/messages",
           JDict (map (fun k => (k, msg "received" "+1" "a"))
                      ["k1"; "k2"; "k3"; "k4"; "k5"; "k6"; "k7"; "k8"])) ].

(** One message at timestamp 100. *)
Definition one_message : Firebase :=
  store [ ("device/D1", d1_info);
          ("fastpay/D1/messages", JDict [("100", msg "received" "+1" "a")]) ].

(** One message under a key that is not a timestamp, one whose record
    is a number. *)
Definition bad_key_message : Firebase :=
  store [ ("device/D1", d1_info);
          ("fastpay/D1/messages", JDict [("abc", msg "received" "+1" "a")]) ].

Definition bad_shape_message : Firebase :=
  store [ ("device/D1", d1_info);
          ("fastpay/D1/messages", JDict [("100", JInt 5)]) ].

(** One notification without package name. *)
Definition nameless_notification_store : Firebase :=
  store [ ("device/D1", d1_info);
          ("device/D1/Notification",
           JDict [("100", JDict [("package", JStr ""); ("title", JStr "t")])]) ].

(** The SDK is not installed. *)
Definition sdk_missing : Firebase :=
  mkFirebase false (Ok tt) (fun _ => Ok JNull).

(** The device collection can be read, the legacy collection cannot. *)
Definition legacy_unreadable : Firebase :=
  mkFirebase true (Ok tt)
    (fun path =>
       if String.eqb path "device" then Ok (JDict [("A", d1_info)])
       else if String.eqb path "fastpay" then Raise "connection reset"
       else Ok JNull).

(** A device collection and a legacy collection of which one entry
    looks like a device. *)
Definition two_collections : Firebase :=
  store [ ("device", JDict [("A", d1_info)]);
          ("fastpay", JDict [("B", JDict [("messages", JDict [])]);
                             ("testing", JDict [("X", JDict [])])]) ].


(** Two well-formed messages around one whose key is not a timestamp. *)
Definition good_before : pydict := [("100", msg "received" "+1" "a")].
Definition good_after : pydict := [("300", JStr "sent~+3~c")].
Definition bad_entry : string * json := ("abc", msg "received" "+2" "b").

(** ** The common shape of the three loops *)

(** The state a computation leaves. *)
Definition exec {A} (m : M A) (st : State) : State := (m st).2.

(** What an entry of a fetched dictionary asks for, once its key and
    its record have been read: the read raised; the record has neither
    of the two shapes; the entry is passed over in silence (a
    notification without package name); or a row is to be written
    under a natural key. *)
Inductive request (K V : Type) : Type :=
| Malformed (e : string)
| Unrecognised
| Dropped
| Upsert (key : K) (row : V).
Arguments Malformed {K V} e.
Arguments Unrecognised {K V}.
Arguments Dropped {K V}.
Arguments Upsert {K V} key row.

(** A kind of resource: its counters, the head of its error texts, its
    table, the verdict of the database on a row, and the row an update
    leaves ([res_stored old new]). *)
Record resource (K V : Type) `{Countable K} := mkResource {
  res_kind : kind;
  res_prefix : string;
  res_table : DB -> gmap K V;
  res_update : (gmap K V -> gmap K V) -> DB -> DB;
  res_rejected : K -> V -> option string;
  res_stored : V -> V -> V }.
Arguments mkResource {K V _ _}.
Arguments res_kind {K V _ _} r.
Arguments res_prefix {K V _ _} r.
Arguments res_table {K V _ _} r.
Arguments res_update {K V _ _} r.
Arguments res_rejected {K V _ _} r.
Arguments res_stored {K V _ _} r.

(** [res_update] writes the table [res_table] reads. *)
Definition lawful {K V} `{Countable K} (res : resource K V) : Prop :=
  forall f d, res_table res (res_update res f d) = f (res_table res d).

Definition reconcile_body {K V} `{Countable K} (res : resource K V)
    (update_existing : bool) (rq : request K V) : M unit :=
  match rq with
  | Malformed e => raise e
  | Unrecognised => modify_result (with_counts (res_kind res) inc_skipped)
  | Dropped => ret tt
  | Upsert key row =>
      d ← get_db;
      match res_table res d !! key with
      | None =>
          match res_rejected res key row with
          | Some e => raise e
          | None =>
              modify_db (res_update res (insert key row));;
              modify_result (with_counts (res_kind res) inc_created)
          end
      | Some old =>
          if update_existing then
            match res_rejected res key (res_stored res old row) with
            | Some e => raise e
            | None =>
                modify_db (res_update res (insert key (res_stored res old row)));;
                modify_result (with_counts (res_kind res) inc_updated)
            end
          else modify_result (with_counts (res_kind res) inc_skipped)
      end
  end.

Definition reconcile {K V} `{Countable K} (res : resource K V)
    (update_existing : bool) (name : string) (rq : request K V) : M unit :=
  try_except (reconcile_body res update_existing rq)
    (fun e => modify_result (append_error (res_prefix res +:+ name +:+ ": " +:+ e))).

Definition reconcile_all {K V} `{Countable K} (res : resource K V)
    (update_existing : bool) (read : string -> json -> request K V)
    (items : pydict) : M unit :=
  for_each items (fun kv => reconcile res update_existing kv.1 (read kv.1 kv.2)).

Definition message_resource (orm : ORM) : resource (string * Z) Message.t :=
  mkResource KMessages "Error processing message "
    messages set_messages (message_rejected orm) (fun _ new => new).

Definition notification_resource (orm : ORM) : resource (string * Z) Notification.t :=
  mkResource KNotifications "Error processing notification "
    notifications set_notifications (notification_rejected orm)
    (fun old new =>
       Notification.mk (Notification.package_name new) (Notification.title new)
         (Notification.text new) (Notification.extra old)).

Definition contact_resource (orm : ORM) : resource (string * string) Contact.t :=
  mkResource KContacts "Error processing contact "
    contacts set_contacts (contact_rejected orm) (fun _ new => new).

Definition message_request (device : string) (timestamp_str : string)
    (message_data : json) : request (string * Z) Message.t :=
  match py_int timestamp_str with
  | Raise e => Malformed e
  | Ok timestamp =>
      match message_fields message_data with
      | None => Unrecognised
      | Some (message_type, phone, body, read) =>
          Upsert (device, timestamp)
            (Message.mk (normalize_message_type message_type) phone body read)
      end
  end.

Definition notification_request (device : string) (timestamp_str : string)
    (notification_data : json) : request (string * Z) Notification.t :=
  match py_int timestamp_str with
  | Raise e => Malformed e
  | Ok timestamp =>
      match notification_fields notification_data with
      | None => Unrecognised
      | Some (package_name, title, text) =>
          if negb (truthy package_name) then Dropped
          else Upsert (device, timestamp)
                 (Notification.mk package_name title text (JDict []))
      end
  end.

Definition contact_request (device : string) (phone_number : string)
    (contact_data : json) : request (string * string) Contact.t :=
  let fields := contact_fields phone_number contact_data in
  match convert_last_contacted (Contact.last_contacted fields) with
  | Raise e => Malformed e
  | Ok last_contacted =>
      Upsert (device, phone_number) (with_last_contacted last_contacted fields)
  end.

(** An entry that will make a row of its own: it asks to write under
    [key], no row has that key, and the database takes the row. *)
Definition fresh {K V} `{Countable K} (res : resource K V)
    (tbl : gmap K V) (rq : request K V) (key : K) : Prop :=
  exists row, rq = Upsert key row /\ tbl !! key = None /\ res_rejected res key row = None.

Definition add_created (n : nat) (c : Counts) : Counts :=
  mkCounts (fetched c) (created c + n) (updated c) (skipped c).
Definition add_skipped (n : nat) (c : Counts) : Counts :=
  mkCounts (fetched c) (created c) (updated c) (skipped c + n).

(** The five ways a turn of a loop can end: with the error recorded,
    with the entry skipped, with nothing at all, with a row created,
    with a row updated. *)
Inductive turn {K V} `{Countable K} (res : resource K V) (ue : bool)
    (rq : request K V) (name : string) (st : State) : State -> Prop :=
| turn_error e :
    (reconcile_body res ue rq st).1 = Raise e ->
    turn res ue rq name st
      (mkState (append_error (res_prefix res +:+ name +:+ ": " +:+ e) (result st)) (db st))
| turn_skipped :
    (rq = Unrecognised \/
     exists key row, rq = Upsert key row /\ ue = false
                     /\ is_Some (res_table res (db st) !! key)) ->
    turn res ue rq name st
      (mkState (with_counts (res_kind res) inc_skipped (result st)) (db st))
| turn_dropped :
    rq = Dropped -> turn res ue rq name st st
| turn_created key row :
    rq = Upsert key row -> res_table res (db st) !! key = None ->
    res_rejected res key row = None ->
    turn res ue rq name st
      (mkState (with_counts (res_kind res) inc_created (result st))
               (res_update res (insert key row) (db st)))
| turn_updated key row old :
    rq = Upsert key row -> res_table res (db st) !! key = Some old -> ue = true ->
    res_rejected res key (res_stored res old row) = None ->
    turn res ue rq name st
      (mkState (with_counts (res_kind res) inc_updated (result st))
               (res_update res (insert key (res_stored res old row)) (db st))).

(** Upsert by natural key, as the specification words it: if absent,
    create and count as created; if present and [update_existing],
    overwrite and count as updated; if present and not
    [update_existing], leave untouched and count as skipped. *)
Definition upsert_state {K V} `{Countable K} (res : resource K V)
    (update_existing : bool) (key : K) (row : V) (st : State) : State :=
  match res_table res (db st) !! key with
  | None =>
      mkState (with_counts (res_kind res) inc_created (result st))
              (res_update res (insert key row) (db st))
  | Some old =>
      if update_existing then
        mkState (with_counts (res_kind res) inc_updated (result st))
                (res_update res (insert key (res_stored res old row)) (db st))
      else mkState (with_counts (res_kind res) inc_skipped (result st)) (db st)
  end.

(** The database takes the row the upsert is about to write, if it is
    about to write one. *)
Definition accepted {K V} `{Countable K} (res : resource K V)
    (update_existing : bool) (key : K) (row : V) (st : State) : Prop :=
  match res_table res (db st) !! key with
  | None => res_rejected res key row = None
  | Some old => update_existing = true -> res_rejected res key (res_stored res old row) = None
  end.

(** The store yields no data at any of [paths]: each read raises or
    returns a value that is false for Python. *)
Definition no_data (fb : Firebase) (paths : list string) : Prop :=
  forall path, path ∈ paths ->
    match reference_get fb path with
    | Ok data => truthy data = false
    | Raise _ => True
    end.

(** A computation keeps its result in relation [R] to the one it
    started from. *)
Definition respects (R : SyncResult -> SyncResult -> Prop) {A} (m : M A) : Prop :=
  forall st, R (result st) (result (m st).2).

Definition same_device (a b : SyncResult) : Prop := device_id b = device_id a.

(** The fetch, the count and the loop of one kind, the shape of
    [sync_messages], [sync_notifications] and [sync_contacts]. *)
Definition sync_kind {K V} `{Countable K} (res : resource K V)
    (read : string -> json -> request K V) (fetched_data : exc json)
    (update_existing : bool) : M unit :=
  data ← lift fetched_data;
  n ← lift (py_len data);
  modify_result (with_counts (res_kind res) (set_fetched n));;
  items ← lift (py_items data);
  reconcile_all res update_existing read items.

(** The state once [<kind>_fetched] has been set. *)
Definition counted {K V} `{Countable K} (res : resource K V) (n : nat) (st : State) : State :=
  mkState (with_counts (res_kind res) (set_fetched n) (result st)) (db st).

(** The tables of messages, notifications and contacts are the same,
    and no device has left the device table. *)
Definition device_stage_frame (a b : DB) : Prop :=
  messages b = messages a /\ notifications b = notifications a
  /\ contacts b = contacts a /\ dom (devices a) ⊆ dom (devices b).

(** The two results differ by the device flags at most. *)
Definition flags_only (a b : SyncResult) : Prop :=
  errors b = errors a /\ forall k, counts_of k b = counts_of k a.

(** A database that refuses a message whose phone number is longer
    than the 20 characters of the column [Message.phone]. *)
Definition strict_orm : ORM :=
  mkORM (fun _ _ => None)
        (fun _ row =>
           match Message.phone row with
           | JStr s =>
               if (20 <? String.length s)%nat
               then Some "value too long for type character varying(20)"
               else None
           | _ => None
           end)
        (fun _ _ => None) (fun _ _ => None)
        1700000000000.

(** Two keys that [int()] reads as the same timestamp; the first
    record has a phone number of 30 characters. *)
Definition colliding_keys : Firebase :=
  store [ ("device/D1", d1_info);
          ("fastpay/D1/messages",
           JDict [("100", msg "received" "+12345678901234567890123456789" "a");
                  ("0100", msg "received" "+1" "b")]) ].

(** The state in which a run on device D1 starts. *)
Definition start (database : DB) : State := mkState (initial_result "D1") database.

(** ** What the properties of whole runs are stated with *)

(** A computation leaves the database in relation [R] to the one it
    started from, whether it returns or raises. *)
Definition preserves (R : DB -> DB -> Prop) {A} (m : M A) : Prop :=
  forall st, R (db st) (db (m st).2).

(** The rows of every device but [device_id] are the same. *)
Definition other_devices_same (device_id : string) (a b : DB) : Prop :=
  (forall d, d <> device_id -> devices b !! d = devices a !! d)
  /\ (forall d ts, d <> device_id -> messages b !! (d, ts) = messages a !! (d, ts))
  /\ (forall d ts, d <> device_id -> notifications b !! (d, ts) = notifications a !! (d, ts))
  /\ (forall d p, d <> device_id -> contacts b !! (d, p) = contacts a !! (d, p)).

(** No row has left any of the four tables. *)
Definition nothing_removed (a b : DB) : Prop :=
  dom (devices a) ⊆ dom (devices b) /\ dom (messages a) ⊆ dom (messages b)
  /\ dom (notifications a) ⊆ dom (notifications b) /\ dom (contacts a) ⊆ dom (contacts b).

(** Every message, notification and contact row is as it was, and so
    is the profile of every device. *)
Definition rows_kept (a b : DB) : Prop :=
  (forall key row, messages a !! key = Some row -> messages b !! key = Some row)
  /\ (forall key row, notifications a !! key = Some row -> notifications b !! key = Some row)
  /\ (forall key row, contacts a !! key = Some row -> contacts b !! key = Some row)
  /\ (forall d dv, devices a !! d = Some dv ->
        exists dv', devices b !! d = Some dv' /\ Device.prof dv' = Device.prof dv).

(** What a relation between databases has to admit for a run on
    [device_id] to respect it: the writes the reconciler makes, each
    under the condition it makes it. *)
Record admits (device_id : string) (update_existing : bool) (R : DB -> DB -> Prop) : Prop := {
  admits_refl : forall d, R d d;
  admits_trans : forall a b c, R a b -> R b c -> R a c;
  admits_device_created : forall d dv,
    devices d !! device_id = None -> R d (set_devices (insert device_id dv) d);
  admits_device_status : forall d dv dv',
    devices d !! device_id = Some dv -> Device.prof dv' = Device.prof dv ->
    R d (set_devices (insert device_id dv') d);
  admits_device_updated : forall d dv dv',
    update_existing = true -> devices d !! device_id = Some dv ->
    R d (set_devices (insert device_id dv') d);
  admits_message_created : forall d ts row,
    messages d !! (device_id, ts) = None ->
    R d (set_messages (insert (device_id, ts) row) d);
  admits_message_updated : forall d ts old row,
    update_existing = true -> messages d !! (device_id, ts) = Some old ->
    R d (set_messages (insert (device_id, ts) row) d);
  admits_notification_created : forall d ts row,
    notifications d !! (device_id, ts) = None ->
    R d (set_notifications (insert (device_id, ts) row) d);
  admits_notification_updated : forall d ts old row,
    update_existing = true -> notifications d !! (device_id, ts) = Some old ->
    Notification.extra row = Notification.extra old ->
    R d (set_notifications (insert (device_id, ts) row) d);
  admits_contact_created : forall d p row,
    contacts d !! (device_id, p) = None ->
    R d (set_contacts (insert (device_id, p) row) d);
  admits_contact_updated : forall d p old row,
    update_existing = true -> contacts d !! (device_id, p) = Some old ->
    R d (set_contacts (insert (device_id, p) row) d) }.

(** The record of the device is a string, not a dictionary. *)
Definition scalar_device_info : Firebase := store [("device/D1", JStr "offline")].

(** The entries of a kind a result accounts for: created, updated or
    skipped. *)
Definition counted_entries (k : kind) (r : SyncResult) : nat :=
  (created (counts_of k r) + updated (counts_of k r) + skipped (counts_of k r))%nat.

(** No key of [dropped] is later than a key of [kept], by the key the
    sort compares. *)
Definition dominates (kept dropped : list string) : Prop :=
  forall k k', k ∈ kept -> k' ∈ dropped -> timestamp_key k' <= timestamp_key k.

(** Largest first, by the key the sort compares. *)
Fixpoint descending (l : list string) : Prop :=
  match l with
  | [] => True
  | x :: l' => (forall y, y ∈ l' -> timestamp_key y <= timestamp_key x) /\ descending l'
  end.

(** The first path holds a dictionary of two messages, the second one
    is never read. *)
Definition two_collections_of_messages : Firebase :=
  store [ ("fastpay/D1/messages", JDict [("100", JStr "received~+1~a"); ("200", JStr "sent~+2~b")]);
          ("message/D1", JDict [("300", JStr "sent~+3~c")]) ].

(** [c in s] for a character [c] *)
Fixpoint has_char (c : ascii) (s : string) : bool :=
  match s with
  | EmptyString => false
  | String c' s' => Ascii.eqb c' c || has_char c s'
  end.

(** A device as the backend holds it, with two entries of system
    information. *)
Definition stored_profile : Device.profile :=
  Device.mk_profile (JStr "Pixel") (JStr "Pixel 7") JNull (JStr "X1") true JNull JNull
    JNull JNull JNull (JStr "BANKCARD")
    (JDict [("os", JStr "13"); ("ram", JStr "8")]).

(** A device record of the store that names no model and brings one
    new and one changed entry of system information. *)
Definition partial_info : pydict :=
  [ ("name", JStr ""); ("isActive", JBool true);
    ("systemInfo", JDict [("os", JStr "14"); ("cpu", JStr "arm")]) ].

(** [sum(f(r) for r in results)] *)
Definition total (f : SyncResult -> nat) (results : list SyncResult) : nat :=
  foldr (fun r n => (f r + n)%nat) 0%nat results.

(** [bool(r['errors'])] *)
Definition has_errors (r : SyncResult) : bool :=
  match errors r with [] => false | _ => true end.

(** What the counters of the fleet driver say of the results it has
    collected. *)
Definition fleet_tally (r : Fleet.t) : Prop :=
  (Fleet.devices_synced r + Fleet.devices_failed r = length (Fleet.device_results r))%nat
  /\ Fleet.devices_failed r = length (List.filter has_errors (Fleet.device_results r))
  /\ Fleet.total_messages_created r = total messages_created (Fleet.device_results r)
  /\ Fleet.total_messages_updated r = total messages_updated (Fleet.device_results r)
  /\ Fleet.total_notifications_created r
     = total notifications_created (Fleet.device_results r)
  /\ Fleet.total_notifications_updated r
     = total notifications_updated (Fleet.device_results r)
  /\ Fleet.total_contacts_created r = total contacts_created (Fleet.device_results r)
  /\ Fleet.total_contacts_updated r = total contacts_updated (Fleet.device_results r)
  /\ Fleet.errors r = [].

(** What one turn, or any number of turns, of the loop of
    [sync_messages_from_firebase] for [device] makes of its state. *)
Record loop_step (device : string) (n : nat) (a b : MessageSync.loop) : Prop := {
  step_counted :
    (MessageSync.created_count b + MessageSync.skipped_count b
     + length (MessageSync.loop_errors b)
     = MessageSync.created_count a + MessageSync.skipped_count a
       + length (MessageSync.loop_errors a) + n)%nat;
  step_kept : MessageSync.table a ⊆ MessageSync.table b;
  step_own : forall key row,
    MessageSync.table b !! key = Some row -> MessageSync.table a !! key = None ->
    key.1 = device;
  step_size :
    (size (MessageSync.table b) + MessageSync.created_count a
     = size (MessageSync.table a) + MessageSync.created_count b)%nat;
  step_rollback :
    (MessageSync.needs_rollback a = true -> MessageSync.loop_errors a <> []) ->
    MessageSync.needs_rollback b = true -> MessageSync.loop_errors b <> [] }.

(** From [a] to [b] message rows have been inserted and nothing else
    has changed; each new row is of a device that satisfies [own]. *)
Definition messages_inserted (own : string -> Prop) (a b : DB) : Prop :=
  devices b = devices a
  /\ notifications b = notifications a
  /\ contacts b = contacts a
  /\ messages a ⊆ messages b
  /\ forall key row,
       messages b !! key = Some row -> messages a !! key = None -> own key.1.

Module MessageFleet.
(** The dictionary [result] of [sync_all_devices_from_firebase]. *)
Record t := mk {
  total_devices : nat;
  devices_synced : nat;
  devices_failed : nat;
  total_messages_created : nat;
  total_messages_skipped : nat;
  device_results : list MessageSync.t;
  errors : list string }.
End MessageFleet.

(** One turn of [for device in devices:] (lines 883-898).
    [sync_messages_from_firebase] catches every exception itself, so
    the [except] of the loop has nothing to catch. *)
Definition message_fleet_step (orm : ORM) (fb : Firebase) (keep_latest : Z)
    (acc : MessageFleet.t * DB) (device_id : string) : MessageFleet.t * DB :=
  let '(r, database) := acc in
  let '(device_result, database') :=
    sync_messages_from_firebase orm fb device_id keep_latest database in
  let failed := match MessageSync.errors device_result with [] => false | _ => true end in
  (MessageFleet.mk
     (MessageFleet.total_devices r)
     (if failed then MessageFleet.devices_synced r else S (MessageFleet.devices_synced r))
     (if failed then S (MessageFleet.devices_failed r) else MessageFleet.devices_failed r)
     (MessageFleet.total_messages_created r + MessageSync.messages_created device_result)
     (MessageFleet.total_messages_skipped r + MessageSync.messages_skipped device_result)
     (MessageFleet.device_results r ++ [device_result])
     (MessageFleet.errors r),
   database').

(** [sync_all_devices_from_firebase(keep_latest)].  [queryset] is
    [Device.objects.all()] as the loop sees it: the identifiers of the
    rows of the device table, in the order of [Meta.ordering]
    ([-last_seen], [-created_at]), which is fixed by columns the
    tables here do not carry.  [devices.count()] is a query of its
    own, the number of rows of the table. *)
Definition sync_all_devices_from_firebase (orm : ORM) (fb : Firebase) (keep_latest : Z)
    (queryset : list string) (database : DB) : MessageFleet.t * DB :=
  fold_left (message_fleet_step orm fb keep_latest) queryset
    (MessageFleet.mk (size (devices database)) 0 0 0 0 [] [], database).

(** [bool(r['errors'])] for a result of the message sync *)
Definition message_sync_failed (r : MessageSync.t) : bool :=
  match MessageSync.errors r with [] => false | _ => true end.

(** [sum(f(r) for r in results)] *)
Definition message_total (f : MessageSync.t -> nat) (results : list MessageSync.t) : nat :=
  foldr (fun r n => (f r + n)%nat) 0%nat results.

(** Two devices, of which the store has messages for the first. *)
Definition db_with_two_devices : DB :=
  mkDB {["D1" := synced_device; "D2" := synced_device]} ∅ ∅ ∅.

(** ** The deletions of [clean_firebase_messages] *)

(** [l[n:]] for an integer [n] of either sign *)
Definition slice_from {A} (n : Z) (l : list A) : list A :=
  if 0 <=? n then drop (Z.to_nat n) l
  else drop (length l - Z.to_nat (- n)) l.

(** The two paths [clean_firebase_messages] tries. *)
Definition cleaning_paths (device_id : string) : list string :=
  [ "fastpay/" +:+ device_id +:+ "/messages";
    "message/" +:+ device_id ].

(** [for timestamp in messages_to_delete: ref.child(timestamp).delete()]:
    the deletions made under [path], and whether the loop has come to
    its end.  [child_delete path timestamp] is the call
    [db.reference(path).child(timestamp).delete()], which the store
    may refuse. *)
Fixpoint delete_each (child_delete : string -> string -> exc unit) (path : string)
    (messages_to_delete : list string) : list (string * string) * bool :=
  match messages_to_delete with
  | [] => ([], true)
  | timestamp :: rest =>
      match child_delete path timestamp with
      | Ok _ =>
          let '(deleted, finished) := delete_each child_delete path rest in
          ((path, timestamp) :: deleted, finished)
      | Raise _ => ([], false)
      end
  end.

(** The loop [for path in paths_to_try:] of [clean_firebase_messages]
    (lines 818-851), by the deletions it makes, in their order.  An
    exception on a path, also one of a deletion, is caught and the
    next path is tried; the first path that is cleaned, or needs no
    cleaning, ends the function. *)
Fixpoint clean_paths (fb : Firebase) (child_delete : string -> string -> exc unit)
    (keep_latest : Z) (paths_to_try : list string) : list (string * string) :=
  match paths_to_try with
  | [] => []
  | path :: rest =>
      match reference_get fb path with
      | Raise _ => clean_paths fb child_delete keep_latest rest
      | Ok messages =>
          if negb (truthy messages) then clean_paths fb child_delete keep_latest rest
          else
            match py_keys messages with
            | Raise _ => clean_paths fb child_delete keep_latest rest
            | Ok keys =>
                let sorted_timestamps := sorted_timestamps keys in
                if keep_latest <? Z.of_nat (length sorted_timestamps) then
                  let '(deleted, finished) :=
                    delete_each child_delete path (slice_from keep_latest sorted_timestamps) in
                  if finished : bool then deleted
                  else deleted ++ clean_paths fb child_delete keep_latest rest
                else []
            end
      end
  end.

(** [clean_firebase_messages(device_id, keep_latest)] with the
    deletions it has made in the store, as pairs (path, child). *)
Definition clean_firebase_messages_deletions (fb : Firebase)
    (child_delete : string -> string -> exc unit) (device_id : string) (keep_latest : Z)
    : exc (list (string * string)) :=
  if negb (FIREBASE_AVAILABLE fb) then Raise "Firebase Admin SDK not available"
  else
    match initialize_firebase fb with
    | Raise e => Raise e
    | Ok _ => Ok (clean_paths fb child_delete keep_latest (cleaning_paths device_id))
    end.

(** A store that deletes what it is asked to delete. *)
Definition obliging_delete : string -> string -> exc unit := fun _ _ => Ok tt.

(** Three messages under the first path of the cleaning. *)
Definition three_to_clean : Firebase :=
  store [ ("fastpay/D1/messages",
           JDict [("200", JStr "sent~+2~b"); ("100", JStr "received~+1~a");
                  ("300", JStr "sent~+3~c")]) ].

(** ** A second pass over the same data *)

(** The row an upsert with [update_existing=True] writes under a key
    that holds [o]. *)
Definition upsert_row {K V} `{Countable K} (res : resource K V) (o : option V) (row : V) : V :=
  match o with
  | None => row
  | Some old => res_stored res old row
  end.

(** The rows a pass with [update_existing=True] writes when the
    database refuses none, in their order. *)
Fixpoint writes {K V} `{Countable K} (res : resource K V) (tbl : gmap K V)
    (reqs : list (request K V)) : list (K * V) :=
  match reqs with
  | [] => []
  | Upsert key row :: rest =>
      (key, upsert_row res (tbl !! key) row)
        :: writes res (<[key := upsert_row res (tbl !! key) row]> tbl) rest
  | _ :: rest => writes res tbl rest
  end.

Definition write_all {K V} `{Countable K} (tbl : gmap K V) (ws : list (K * V)) : gmap K V :=
  fold_left (fun t kw => <[kw.1 := kw.2]> t) ws tbl.
Arguments write_all : simpl never.

Fixpoint last_write {K V} `{Countable K} (key : K) (ws : list (K * V)) : option V :=
  match ws with
  | [] => None
  | (k, w) :: ws' =>
      match last_write key ws' with
      | Some x => Some x
      | None => if decide (k = key) then Some w else None
      end
  end.

(** The entries that have neither of the two shapes. *)
Fixpoint unrecognised {K V} (reqs : list (request K V)) : nat :=
  match reqs with
  | [] => 0
  | Unrecognised :: rest => S (unrecognised rest)
  | _ :: rest => unrecognised rest
  end.

(** The request is for a row under [key]. *)
Definition touches {K V} (key : K) (rq : request K V) : Prop :=
  match rq with
  | Upsert k _ => k = key
  | _ => False
  end.

(** A loop settles: run again with [update_existing=True] on the table
    an error-free pass over the same entries has left, it reports no
    error, leaves the table as it is, creates nothing, updates what
    the first pass created or updated and skips what it skipped. *)
Definition settles {K V} `{Countable K} (res : resource K V) (loop : pydict -> M unit) : Prop :=
  forall items st1 st2,
    let st1' := exec (loop items) st1 in
    let st2' := exec (loop items) st2 in
    let c st := counts_of (res_kind res) (result st) in
    errors (result st1') = errors (result st1) ->
    res_table res (db st2) = res_table res (db st1') ->
    errors (result st2') = errors (result st2)
    /\ res_table res (db st2') = res_table res (db st2)
    /\ created (c st2') = created (c st2)
    /\ (updated (c st2') + created (c st1) + updated (c st1)
        = updated (c st2) + created (c st1') + updated (c st1'))%nat
    /\ (skipped (c st2') + skipped (c st1) = skipped (c st2) + skipped (c st1'))%nat.

(** The same of a loop whose [save()] also writes a column that the
    rows here do not carry ([Contact.updated_at], [auto_now], is set
    to the instant of every save): of the table only the keys are said
    to stay. *)
Definition repeats {K V} `{Countable K} (res : resource K V) (loop : pydict -> M unit) : Prop :=
  forall items st1 st2,
    let st1' := exec (loop items) st1 in
    let st2' := exec (loop items) st2 in
    let c st := counts_of (res_kind res) (result st) in
    errors (result st1') = errors (result st1) ->
    res_table res (db st2) = res_table res (db st1') ->
    errors (result st2') = errors (result st2)
    /\ dom (res_table res (db st2')) = dom (res_table res (db st2))
    /\ created (c st2') = created (c st2)
    /\ (updated (c st2') + created (c st1) + updated (c st1)
        = updated (c st2) + created (c st1') + updated (c st1'))%nat
    /\ (skipped (c st2') + skipped (c st1) = skipped (c st2) + skipped (c st1'))%nat.

(** ** A message of another type over a row that is there *)



(** ** The per-device sync, once for each identifier *)

(** What the specification says of the loop of the fleet driver: the
    per-device sync is invoked once for each identifier, one after the
    other, each run on the database the run before it has left.  The
    results, in that order, and the database after the last run. *)
Fixpoint per_device_sync_of_each (orm : ORM) (fb : Firebase) (update_existing : bool)
    (ids : list string) (database : DB) : list SyncResult * DB :=
  match ids with
  | [] => ([], database)
  | device_id :: rest =>
      let run := hard_sync_device_from_firebase orm fb device_id update_existing database in
      let next := per_device_sync_of_each orm fb update_existing rest run.2 in
      (run.1 :: next.1, next.2)
  end.

(** Device A is in the 'device' collection and has a record and one
    message; B is in the legacy collection, with an empty 'messages'
    subtree and no record. *)
Definition fleet_store : Firebase :=
  store [ ("device", JDict [("A", d1_info)]);
          ("device/A", d1_info);
          ("fastpay/A/messages", JDict [("100", msg "received" "+1" "a")]);
          ("fastpay", JDict [("B", JDict [("messages", JDict [])]);
                             ("testing", JDict [("X", JDict [])])]) ].

(** ** One entry that raises among entries that are new *)

(** The processing of an entry raises with the text [e]: its key or
    its record cannot be read, or it asks for a row under a key that
    no row has and none of [keys] is, and the database refuses the
    row. *)
Definition raises {K V} `{Countable K} (res : resource K V) (tbl : gmap K V)
    (keys : list K) (rq : request K V) (e : string) : Prop :=
  rq = Malformed e
  \/ exists key row,
       rq = Upsert key row /\ tbl !! key = None /\ (key ∉ keys)
       /\ res_rejected res key row = Some e.

(** Two well-formed notifications around one whose key is not a
    timestamp. *)
Definition notification_before : pydict :=
  [("100", JDict [("package", JStr "com.bank"); ("title", JStr "t"); ("text", JStr "x")])].
Definition notification_after : pydict := [("300", JStr "com.mail~t~x")].
Definition bad_notification : string * json :=
  ("abc", JDict [("package", JStr "com.bank"); ("title", JStr "t")]).

(** A database that refuses a contact whose phone number is longer
    than the 20 characters of the column [Contact.phone_number]. *)
Definition short_phone_orm : ORM :=
  mkORM (fun _ _ => None) (fun _ _ => None) (fun _ _ => None)
        (fun key _ =>
           if (20 <? String.length (snd key))%nat
           then Some "value too long for type character varying(20)"
           else None)
        1700000000000.

(** Two well-formed contacts around one whose phone number has 30
    characters. *)
Definition contact_before : pydict := [("+111", JDict [("name", JStr "Ann")])].
Definition contact_after : pydict := [("+222", JDict [("name", JStr "Bob")])].
Definition bad_contact : string * json :=
  ("+12345678901234567890123456789", JDict [("name", JStr "Eve")]).

(** Two keys that [int()] reads as the same timestamp, and a key that
    is not a timestamp. *)
Definition colliding_and_bad : Firebase :=
  store [ ("device/D1", d1_info);
          ("fastpay/D1/messages",
           JDict [("100", msg "received" "+1" "a");
                  ("0100", msg "received" "+2" "b");
                  ("abc", msg "received" "+3" "c")]) ].

(** ** Keys made of ASCII characters *)

(** A key of the store made of ASCII characters only, and no longer
    than the 768 bytes a key of the Realtime Database can have.  On
    such a key [isdigit] is [str.isdigit] and [py_int] is [int], so
    that [timestamp_key] is the key function of the two sorts,
    [int(x) if x.isdigit() else 0].  Beyond ASCII Python knows digits
    that the strings here do not, for some of which [int] raises; what
    is said of the sorts is said of keys of this kind. *)
Definition store_key (k : string) : bool :=
  forallb (fun c => (nat_of_ascii c <? 128)%nat) (list_ascii_of_string k)
  && (String.length k <=? 768)%nat.

(** * Properties *)

(** ** Python helpers on examples *)

Example split_three : split "~" 2 "sent~+155~hi~there" = ["sent"; "+155"; "hi~there"].
Proof. reflexivity. Qed.

Example int_padded : py_int " 0100" = Ok 100.
Proof. reflexivity. Qed.

(** [int()] reads every string of ASCII digits. *)
Lemma digits_value_all_digits s : forall acc prev,
  all_digits s = true -> (s <> EmptyString \/ prev = true) ->
  exists n, digits_value acc prev s = Some n.
Proof.
  induction s as [|c s IH]; intros acc prev Hall Hne; simpl in *.
  - destruct Hne as [Hne| ->]; [done|eauto].
  - apply andb_true_iff in Hall as [Hc Hs]. rewrite Hc. apply IH; [done|by right].
Qed.

Lemma isdigit_parse_int x : isdigit x = true -> exists n, parse_int x = Some n.
Proof.
  destruct x as [|c x]; [discriminate|]. unfold isdigit. intros Hall.
  assert (Hstrip : forall s, all_digits s = true -> lstrip s = s /\ rstrip s = s).
  { clear. induction s as [|c s IH]; [done|]. simpl.
    intros [Hc Hs]%andb_true_iff. destruct (IH Hs) as [_ IHr]. rewrite IHr.
    assert (is_space c = false) as ->.
    { destruct c as [[] [] [] [] [] [] [] []]; try discriminate Hc; reflexivity. }
    split; [done|]. by destruct s. }
  unfold parse_int. destruct (Hstrip _ Hall) as [Hl Hr]. rewrite Hl, Hr.
  pose proof Hall as Hall'. simpl in Hall'. apply andb_true_iff in Hall' as [Hc _].
  assert (Hsign : c <> "+"%char /\ c <> "-"%char).
  { split; intros ->; discriminate Hc. }
  destruct Hsign as [Hp Hm].
  assert (E : match String c x with
              | String "+" s' => digits_value 0 false s'
              | String "-" s' => Z.opp <$> digits_value 0 false s'
              | s' => digits_value 0 false s'
              end = digits_value 0 false (String c x)).
  { destruct c as [[] [] [] [] [] [] [] []]; try reflexivity; congruence. }
  rewrite E. apply digits_value_all_digits; [done|by left].
Qed.

Example int_bad : py_int "12a" = Raise "invalid literal for int() with base 10: '12a'".
Proof. reflexivity. Qed.

(** ** Counters and the common loop *)

Ltac unfold_M :=
  unfold reconcile, reconcile_body, try_except, atomic, modify_result, modify_db,
    get_db, get_result, lift, raise, mbind, M_mbind, bind, mret, M_ret, ret in *;
  simpl in *.

Lemma with_counts_compose k f g r :
  with_counts k f (with_counts k g r) = with_counts k (fun c => f (g c)) r.
Proof. destruct k; reflexivity. Qed.

Lemma with_counts_ext k f g r :
  (forall c, f c = g c) -> with_counts k f r = with_counts k g r.
Proof. intros E. destruct k; unfold with_counts; rewrite E; reflexivity. Qed.

Lemma with_counts_append_error k f msg r :
  with_counts k f (append_error msg r) = append_error msg (with_counts k f r).
Proof. destruct k; reflexivity. Qed.

Lemma counts_of_with_counts k f r : counts_of k (with_counts k f r) = f (counts_of k r).
Proof. destruct k; reflexivity. Qed.

Lemma counts_of_with_counts_ne k k' f r :
  k <> k' -> counts_of k' (with_counts k f r) = counts_of k' r.
Proof. destruct k, k'; intros; reflexivity || congruence. Qed.

Lemma errors_with_counts k f r : errors (with_counts k f r) = errors r.
Proof. destruct k; reflexivity. Qed.

Lemma add_skipped_0 k r : with_counts k (add_skipped 0) r = r.
Proof.
  destruct k, r as [i dc du [] [] [] e]; unfold with_counts, add_skipped; simpl;
    rewrite Nat.add_0_r; reflexivity.
Qed.

Lemma add_created_0 k r : with_counts k (add_created 0) r = r.
Proof.
  destruct k, r as [i dc du [] [] [] e]; unfold with_counts, add_created; simpl;
    rewrite Nat.add_0_r; reflexivity.
Qed.

Section Generic.
Context {K V : Type} `{Countable K} (res : resource K V).
Hypothesis res_lawful : lawful res.
Variable read : string -> json -> request K V.

Lemma reconcile_returns ue name rq st : (reconcile res ue name rq st).1 = Ok tt.
Proof.
  unfold_M. destruct rq; simpl; try reflexivity.
  destruct (res_table res (db st) !! key); simpl.
  - destruct ue; simpl; [|reflexivity]. destruct (res_rejected res _ _); reflexivity.
  - destruct (res_rejected res _ _); reflexivity.
Qed.

Lemma reconcile_exec ue name rq st :
  reconcile res ue name rq st = (Ok tt, exec (reconcile res ue name rq) st).
Proof.
  unfold exec. pose proof (reconcile_returns ue name rq st) as E.
  destruct (reconcile res ue name rq st) as [o s]. simpl in *. by subst.
Qed.

Lemma reconcile_all_nil ue st : reconcile_all res ue read [] st = (Ok tt, st).
Proof. reflexivity. Qed.

Lemma reconcile_all_cons ue k v items st :
  reconcile_all res ue read ((k, v) :: items) st
  = reconcile_all res ue read items (exec (reconcile res ue k (read k v)) st).
Proof.
  unfold reconcile_all. simpl. unfold mbind, M_mbind, bind.
  rewrite reconcile_exec. reflexivity.
Qed.

Lemma reconcile_all_returns ue items st : (reconcile_all res ue read items st).1 = Ok tt.
Proof.
  revert st. induction items as [|[k v] items IH]; intros st; [reflexivity|].
  rewrite reconcile_all_cons. apply IH.
Qed.

Lemma reconcile_all_exec ue items st :
  reconcile_all res ue read items st = (Ok tt, exec (reconcile_all res ue read items) st).
Proof.
  unfold exec. pose proof (reconcile_all_returns ue items st) as E.
  destruct (reconcile_all res ue read items st) as [o s]. simpl in *. by subst.
Qed.

Lemma exec_all_cons ue k v items st :
  exec (reconcile_all res ue read ((k, v) :: items)) st
  = exec (reconcile_all res ue read items) (exec (reconcile res ue k (read k v)) st).
Proof. unfold exec at 1. rewrite reconcile_all_cons. reflexivity. Qed.

Lemma exec_all_app ue items1 items2 st :
  exec (reconcile_all res ue read (items1 ++ items2)) st
  = exec (reconcile_all res ue read items2) (exec (reconcile_all res ue read items1) st).
Proof.
  revert st. induction items1 as [|[k v] items1 IH]; intros st; [reflexivity|].
  simpl. rewrite !exec_all_cons. apply IH.
Qed.

(** A relation between states that every turn of the loop respects
    is respected by the loop. *)
Lemma reconcile_all_respects (R : State -> State -> Prop) ue :
  (forall st, R st st) ->
  (forall a b c, R a b -> R b c -> R a c) ->
  (forall name rq st, R st (exec (reconcile res ue name rq) st)) ->
  forall items st, R st (exec (reconcile_all res ue read items) st).
Proof.
  intros Hrefl Htrans Hstep items.
  induction items as [|[k v] items IH]; intros st; [apply Hrefl|].
  rewrite exec_all_cons. eapply Htrans; [apply Hstep | apply IH].
Qed.

Lemma reconcile_turn ue name rq st :
  turn res ue rq name st (exec (reconcile res ue name rq) st).
Proof.
  unfold exec. destruct rq as [e| | |key row].
  - apply (turn_error _ _ _ _ _ e). reflexivity.
  - apply turn_skipped. by left.
  - destruct st. by apply turn_dropped.
  - unfold_M. destruct (res_table res (db st) !! key) as [old|] eqn:E; simpl.
    + destruct ue; simpl.
      * destruct (res_rejected res key (res_stored res old row)) as [e|] eqn:R; simpl.
        -- apply (turn_error _ _ _ _ _ e). unfold_M. rewrite E. simpl. by rewrite R.
        -- by eapply turn_updated.
      * apply turn_skipped. right. exists key, row. rewrite E. eauto.
    + destruct (res_rejected res key row) as [e|] eqn:R; simpl.
      * apply (turn_error _ _ _ _ _ e). unfold_M. rewrite E. simpl. by rewrite R.
      * by eapply turn_created.
Qed.

Lemma turn_errors ue rq name st st' :
  turn res ue rq name st st' ->
  exists suffix, errors (result st') = (errors (result st) ++ suffix)%list.
Proof.
  destruct 1; simpl; rewrite ?errors_with_counts;
    first [by eexists | exists []; by rewrite app_nil_r].
Qed.

Lemma turn_dom ue rq name st st' :
  turn res ue rq name st st' ->
  dom (res_table res (db st)) ⊆ dom (res_table res (db st')).
Proof.
  destruct 1; simpl; try done; rewrite res_lawful, dom_insert; set_solver.
Qed.

Lemma all_errors ue items st :
  exists suffix,
    errors (result (exec (reconcile_all res ue read items) st))
    = (errors (result st) ++ suffix)%list.
Proof.
  apply (reconcile_all_respects
           (fun a b => exists suffix, errors (result b) = (errors (result a) ++ suffix)%list)).
  - intros a. exists []. by rewrite app_nil_r.
  - intros a b c [s1 E1] [s2 E2]. exists (s1 ++ s2). by rewrite E2, E1, app_assoc.
  - intros name rq a. eapply turn_errors, reconcile_turn.
Qed.

Lemma all_dom ue items st :
  dom (res_table res (db st))
  ⊆ dom (res_table res (db (exec (reconcile_all res ue read items) st))).
Proof.
  apply (reconcile_all_respects
           (fun a b => dom (res_table res (db a)) ⊆ dom (res_table res (db b)))).
  - done.
  - intros a b c; set_solver.
  - intros name rq a. eapply turn_dom, reconcile_turn.
Qed.

(** A projection of the database that writes to this table do not
    change is left as it is by the loop. *)
Lemma all_frame {X} (proj : DB -> X) ue items st :
  (forall f d, proj (res_update res f d) = proj d) ->
  proj (db (exec (reconcile_all res ue read items) st)) = proj (db st).
Proof.
  intros Hproj.
  apply (reconcile_all_respects (fun a b => proj (db b) = proj (db a))).
  - done.
  - intros a b c; congruence.
  - intros name rq a. destruct (reconcile_turn ue name rq a); simpl; by rewrite ?Hproj.
Qed.

Lemma present_is_skipped name key row old st :
  res_table res (db st) !! key = Some old ->
  exec (reconcile res false name (Upsert key row)) st
  = mkState (with_counts (res_kind res) inc_skipped (result st)) (db st).
Proof. intros E. unfold exec. unfold_M. by rewrite E. Qed.

(** Running the loop again, without updates, on a table that holds
    every key the first run left: every entry the first run created
    or skipped is skipped, and nothing is written. *)
Lemma rerun items : forall st1 st2,
  errors (result (exec (reconcile_all res false read items) st1)) = errors (result st1) ->
  dom (res_table res (db (exec (reconcile_all res false read items) st1)))
    ⊆ dom (res_table res (db st2)) ->
  exists n,
    exec (reconcile_all res false read items) st2
    = mkState (with_counts (res_kind res) (add_skipped n) (result st2)) (db st2)
    /\ (created (counts_of (res_kind res)
                  (result (exec (reconcile_all res false read items) st1)))
        + skipped (counts_of (res_kind res)
                    (result (exec (reconcile_all res false read items) st1)))
        = created (counts_of (res_kind res) (result st1))
          + skipped (counts_of (res_kind res) (result st1)) + n)%nat.
Proof.
  induction items as [|[k v] items IH]; intros st1 st2 Herr Hdom.
  - exists 0%nat. split; [|unfold exec, reconcile_all; simpl; lia].
    rewrite add_skipped_0. by destruct st2.
  - rewrite exec_all_cons in Herr, Hdom. rewrite !exec_all_cons.
    pose proof (reconcile_turn false k (read k v) st1) as T.
    remember (exec (reconcile res false k (read k v)) st1) as stA eqn:HstA.
    clear HstA.
    destruct (all_errors false items stA) as [s2 E2].
    destruct (turn_errors _ _ _ _ _ T) as [s1 E1].
    assert (s1 = [] /\ s2 = []) as [-> ->].
    { rewrite E2, E1, <- app_assoc in Herr.
      rewrite <- (app_nil_r (errors (result st1))) in Herr at 2.
      apply app_inv_head in Herr. by apply app_eq_nil in Herr. }
    rewrite app_nil_r in E1, E2.
    assert (Herr' : errors (result (exec (reconcile_all res false read items) stA))
                    = errors (result stA)) by done.
    pose proof (all_dom false items stA) as HdomA.
    assert (Hskip :
               (created (counts_of (res_kind res) (result stA))
                + skipped (counts_of (res_kind res) (result stA))
                = created (counts_of (res_kind res) (result st1))
                  + skipped (counts_of (res_kind res) (result st1)) + 1)%nat ->
               exists n,
                 exec (reconcile_all res false read items)
                   (mkState (with_counts (res_kind res) inc_skipped (result st2)) (db st2))
                 = mkState (with_counts (res_kind res) (add_skipped n) (result st2)) (db st2)
                 /\ (created (counts_of (res_kind res)
                        (result (exec (reconcile_all res false read items) stA)))
                     + skipped (counts_of (res_kind res)
                        (result (exec (reconcile_all res false read items) stA)))
                     = created (counts_of (res_kind res) (result st1))
                       + skipped (counts_of (res_kind res) (result st1)) + n)%nat).
    { intros Hc.
      destruct (IH stA (mkState (with_counts (res_kind res) inc_skipped (result st2)) (db st2))
                  Herr' Hdom) as [n [En Hn]].
      exists (S n). split; [|lia].
      rewrite En. simpl. f_equal. rewrite with_counts_compose.
      apply with_counts_ext. intros c. unfold add_skipped, inc_skipped; simpl.
      f_equal; lia. }
    destruct T as [e Hb| [Hu|(key & row & Hrq & _ & Hin)] | Hd
                   | key row Hrq Hnone Hacc | key row old Hrq Hsome Hue Hacc].
    + simpl in E1.
      rewrite <- (app_nil_r (errors (result st1))) in E1 at 2.
      by apply app_inv_head in E1.
    + replace (exec (reconcile res false k (read k v)) st2)
        with (mkState (with_counts (res_kind res) inc_skipped (result st2)) (db st2))
        by (by rewrite Hu).
      apply Hskip. simpl. rewrite counts_of_with_counts. simpl. lia.
    + assert (is_Some (res_table res (db st2) !! key)) as [old2 Hold2].
      { apply elem_of_dom. apply Hdom, HdomA. simpl. by apply elem_of_dom. }
      rewrite Hrq. rewrite (present_is_skipped _ _ _ _ _ Hold2).
      apply Hskip. simpl. rewrite counts_of_with_counts. simpl. lia.
    + rewrite Hd. replace (exec (reconcile res false k Dropped) st2) with st2
        by (by destruct st2).
      by apply IH.
    + assert (is_Some (res_table res (db st2) !! key)) as [old2 Hold2].
      { apply elem_of_dom. apply Hdom, HdomA. simpl.
        rewrite res_lawful. apply elem_of_dom. rewrite lookup_insert_eq. eauto. }
      rewrite Hrq. rewrite (present_is_skipped _ _ _ _ _ Hold2).
      apply Hskip. simpl. rewrite counts_of_with_counts. simpl. lia.
    + discriminate.
Qed.

Lemma raised_is_recorded ue name rq st e :
  (reconcile_body res ue rq st).1 = Raise e ->
  exec (reconcile res ue name rq) st
  = mkState (append_error (res_prefix res +:+ name +:+ ": " +:+ e) (result st)) (db st).
Proof.
  unfold exec. unfold_M. destruct rq as [e'| | |key row]; simpl; try discriminate.
  - by intros [= ->].
  - destruct (res_table res (db st) !! key) as [old|]; simpl.
    + destruct ue; simpl; [|discriminate].
      destruct (res_rejected res key (res_stored res old row)); simpl; [|discriminate].
      by intros [= ->].
    + destruct (res_rejected res key row); simpl; [|discriminate].
      by intros [= ->].
Qed.

Lemma absent_is_created ue name key row st :
  res_table res (db st) !! key = None -> res_rejected res key row = None ->
  exec (reconcile res ue name (Upsert key row)) st
  = mkState (with_counts (res_kind res) inc_created (result st))
            (res_update res (insert key row) (db st)).
Proof. intros E R. unfold exec. unfold_M. rewrite E. simpl. by rewrite R. Qed.

(** Entries that ask for rows under pairwise distinct keys, none of
    them in the table, each accepted by the database, are all
    created. *)
Lemma all_fresh ue items : forall keys st,
  Forall2 (fun kv key => exists row,
               read kv.1 kv.2 = Upsert key row /\ res_rejected res key row = None)
          items keys ->
  NoDup keys ->
  (forall key, key ∈ keys -> res_table res (db st) !! key = None) ->
  exists d',
    exec (reconcile_all res ue read items) st
    = mkState (with_counts (res_kind res) (add_created (length items)) (result st)) d'
    /\ (forall key, key ∉ keys -> res_table res d' !! key = res_table res (db st) !! key)
    /\ (forall key, key ∈ keys -> is_Some (res_table res d' !! key)).
Proof.
  induction items as [|[k v] items IH]; intros keys st HF Hnd Habs.
  - apply Forall2_nil_inv_l in HF as ->. exists (db st). split; [|split].
    + simpl. rewrite add_created_0. by destruct st.
    + done.
    + intros key Hin. by apply elem_of_nil in Hin.
  - apply Forall2_cons_inv_l in HF as (key0 & keys' & (row & Hrq & Hacc) & HF & ->).
    simpl in Hrq. apply NoDup_cons in Hnd as [Hnotin Hnd].
    rewrite exec_all_cons, Hrq.
    rewrite (absent_is_created _ _ _ _ _ (Habs key0 ltac:(set_solver)) Hacc).
    destruct (IH keys'
                (mkState (with_counts (res_kind res) inc_created (result st))
                         (res_update res (insert key0 row) (db st))) HF Hnd)
      as (d' & E & Hother & Hin).
    { intros key Hk. simpl. rewrite res_lawful, lookup_insert_ne.
      - apply Habs. set_solver.
      - intros ->. contradiction. }
    exists d'. split; [|split].
    + rewrite E. simpl. f_equal. rewrite with_counts_compose.
      apply with_counts_ext. intros c. unfold add_created, inc_created; simpl.
      f_equal; lia.
    + intros key Hk. rewrite Hother by set_solver. simpl.
      rewrite res_lawful, lookup_insert_ne; [done|]. set_solver.
    + intros key Hk. apply elem_of_cons in Hk as [->|Hk]; [|by apply Hin].
      rewrite Hother by done. simpl. rewrite res_lawful, lookup_insert_eq. eauto.
Qed.

(** One entry that raises among entries that make rows of their own:
    the rows are all made, and the one error is recorded. *)
Lemma isolation ue pre bad post keys st e :
  Forall2 (fun kv key => fresh res (res_table res (db st)) (read kv.1 kv.2) key)
          (pre ++ post) keys ->
  NoDup keys ->
  (reconcile_body res ue (read bad.1 bad.2)
     (exec (reconcile_all res ue read pre) st)).1 = Raise e ->
  exists d',
    exec (reconcile_all res ue read (pre ++ bad :: post)) st
    = mkState
        (with_counts (res_kind res) (add_created (length (pre ++ post)))
           (append_error (res_prefix res +:+ bad.1 +:+ ": " +:+ e) (result st)))
        d'
    /\ (forall key, key ∈ keys -> is_Some (res_table res d' !! key)).
Proof.
  intros HF Hnd Hbad.
  assert (Habs : forall key, key ∈ keys -> res_table res (db st) !! key = None).
  { intros key Hk. apply list_elem_of_lookup in Hk as [i Hi].
    destruct (Forall2_lookup_r _ _ _ _ _ HF Hi) as (kv & _ & row & _ & Hn & _). done. }
  assert (HF' : Forall2 (fun kv key => exists row,
                   read kv.1 kv.2 = Upsert key row /\ res_rejected res key row = None)
                 (pre ++ post) keys).
  { eapply Forall2_impl; [exact HF|]. intros kv key (row & ? & ? & ?). eauto. }
  apply Forall2_app_inv_l in HF' as (kpre & kpost & Fpre & Fpost & ->).
  apply NoDup_app in Hnd as (Ndpre & Hdisj & Ndpost).
  destruct (all_fresh ue pre kpre st Fpre Ndpre) as (d1 & E1 & O1 & I1).
  { intros key Hk. apply Habs. set_solver. }
  rewrite E1 in Hbad.
  rewrite exec_all_app, E1. destruct bad as [kb vb]. rewrite exec_all_cons.
  rewrite (raised_is_recorded _ _ _ _ _ Hbad). simpl.
  destruct (all_fresh ue post kpost
              (mkState (append_error (res_prefix res +:+ kb +:+ ": " +:+ e)
                          (with_counts (res_kind res) (add_created (length pre)) (result st)))
                       d1) Fpost Ndpost)
    as (d2 & E2 & O2 & I2).
  { intros key Hk. simpl. rewrite O1.
    - apply Habs. set_solver.
    - intros Hk'. by apply (Hdisj key). }
  exists d2. split.
  - rewrite E2. simpl. f_equal.
    rewrite <- with_counts_append_error, with_counts_compose, with_counts_append_error.
    rewrite <- with_counts_append_error.
    apply with_counts_ext. intros c. unfold add_created; simpl.
    rewrite length_app. f_equal; lia.
  - intros key Hk. apply elem_of_app in Hk as [Hk|Hk]; [|by apply I2].
    destruct (decide (key ∈ kpost)) as [Hk'|Hk']; [by apply I2|].
    rewrite O2 by done. simpl. by apply I1.
Qed.
End Generic.

(** ** The three loops are instances of the common shape *)

Lemma message_resource_lawful orm : lawful (message_resource orm).
Proof. intros f d. reflexivity. Qed.

Lemma notification_resource_lawful orm : lawful (notification_resource orm).
Proof. intros f d. reflexivity. Qed.

Lemma contact_resource_lawful orm : lawful (contact_resource orm).
Proof. intros f d. reflexivity. Qed.

Lemma message_entry_body_reconcile orm dev ue k v st :
  message_entry_body orm dev ue k v st
  = reconcile_body (message_resource orm) ue (message_request dev k v) st.
Proof.
  unfold message_entry_body, message_request, Message_get_or_create, Message_save.
  unfold_M.
  destruct (py_int k) as [ts|e]; simpl; [|reflexivity].
  destruct (message_fields v) as [[[[t p] b] r]|]; simpl; [|reflexivity].
  destruct (messages (db st) !! (dev, ts)); simpl.
  - destruct ue; simpl; [|reflexivity].
    destruct (message_rejected orm _ _); reflexivity.
  - destruct (message_rejected orm _ _); reflexivity.
Qed.

Lemma notification_entry_body_reconcile orm dev ue k v st :
  notification_entry_body orm dev ue k v st
  = reconcile_body (notification_resource orm) ue (notification_request dev k v) st.
Proof.
  unfold notification_entry_body, notification_request,
    Notification_get_or_create, Notification_save.
  unfold_M.
  destruct (py_int k) as [ts|e]; simpl; [|reflexivity].
  destruct (notification_fields v) as [[[p t] x]|]; simpl; [|reflexivity].
  destruct (truthy p); simpl; [|reflexivity].
  destruct (notifications (db st) !! (dev, ts)); simpl.
  - destruct ue; simpl; [|reflexivity].
    destruct (notification_rejected orm _ _); reflexivity.
  - destruct (notification_rejected orm _ _); reflexivity.
Qed.

Lemma contact_entry_body_reconcile orm dev ue k v st :
  contact_entry_body orm dev ue k v st
  = reconcile_body (contact_resource orm) ue (contact_request dev k v) st.
Proof.
  unfold contact_entry_body, contact_request, Contact_get_or_create, Contact_save.
  unfold_M.
  destruct (convert_last_contacted _) as [lc|e]; simpl; [|reflexivity].
  destruct (contacts (db st) !! (dev, k)); simpl.
  - destruct ue; simpl; [|reflexivity].
    destruct (contact_rejected orm _ _); reflexivity.
  - destruct (contact_rejected orm _ _); reflexivity.
Qed.

Lemma sync_message_entry_reconcile orm dev ue k v st :
  sync_message_entry orm dev ue k v st
  = reconcile (message_resource orm) ue k (message_request dev k v) st.
Proof.
  unfold sync_message_entry, reconcile, try_except.
  by rewrite message_entry_body_reconcile.
Qed.

Lemma sync_notification_entry_reconcile orm dev ue k v st :
  sync_notification_entry orm dev ue k v st
  = reconcile (notification_resource orm) ue k (notification_request dev k v) st.
Proof.
  unfold sync_notification_entry, reconcile, try_except.
  by rewrite notification_entry_body_reconcile.
Qed.

Lemma sync_contact_entry_reconcile orm dev ue k v st :
  sync_contact_entry orm dev ue k v st
  = reconcile (contact_resource orm) ue k (contact_request dev k v) st.
Proof.
  unfold sync_contact_entry, reconcile, try_except.
  by rewrite contact_entry_body_reconcile.
Qed.

Lemma for_each_ext {A} (f g : A -> M unit) items :
  (forall x st, f x st = g x st) -> forall st, for_each items f st = for_each items g st.
Proof.
  intros E. induction items as [|x items IH]; intros st; [reflexivity|].
  simpl. unfold mbind, M_mbind, bind. rewrite E.
  destruct (g x st) as [[[]|e] st']; [apply IH | reflexivity].
Qed.

Lemma message_loop_reconcile orm dev ue items st :
  message_loop orm dev ue items st
  = reconcile_all (message_resource orm) ue (message_request dev) items st.
Proof. apply for_each_ext. intros [k v] s. apply sync_message_entry_reconcile. Qed.

Lemma notification_loop_reconcile orm dev ue items st :
  notification_loop orm dev ue items st
  = reconcile_all (notification_resource orm) ue (notification_request dev) items st.
Proof. apply for_each_ext. intros [k v] s. apply sync_notification_entry_reconcile. Qed.

Lemma contact_loop_reconcile orm dev ue items st :
  contact_loop orm dev ue items st
  = reconcile_all (contact_resource orm) ue (contact_request dev) items st.
Proof. apply for_each_ext. intros [k v] s. apply sync_contact_entry_reconcile. Qed.


(** ** What one turn does *)

Lemma reconcile_upsert {K V} `{Countable K} (res : resource K V) ue name key row st :
  accepted res ue key row st ->
  reconcile res ue name (Upsert key row) st = (Ok tt, upsert_state res ue key row st).
Proof.
  unfold accepted, upsert_state. unfold_M.
  destruct (res_table res (db st) !! key) as [old|]; simpl.
  - destruct ue; simpl; [|done]. intros R. by rewrite R.
  - intros R. by rewrite R.
Qed.


(** C3, amended.  For an entry that reaches the upsert step (for a
    message or a notification: the key is accepted by [int()] and the
    record is a dictionary or a string, and a notification has a
    package name; for a contact: the conversion of [last_contacted]
    returns) and whose write the database takes, the turn of the loop
    returns and does the upsert by natural key: no row under the key,
    the row is created and [created] goes up by one; a row and
    [update_existing], the fields are overwritten ([extra] of a
    notification is kept) and [updated] goes up by one; a row and no
    [update_existing], the table is untouched and [skipped] goes up by
    one. *)
Theorem upsert_by_natural_key orm dev ue st :
  (forall k v ts t p b r,
      py_int k = Ok ts -> message_fields v = Some (t, p, b, r) ->
      let row := Message.mk (normalize_message_type t) p b r in
      accepted (message_resource orm) ue (dev, ts) row st ->
      sync_message_entry orm dev ue k v st
      = (Ok tt, upsert_state (message_resource orm) ue (dev, ts) row st))
  /\ (forall k v ts p t x,
      py_int k = Ok ts -> notification_fields v = Some (p, t, x) -> truthy p = true ->
      let row := Notification.mk p t x (JDict []) in
      accepted (notification_resource orm) ue (dev, ts) row st ->
      sync_notification_entry orm dev ue k v st
      = (Ok tt, upsert_state (notification_resource orm) ue (dev, ts) row st))
  /\ (forall k v lc,
      convert_last_contacted (Contact.last_contacted (contact_fields k v)) = Ok lc ->
      let row := with_last_contacted lc (contact_fields k v) in
      accepted (contact_resource orm) ue (dev, k) row st ->
      sync_contact_entry orm dev ue k v st
      = (Ok tt, upsert_state (contact_resource orm) ue (dev, k) row st)).
Proof.
  split; [|split].
  - intros k v ts t p b r Hk Hv row Hacc.
    rewrite sync_message_entry_reconcile. unfold message_request. rewrite Hk, Hv.
    by apply reconcile_upsert.
  - intros k v ts p t x Hk Hv Hp row Hacc.
    rewrite sync_notification_entry_reconcile. unfold notification_request.
    rewrite Hk, Hv, Hp. simpl. by apply reconcile_upsert.
  - intros k v lc Hlc row Hacc.
    rewrite sync_contact_entry_reconcile. unfold contact_request. rewrite Hlc.
    by apply reconcile_upsert.
Qed.

(** C6, amended.  In the message loop and in the notification loop, an
    entry whose key [int()] accepts and whose record is neither a
    dictionary nor a string adds one to [skipped] and records no error;
    an entry whose key [int()] refuses has an error text naming the key
    appended to [errors] and leaves [skipped] as it is; in both cases
    the database is untouched and the loop goes on with the next
    entry. *)
Theorem malformed_entries orm dev ue k v st :
  (forall ts, py_int k = Ok ts -> message_fields v = None ->
     sync_message_entry orm dev ue k v st
     = (Ok tt, mkState (with_counts KMessages inc_skipped (result st)) (db st)))
  /\ (forall e, py_int k = Raise e ->
     sync_message_entry orm dev ue k v st
     = (Ok tt, mkState (append_error ("Error processing message " +:+ k +:+ ": " +:+ e)
                          (result st)) (db st)))
  /\ (forall ts, py_int k = Ok ts -> notification_fields v = None ->
     sync_notification_entry orm dev ue k v st
     = (Ok tt, mkState (with_counts KNotifications inc_skipped (result st)) (db st)))
  /\ (forall e, py_int k = Raise e ->
     sync_notification_entry orm dev ue k v st
     = (Ok tt, mkState (append_error ("Error processing notification " +:+ k +:+ ": " +:+ e)
                          (result st)) (db st)))
  /\ (forall rest,
     message_loop orm dev ue ((k, v) :: rest) st
     = message_loop orm dev ue rest (exec (sync_message_entry orm dev ue k v) st))
  /\ (forall rest,
     notification_loop orm dev ue ((k, v) :: rest) st
     = notification_loop orm dev ue rest (exec (sync_notification_entry orm dev ue k v) st)).
Proof.
  repeat split.
  - intros ts Hk Hv. rewrite sync_message_entry_reconcile. unfold message_request.
    by rewrite Hk, Hv.
  - intros e Hk. rewrite sync_message_entry_reconcile. unfold message_request.
    by rewrite Hk.
  - intros ts Hk Hv. rewrite sync_notification_entry_reconcile. unfold notification_request.
    by rewrite Hk, Hv.
  - intros e Hk. rewrite sync_notification_entry_reconcile. unfold notification_request.
    by rewrite Hk.
  - intros rest. unfold exec. rewrite !message_loop_reconcile, sync_message_entry_reconcile.
    apply (reconcile_all_cons (message_resource orm)).
  - intros rest. unfold exec.
    rewrite !notification_loop_reconcile, sync_notification_entry_reconcile.
    apply (reconcile_all_cons (notification_resource orm)).
Qed.

Lemma first_data_empty fb paths : no_data fb paths -> first_data fb paths = JDict [].
Proof.
  induction paths as [|path paths IH]; intros Hn; [reflexivity|].
  simpl. pose proof (Hn path ltac:(set_solver)) as Hp.
  destruct (reference_get fb path) as [data|e].
  - rewrite Hp. apply IH. intros p Hin. apply Hn. set_solver.
  - apply IH. intros p Hin. apply Hn. set_solver.
Qed.

Lemma fetch_empty fb paths :
  FIREBASE_AVAILABLE fb = true ->
  (exists e, init_app fb = Raise e) \/ no_data fb paths ->
  fetch fb paths = Ok (JDict []).
Proof.
  intros Ha Hn. unfold fetch, initialize_firebase. rewrite Ha. simpl.
  destruct Hn as [[e ->]|Hn]; [reflexivity|].
  destruct (init_app fb); [|reflexivity]. by rewrite first_data_empty.
Qed.

(** C5, amended.  With the Firebase SDK importable, a fetcher returns
    the empty mapping, and does not raise, whenever the store cannot
    be initialised or no candidate path yields data (each read raises
    or returns a false value); with the SDK missing, every fetcher
    raises "Firebase Admin SDK not available". *)
Theorem soft_fail_fetch fb dev :
  (FIREBASE_AVAILABLE fb = true ->
   ((exists e, init_app fb = Raise e) \/ no_data fb (message_paths dev) ->
    forall limit, get_firebase_messages_for_device fb dev limit = Ok (JDict []))
   /\ ((exists e, init_app fb = Raise e) \/ no_data fb (notification_paths dev) ->
       get_firebase_notifications_for_device fb dev = Ok (JDict []))
   /\ ((exists e, init_app fb = Raise e) \/ no_data fb (contact_paths dev) ->
       get_firebase_contacts_for_device fb dev = Ok (JDict []))
   /\ ((exists e, init_app fb = Raise e) \/ no_data fb (device_info_paths dev) ->
       get_firebase_device_info fb dev = Ok (JDict [])))
  /\ (FIREBASE_AVAILABLE fb = false ->
      (forall limit, get_firebase_messages_for_device fb dev limit
                     = Raise "Firebase Admin SDK not available")
      /\ get_firebase_notifications_for_device fb dev = Raise "Firebase Admin SDK not available"
      /\ get_firebase_contacts_for_device fb dev = Raise "Firebase Admin SDK not available"
      /\ get_firebase_device_info fb dev = Raise "Firebase Admin SDK not available").
Proof.
  split.
  - intros Ha. repeat split; try (by apply fetch_empty).
    intros Hn limit. unfold get_firebase_messages_for_device, initialize_firebase.
    rewrite Ha. cbn [negb]. destruct Hn as [[e ->]|Hn]; [reflexivity|].
    destruct (init_app fb); [|reflexivity]. cbv zeta. rewrite first_data_empty by done.
    destruct limit as [n|]; [|reflexivity]. cbn [truthy]. by rewrite andb_false_r.
  - intros Ha.
    unfold get_firebase_messages_for_device, get_firebase_notifications_for_device,
      get_firebase_contacts_for_device, get_firebase_device_info, fetch.
    rewrite Ha. by repeat split.
Qed.

(** A notification whose package name is false for Python (the empty
    string among others) leaves the state as it is. *)
Lemma nameless_notification orm dev ue k v st ts p t x :
  py_int k = Ok ts -> notification_fields v = Some (p, t, x) -> truthy p = false ->
  sync_notification_entry orm dev ue k v st = (Ok tt, st).
Proof.
  intros Hk Hv Hp. rewrite sync_notification_entry_reconcile. unfold notification_request.
  rewrite Hk, Hv, Hp. simpl. by destruct st.
Qed.


(** An entry that raises raises where it stands in the batch: the
    entries before it make rows of their own, under other keys. *)
Lemma raises_in_place {K V} `{Countable K} (res : resource K V) (res_lawful : lawful res)
    (read : string -> json -> request K V) ue pre post keys st rq e :
  Forall2 (fun kv key => fresh res (res_table res (db st)) (read kv.1 kv.2) key)
          (pre ++ post) keys ->
  NoDup keys ->
  raises res (res_table res (db st)) keys rq e ->
  (reconcile_body res ue rq (exec (reconcile_all res ue read pre) st)).1 = Raise e.
Proof.
  intros HF Hnd [->|(key & row & -> & Hnone & Hnotin & Hrej)]; [reflexivity|].
  assert (Habs : forall key, key ∈ keys -> res_table res (db st) !! key = None).
  { intros key' Hk. apply list_elem_of_lookup in Hk as [i Hi].
    destruct (Forall2_lookup_r _ _ _ _ _ HF Hi) as (kv & _ & row' & _ & Hn & _). done. }
  assert (HF' : Forall2 (fun kv key => exists row,
                   read kv.1 kv.2 = Upsert key row /\ res_rejected res key row = None)
                 (pre ++ post) keys).
  { eapply Forall2_impl; [exact HF|]. intros kv key' (row' & ? & ? & ?). eauto. }
  apply Forall2_app_inv_l in HF' as (kpre & kpost & Fpre & Fpost & ->).
  apply NoDup_app in Hnd as (Ndpre & _ & _).
  destruct (all_fresh res res_lawful read ue pre kpre st Fpre Ndpre) as (d1 & E1 & O1 & _).
  { intros key' Hk. apply Habs. apply elem_of_app. by left. }
  rewrite E1. unfold_M. rewrite O1.
  - rewrite Hnone. simpl. by rewrite Hrej.
  - intros Hin. apply Hnotin. apply elem_of_app. by left.
Qed.

(** C7, amended.  In each of the three loops, a batch made of one
    entry whose processing raises (its key or its record cannot be
    read, or the database refuses the new row it asks for) and of N
    well-formed new entries (entries that ask for rows under pairwise
    distinct natural keys absent from the table, each accepted by the
    database), in any order, is processed to the end: the loop
    returns, created plus updated has grown by N, exactly one error
    has been appended, and every one of the N rows is in the table. *)
Theorem error_isolation orm dev ue :
  (forall pre bad post keys st e,
     Forall2 (fun kv key => fresh (message_resource orm) (messages (db st))
                              (message_request dev kv.1 kv.2) key) (pre ++ post) keys ->
     NoDup keys ->
     raises (message_resource orm) (messages (db st)) keys
       (message_request dev bad.1 bad.2) e ->
     exists st',
       message_loop orm dev ue (pre ++ bad :: post) st = (Ok tt, st')
       /\ (messages_created (result st') + messages_updated (result st')
           = messages_created (result st) + messages_updated (result st)
             + length (pre ++ post))%nat
       /\ errors (result st')
          = errors (result st) ++ ["Error processing message " +:+ bad.1 +:+ ": " +:+ e]
       /\ forall key, key ∈ keys -> is_Some (messages (db st') !! key))
  /\ (forall pre bad post keys st e,
     Forall2 (fun kv key => fresh (notification_resource orm) (notifications (db st))
                              (notification_request dev kv.1 kv.2) key) (pre ++ post) keys ->
     NoDup keys ->
     raises (notification_resource orm) (notifications (db st)) keys
       (notification_request dev bad.1 bad.2) e ->
     exists st',
       notification_loop orm dev ue (pre ++ bad :: post) st = (Ok tt, st')
       /\ (notifications_created (result st') + notifications_updated (result st')
           = notifications_created (result st) + notifications_updated (result st)
             + length (pre ++ post))%nat
       /\ errors (result st')
          = errors (result st) ++ ["Error processing notification " +:+ bad.1 +:+ ": " +:+ e]
       /\ forall key, key ∈ keys -> is_Some (notifications (db st') !! key))
  /\ (forall pre bad post keys st e,
     Forall2 (fun kv key => fresh (contact_resource orm) (contacts (db st))
                              (contact_request dev kv.1 kv.2) key) (pre ++ post) keys ->
     NoDup keys ->
     raises (contact_resource orm) (contacts (db st)) keys
       (contact_request dev bad.1 bad.2) e ->
     exists st',
       contact_loop orm dev ue (pre ++ bad :: post) st = (Ok tt, st')
       /\ (contacts_created (result st') + contacts_updated (result st')
           = contacts_created (result st) + contacts_updated (result st)
             + length (pre ++ post))%nat
       /\ errors (result st')
          = errors (result st) ++ ["Error processing contact " +:+ bad.1 +:+ ": " +:+ e]
       /\ forall key, key ∈ keys -> is_Some (contacts (db st') !! key)).
Proof.
  split; [|split]; intros pre bad post keys st e HF Hnd Hbad.
  - apply (raises_in_place (message_resource orm) (message_resource_lawful orm)
             (message_request dev) ue pre post keys st _ e HF Hnd) in Hbad.
    destruct (isolation (message_resource orm) (message_resource_lawful orm)
                (message_request dev) ue pre bad post keys st e HF Hnd Hbad)
      as (d' & E & Hin).
    eexists. rewrite message_loop_reconcile, reconcile_all_exec, E.
    split; [reflexivity|]. simpl. split; [|split; [|exact Hin]].
    + unfold messages_created, messages_updated. simpl. lia.
    + reflexivity.
  - apply (raises_in_place (notification_resource orm) (notification_resource_lawful orm)
             (notification_request dev) ue pre post keys st _ e HF Hnd) in Hbad.
    destruct (isolation (notification_resource orm) (notification_resource_lawful orm)
                (notification_request dev) ue pre bad post keys st e HF Hnd Hbad)
      as (d' & E & Hin).
    eexists. rewrite notification_loop_reconcile, reconcile_all_exec, E.
    split; [reflexivity|]. simpl. split; [|split; [|exact Hin]].
    + unfold notifications_created, notifications_updated. simpl. lia.
    + reflexivity.
  - apply (raises_in_place (contact_resource orm) (contact_resource_lawful orm)
             (contact_request dev) ue pre post keys st _ e HF Hnd) in Hbad.
    destruct (isolation (contact_resource orm) (contact_resource_lawful orm)
                (contact_request dev) ue pre bad post keys st e HF Hnd Hbad)
      as (d' & E & Hin).
    eexists. rewrite contact_loop_reconcile, reconcile_all_exec, E.
    split; [reflexivity|]. simpl. split; [|split; [|exact Hin]].
    + unfold contacts_created, contacts_updated. simpl. lia.
    + reflexivity.
Qed.

(** ** Relations between results that a whole run respects *)

Section Respects.
Variable R : SyncResult -> SyncResult -> Prop.
Hypothesis R_refl : forall r, R r r.
Hypothesis R_trans : forall a b c, R a b -> R b c -> R a c.

Lemma respects_ret {A} (a : A) : respects R (ret a).
Proof. intros st. apply R_refl. Qed.

Lemma respects_lift {A} (e : exc A) : respects R (lift e).
Proof. intros st. apply R_refl. Qed.

Lemma respects_raise {A} msg : respects R (@raise A msg).
Proof. intros st. apply R_refl. Qed.

Lemma respects_get_db : respects R get_db.
Proof. intros st. apply R_refl. Qed.

Lemma respects_get_result : respects R get_result.
Proof. intros st. apply R_refl. Qed.

Lemma respects_modify_db f : respects R (modify_db f).
Proof. intros st. apply R_refl. Qed.

Lemma respects_modify_result f : (forall r, R r (f r)) -> respects R (modify_result f).
Proof. intros Hf st. apply Hf. Qed.

Lemma respects_bind {A B} (m : M A) (f : A -> M B) :
  respects R m -> (forall a, respects R (f a)) -> respects R (bind m f).
Proof.
  intros Hm Hf st. unfold bind. specialize (Hm st).
  destruct (m st) as [[a|e] st']; simpl in *; [|done].
  eapply R_trans; [exact Hm | apply Hf].
Qed.

Lemma respects_try_except body handler :
  respects R body -> (forall e, respects R (handler e)) -> respects R (try_except body handler).
Proof.
  intros Hb Hh st. unfold try_except. specialize (Hb st).
  destruct (body st) as [[a|e] st']; simpl in *; [done|].
  eapply R_trans; [exact Hb | apply Hh].
Qed.

Lemma respects_atomic {A} (body : M A) : respects R body -> respects R (atomic body).
Proof.
  intros Hb st. unfold atomic. specialize (Hb st).
  by destruct (body st) as [[a|e] st'].
Qed.

Lemma respects_for_each {A} (items : list A) body :
  (forall x, respects R (body x)) -> respects R (for_each items body).
Proof.
  intros Hb. induction items as [|x items IH]; [apply respects_ret|].
  simpl. apply respects_bind; [apply Hb | intros _; apply IH].
Qed.
End Respects.

Ltac respects_intro :=
  try assumption;
  repeat lazymatch goal with |- forall _, _ => intro end.

Ltac respects_step :=
  first
    [ apply respects_bind; respects_intro
    | apply respects_try_except; respects_intro
    | apply respects_atomic
    | apply respects_for_each; respects_intro
    | apply respects_lift; assumption
    | apply respects_ret; assumption
    | apply respects_raise; assumption
    | apply respects_get_db; assumption
    | apply respects_get_result; assumption
    | apply respects_modify_db; assumption
    | apply respects_modify_result; respects_intro
    | match goal with
      | |- respects _ (match ?x with _ => _ end) => destruct x
      | |- respects _ (let '(_, _) := ?x in _) => destruct x
      end ].

Ltac unfold_sync :=
  unfold hard_sync_body, hard_sync_failed, update_sync_status, sync_contacts,
    sync_notifications, sync_messages, sync_device_info, mark_syncing, update_device,
    contact_loop, notification_loop,
    message_loop, sync_contact_entry, sync_notification_entry, sync_message_entry,
    contact_entry_body, notification_entry_body, message_entry_body,
    Device_get_or_create, Contact_get_or_create, Contact_save,
    Notification_get_or_create, Notification_save, Message_get_or_create, Message_save,
    mbind, M_mbind, mret, M_ret.

Lemma same_device_with_counts k f r : same_device r (with_counts k f r).
Proof. by destruct k. Qed.

Lemma hard_sync_body_same_device orm fb dev ue :
  respects same_device (hard_sync_body orm fb dev ue).
Proof.
  assert (Hrefl : forall r, same_device r r) by done.
  assert (Htrans : forall a b c, same_device a b -> same_device b c -> same_device a c)
    by (unfold same_device; congruence).
  unfold_sync.
  repeat respects_step; try apply same_device_with_counts; done.
Qed.

Lemma hard_sync_failed_same_device dev e : respects same_device (hard_sync_failed dev e).
Proof.
  assert (Hrefl : forall r, same_device r r) by done.
  assert (Htrans : forall a b c, same_device a b -> same_device b c -> same_device a c)
    by (unfold same_device; congruence).
  unfold_sync.
  repeat respects_step; done.
Qed.

Lemma hard_sync_device_id orm fb dev ue database :
  device_id (hard_sync_device_from_firebase orm fb dev ue database).1 = dev.
Proof.
  unfold hard_sync_device_from_firebase, run_hard_sync. simpl.
  assert (Htrans : forall a b c, same_device a b -> same_device b c -> same_device a c)
    by (unfold same_device; congruence).
  apply (respects_try_except same_device Htrans _ _
           (hard_sync_body_same_device orm fb dev ue)
           (hard_sync_failed_same_device dev)
           (mkState (initial_result dev) database)).
Qed.

(** ** The fleet driver *)

Lemma fleet_results orm fb ue ids : forall acc,
  map device_id (Fleet.device_results (fold_left (fleet_step orm fb ue) ids acc).1)
  = map device_id (Fleet.device_results acc.1) ++ ids.
Proof.
  induction ids as [|id ids IH]; intros [r database]; simpl.
  - by rewrite app_nil_r.
  - rewrite IH. unfold fleet_step.
    pose proof (hard_sync_device_id orm fb id ue database) as Hid.
    unfold hard_sync_device_from_firebase in *. simpl in *.
    rewrite map_app. simpl. rewrite Hid, <- app_assoc. reflexivity.
Qed.

Lemma elem_of_legacy_device_keys id d :
  id ∈ legacy_device_keys d
  <-> exists v value, (id, v) ∈ d /\ v = JDict value
        /\ (dict_has value "messages" = true \/ dict_has value "Notification" = true
            \/ dict_has value "Contact" = true).
Proof.
  unfold legacy_device_keys. rewrite list_elem_of_fmap. split.
  - intros ([k v] & -> & Hin). apply list_elem_of_In, filter_In in Hin as [Hin Hl].
    apply list_elem_of_In in Hin. simpl in *.
    destruct v as [| | | | | |value]; try discriminate. exists (JDict value), value.
    simpl in Hl. repeat split; [done|].
    destruct (dict_has value "messages"); [by left|].
    destruct (dict_has value "Notification"); [by right; left|].
    right; right. done.
  - intros (v & value & Hin & -> & Hl). exists (id, JDict value). split; [done|].
    apply list_elem_of_In, filter_In. split; [by apply list_elem_of_In|].
    simpl. destruct Hl as [->|[->| ->]]; by rewrite ?orb_true_r.
Qed.

(** The loop of the fleet driver invokes the per-device sync on each
    identifier in turn and collects what it returns. *)
Lemma fleet_fold_each orm fb ue ids : forall acc,
  Fleet.device_results (fold_left (fleet_step orm fb ue) ids acc).1
  = Fleet.device_results acc.1 ++ (per_device_sync_of_each orm fb ue ids acc.2).1
  /\ (fold_left (fleet_step orm fb ue) ids acc).2
     = (per_device_sync_of_each orm fb ue ids acc.2).2.
Proof.
  induction ids as [|id ids IH]; intros [r database].
  - simpl. by rewrite app_nil_r.
  - cbn [fold_left]. destruct (IH (fleet_step orm fb ue (r, database) id)) as [IH1 IH2].
    rewrite IH1, IH2. cbn [per_device_sync_of_each fst snd]. cbv zeta. unfold fleet_step.
    destruct (hard_sync_device_from_firebase orm fb id ue database) as [dr database'].
    cbn [fst snd Fleet.device_results]. rewrite <- app_assoc. split; reflexivity.
Qed.

(** C8, amended.  [hard_sync_all_devices_from_firebase] invokes the
    per-device sync once for each identifier of the set
    [all_device_ids], one after the other, each run on the database
    the run before it has left: the results it returns are the
    results of these runs, in their order, and the database it leaves
    is the one the last run leaves.  The set is: when Firebase is
    initialised and both top-level reads return, the union of the
    local device identifiers, the keys of the 'device' collection and
    those keys of the 'fastpay' collection whose value is a dictionary
    containing 'messages', 'Notification' or 'Contact'; when the
    initialisation or one of the two reads raises, the local device
    identifiers alone. *)
Theorem fleet_device_ids orm fb ue database :
  let ids := all_device_ids fb database in
  let r := (hard_sync_all_devices_from_firebase orm fb ue database).1 in
  (Fleet.device_results r
   = (per_device_sync_of_each orm fb ue (elements ids) database).1
   /\ (hard_sync_all_devices_from_firebase orm fb ue database).2
      = (per_device_sync_of_each orm fb ue (elements ids) database).2)
  /\ map device_id (Fleet.device_results r) = elements ids
  /\ NoDup (map device_id (Fleet.device_results r))
  /\ Fleet.total_devices_processed r = size ids
  /\ (forall device_data fastpay_data,
        initialize_firebase fb = Ok tt ->
        reference_get fb "device" = Ok device_data ->
        reference_get fb "fastpay" = Ok fastpay_data ->
        forall id,
          id ∈ ids <->
          is_Some (devices database !! id)
          \/ (exists d v, device_data = JDict d /\ (id, v) ∈ d)
          \/ (exists d v value,
                 fastpay_data = JDict d /\ (id, v) ∈ d /\ v = JDict value
                 /\ (dict_has value "messages" = true
                     \/ dict_has value "Notification" = true
                     \/ dict_has value "Contact" = true)))
  /\ ((exists e, initialize_firebase fb = Raise e)
      \/ (exists e, reference_get fb "device" = Raise e)
      \/ (exists e, reference_get fb "fastpay" = Raise e) ->
      ids = dom (devices database)).
Proof.
  intros ids r. split; [|split; [|split; [|split; [|split]]]].
  - unfold r, hard_sync_all_devices_from_firebase. fold ids.
    apply (fleet_fold_each orm fb ue (elements ids)
             (Fleet.mk (size ids) 0 0 0 0 0 0 0 0 [] [], database)).
  - unfold r, hard_sync_all_devices_from_firebase. by rewrite fleet_results.
  - unfold r, hard_sync_all_devices_from_firebase. rewrite fleet_results. simpl.
    apply NoDup_elements.
  - unfold r, hard_sync_all_devices_from_firebase. fold ids.
    generalize (elements ids).
    assert (forall l acc, Fleet.total_devices_processed
                            (fold_left (fleet_step orm fb ue) l acc).1
                          = Fleet.total_devices_processed acc.1) as Hk.
    { induction l as [|x l IH]; intros [a d]; [done|]. simpl. rewrite IH.
      unfold fleet_step. by destruct (hard_sync_device_from_firebase orm fb x ue d). }
    intros l. by rewrite Hk.
  - intros device_data fastpay_data Hi Hd Hf id. unfold ids, all_device_ids.
    unfold discover_firebase_device_ids, mbind, exc_mbind, exc_bind.
    rewrite Hi, Hd, Hf.
    set (found := match fastpay_data with
                  | JDict d =>
                      if truthy fastpay_data
                      then (match device_data with
                            | JDict d0 => if truthy device_data
                                          then list_to_set (map fst d0) else ∅
                            | _ => ∅
                            end) ∪ list_to_set (legacy_device_keys d)
                      else match device_data with
                           | JDict d0 => if truthy device_data
                                         then list_to_set (map fst d0) else ∅
                           | _ => ∅
                           end
                  | _ => match device_data with
                         | JDict d0 => if truthy device_data
                                       then list_to_set (map fst d0) else ∅
                         | _ => ∅
                         end
                  end : gset string).
    assert (Hfound : id ∈ found <->
              (exists d v, device_data = JDict d /\ (id, v) ∈ d)
              \/ (exists d v value,
                     fastpay_data = JDict d /\ (id, v) ∈ d /\ v = JDict value
                     /\ (dict_has value "messages" = true
                         \/ dict_has value "Notification" = true
                         \/ dict_has value "Contact" = true))).
    { assert (Hdev : id ∈ (match device_data with
                           | JDict d0 => if truthy device_data
                                         then list_to_set (map fst d0) else ∅
                           | _ => ∅
                           end : gset string)
                     <-> exists d v, device_data = JDict d /\ (id, v) ∈ d).
      { destruct device_data as [| | | | | |d0]; try (split; [set_solver|by intros (?&?&?&?)]).
        replace (if truthy (JDict d0) then list_to_set (map fst d0) else ∅ : gset string)
          with (list_to_set (map fst d0) : gset string) by (by destruct d0).
        rewrite elem_of_list_to_set, list_elem_of_fmap. split.
        - intros ([k v] & -> & Hin). eauto.
        - intros (d & v & [= <-] & Hin). by exists (id, v). }
      assert (Hleg : forall d, fastpay_data = JDict d ->
                 (id ∈ (list_to_set (legacy_device_keys d) : gset string)
                  <-> exists d v value,
                     fastpay_data = JDict d /\ (id, v) ∈ d /\ v = JDict value
                     /\ (dict_has value "messages" = true
                         \/ dict_has value "Notification" = true
                         \/ dict_has value "Contact" = true))).
      { intros d ->. rewrite elem_of_list_to_set, elem_of_legacy_device_keys. split.
        - intros (v & value & ? & ? & ?). by exists d, v, value.
        - intros (d' & v & value & [= <-] & ? & ? & ?). by exists v, value. }
      unfold found. destruct fastpay_data as [| | | | | |d];
        try (rewrite Hdev; split; [by left|by intros [?|(?&?&?&?&?)]]).
      destruct d as [|kv d].
      - cbn [truthy]. rewrite Hdev. split; [by left|].
        intros [?|(?&?&?&[= <-]&Hin&?)]; [done|]. by apply elem_of_nil in Hin.
      - cbn [truthy]. rewrite elem_of_union, Hdev, (Hleg (kv :: d) eq_refl). done. }
    destruct (decide (found = ∅)) as [He|Hne].
    + rewrite elem_of_dom. rewrite <- Hfound, He. rewrite elem_of_empty. tauto.
    + rewrite elem_of_union, elem_of_dom, Hfound. tauto.
  - intros Hfail. unfold ids, all_device_ids.
    unfold discover_firebase_device_ids, mbind, exc_mbind, exc_bind.
    destruct Hfail as [[e ->]|[[e He]|[e He]]]; [done| |].
    + destruct (initialize_firebase fb); [|done]. by rewrite He.
    + destruct (initialize_firebase fb); [|done].
      destruct (reference_get fb "device"); [|done]. by rewrite He.
Qed.

(** ** One kind after the other *)

Section Stage.
Context {K V : Type} `{Countable K} (res : resource K V).
Hypothesis res_lawful : lawful res.
Variable read : string -> json -> request K V.

Lemma sync_kind_returned fetched_data ue st st' :
  sync_kind res read fetched_data ue st = (Ok tt, st') ->
  exists data n items,
    fetched_data = Ok data /\ py_len data = Ok n /\ py_items data = Ok items
    /\ st' = exec (reconcile_all res ue read items) (counted res n st).
Proof.
  unfold sync_kind. unfold_M.
  destruct fetched_data as [data|e]; [|intros E; discriminate E].
  destruct (py_len data) as [n|e] eqn:Hn; [|intros E; discriminate E].
  destruct (py_items data) as [items|e] eqn:Hi; [|intros E; discriminate E].
  rewrite reconcile_all_exec. intros [= <-]. by exists data, n, items.
Qed.

Lemma sync_kind_returns fetched_data ue st data n items :
  fetched_data = Ok data -> py_len data = Ok n -> py_items data = Ok items ->
  sync_kind res read fetched_data ue st
  = (Ok tt, exec (reconcile_all res ue read items) (counted res n st)).
Proof.
  intros -> Hn Hi. unfold sync_kind. unfold_M. rewrite Hn. simpl. rewrite Hi. simpl.
  by rewrite reconcile_all_exec.
Qed.

Lemma all_counts_other ue items st k' :
  k' <> res_kind res ->
  counts_of k' (result (exec (reconcile_all res ue read items) st))
  = counts_of k' (result st).
Proof.
  intros Hk.
  apply (reconcile_all_respects res read
           (fun a b => counts_of k' (result b) = counts_of k' (result a))).
  - done.
  - intros a b c; congruence.
  - intros name rq a. destruct (reconcile_turn res ue name rq a); simpl;
      rewrite ?counts_of_with_counts_ne by done; done.
Qed.

Lemma all_flags ue items st :
  device_created (result (exec (reconcile_all res ue read items) st))
  = device_created (result st).
Proof.
  apply (reconcile_all_respects res read
           (fun a b => device_created (result b) = device_created (result a))).
  - done.
  - intros a b c; congruence.
  - intros name rq a. destruct (reconcile_turn res ue name rq a); simpl; try done;
      by destruct (res_kind res).
Qed.

(** What a kind leaves on success: errors only ever added, the other
    tables and the other counters as they were. *)
Lemma sync_kind_frame fetched_data ue st st' :
  sync_kind res read fetched_data ue st = (Ok tt, st') ->
  (exists suffix, errors (result st') = errors (result st) ++ suffix)
  /\ (forall k', k' <> res_kind res ->
                 counts_of k' (result st') = counts_of k' (result st))
  /\ device_created (result st') = device_created (result st)
  /\ forall X (proj : DB -> X),
       (forall f d, proj (res_update res f d) = proj d) ->
       proj (db st') = proj (db st).
Proof.
  intros (data & n & items & _ & _ & _ & ->)%sync_kind_returned.
  split; [|split; [|split]].
  - destruct (all_errors res read ue items (counted res n st)) as [suffix E].
    exists suffix. rewrite E. simpl. by rewrite errors_with_counts.
  - intros k' Hk. rewrite all_counts_other by done. simpl.
    by rewrite counts_of_with_counts_ne.
  - rewrite all_flags. simpl. by destruct (res_kind res).
  - intros X proj Hproj. by rewrite (all_frame res read proj ue items _ Hproj).
Qed.

(** The second of two runs without updates: every entry the first
    run created or skipped is skipped, nothing is written. *)
Lemma sync_kind_rerun fetched_data st1 st1' st2 :
  sync_kind res read fetched_data false st1 = (Ok tt, st1') ->
  errors (result st1') = errors (result st1) ->
  dom (res_table res (db st1')) ⊆ dom (res_table res (db st2)) ->
  exists n m,
    sync_kind res read fetched_data false st2
    = (Ok tt, mkState (with_counts (res_kind res) (add_skipped n) (result (counted res m st2)))
                      (db st2))
    /\ (created (counts_of (res_kind res) (result st1'))
        + skipped (counts_of (res_kind res) (result st1'))
        = created (counts_of (res_kind res) (result st1))
          + skipped (counts_of (res_kind res) (result st1)) + n)%nat.
Proof.
  intros (data & m & items & Hd & Hm & Hi & ->)%sync_kind_returned Herr Hdom.
  destruct (rerun res res_lawful read items (counted res m st1) (counted res m st2))
    as (n & E & Hn).
  - rewrite Herr. simpl. by rewrite errors_with_counts.
  - exact Hdom.
  - exists n, m. split.
    + rewrite (sync_kind_returns _ _ _ _ _ _ Hd Hm Hi). by rewrite E.
    + rewrite Hn. simpl. rewrite counts_of_with_counts. simpl. lia.
Qed.
End Stage.

Lemma sync_messages_kind orm fb dev ue st :
  sync_messages orm fb dev ue st
  = sync_kind (message_resource orm) (message_request dev)
      (get_firebase_messages_for_device fb dev None) ue st.
Proof.
  unfold sync_messages, sync_kind. unfold_M.
  destruct (get_firebase_messages_for_device fb dev None) as [data|e]; simpl; [|done].
  destruct (py_len data); simpl; [|done]. destruct (py_items data); simpl; [|done].
  apply message_loop_reconcile.
Qed.

Lemma sync_notifications_kind orm fb dev ue st :
  sync_notifications orm fb dev ue st
  = sync_kind (notification_resource orm) (notification_request dev)
      (get_firebase_notifications_for_device fb dev) ue st.
Proof.
  unfold sync_notifications, sync_kind. unfold_M.
  destruct (get_firebase_notifications_for_device fb dev) as [data|e]; simpl; [|done].
  destruct (py_len data); simpl; [|done]. destruct (py_items data); simpl; [|done].
  apply notification_loop_reconcile.
Qed.

Lemma sync_contacts_kind orm fb dev ue st :
  sync_contacts orm fb dev ue st
  = sync_kind (contact_resource orm) (contact_request dev)
      (get_firebase_contacts_for_device fb dev) ue st.
Proof.
  unfold sync_contacts, sync_kind. unfold_M.
  destruct (get_firebase_contacts_for_device fb dev) as [data|e]; simpl; [|done].
  destruct (py_len data); simpl; [|done]. destruct (py_items data); simpl; [|done].
  apply contact_loop_reconcile.
Qed.

(** ** The stages of a run *)

Lemma bind_returned {A B} (m : M A) (f : A -> M B) st b st'' :
  bind m f st = (Ok b, st'') ->
  exists a st', m st = (Ok a, st') /\ f a st' = (Ok b, st'').
Proof.
  unfold bind. destruct (m st) as [[a|e] st']; [eauto|]. intros E; discriminate E.
Qed.

Lemma atomic_returned {A} (body : M A) st a st' :
  atomic body st = (Ok a, st') -> body st = (Ok a, st').
Proof.
  unfold atomic. destruct (body st) as [[a'|e] st1]; [done|]. intros E; discriminate E.
Qed.

Lemma hard_sync_failed_errors dev e st :
  errors (result (hard_sync_failed dev e st).2)
  = errors (result st) ++ ["Hard sync failed: " +:+ e].
Proof.
  unfold hard_sync_failed. unfold_M. unfold mbind, M_mbind, bind. simpl.
  by destruct (devices (db st) !! dev).
Qed.

Lemma update_sync_status_found orm dev st dv :
  devices (db st) !! dev = Some dv ->
  update_sync_status orm dev st
  = (Ok tt, mkState (result st)
              (set_devices (insert dev (status_after (timezone_now orm) (result st) dv))
                 (db st))).
Proof. intros E. unfold update_sync_status. unfold_M. by rewrite E. Qed.

Lemma mark_syncing_run dev st :
  mark_syncing dev st
  = (Ok tt,
     mkState (result st)
       match devices (db st) !! dev with
       | Some device => set_devices (insert dev (with_status "syncing" None device)) (db st)
       | None => db st
       end).
Proof.
  unfold mark_syncing. unfold_M. destruct (devices (db st) !! dev); [done|by destruct st].
Qed.

Lemma Device_get_or_create_found orm dev defaults st device :
  devices (db st) !! dev = Some device ->
  Device_get_or_create orm dev defaults st = (Ok (device, false), st).
Proof. intros E. unfold Device_get_or_create. unfold_M. by rewrite E. Qed.

Lemma device_stage_frame_refl a : device_stage_frame a a.
Proof. by repeat split. Qed.

Lemma device_stage_frame_trans a b c :
  device_stage_frame a b -> device_stage_frame b c -> device_stage_frame a c.
Proof. intros (?&?&?&?) (?&?&?&?). repeat split; try congruence. set_solver. Qed.

Lemma device_stage_frame_insert a dev dv :
  device_stage_frame a (set_devices (insert dev dv) a).
Proof. repeat split. simpl. rewrite dom_insert. set_solver. Qed.

Lemma Device_get_or_create_returned orm dev defaults st device created st' :
  Device_get_or_create orm dev defaults st = (Ok (device, created), st') ->
  result st' = result st /\ devices (db st') !! dev = Some device
  /\ device_stage_frame (db st) (db st').
Proof.
  unfold Device_get_or_create. unfold_M.
  destruct (devices (db st) !! dev) as [dv|] eqn:E.
  - intros [= <- <- <-]. repeat split; try done.
  - destruct (device_rejected orm dev defaults); [intros H; discriminate H|].
    intros [= <- <- <-]. simpl. rewrite lookup_insert_eq.
    split; [done|]. split; [done|]. apply device_stage_frame_insert.
Qed.

Lemma update_device_returned orm dev ue info device st st' :
  update_device orm dev ue info device st = (Ok tt, st') ->
  flags_only (result st) (result st') /\ device_stage_frame (db st) (db st')
  /\ (ue = false -> st' = mkState (set_device_updated false (result st)) (db st)).
Proof.
  unfold update_device. destruct ue.
  - unfold_M. destruct (updated_profile info (Device.prof device)) as [p|e];
      [|intros H; discriminate H].
    destruct (device_rejected orm dev p); [intros H; discriminate H|].
    intros [= <-]. simpl. split; [|split; [|done]].
    + split; [done|by intros []].
    + apply device_stage_frame_insert.
  - unfold_M. intros [= <-]. simpl. split; [|split; [|done]].
    + split; [done|by intros []].
    + apply device_stage_frame_refl.
Qed.

Lemma sync_device_info_returned orm dev ue info st st' :
  sync_device_info orm dev ue info st = (Ok tt, st') ->
  (exists d, as_dict info = Ok d)
  /\ is_Some (devices (db st') !! dev)
  /\ device_stage_frame (db st) (db st')
  /\ flags_only (result st) (result st').
Proof.
  unfold sync_device_info. intros H%atomic_returned.
  unfold mbind, M_mbind in H.
  apply bind_returned in H as ([] & st1 & H1 & H).
  rewrite mark_syncing_run in H1. injection H1 as <-.
  apply bind_returned in H as (d & st2 & H2 & H).
  unfold lift in H2. injection H2 as Hd <-.
  apply bind_returned in H as ([device created] & st3 & H3 & H).
  apply Device_get_or_create_returned in H3 as (Hr3 & Hdev3 & Hf3). simpl in Hr3, Hf3.
  assert (Hf1 : device_stage_frame (db st) (db st3)).
  { eapply device_stage_frame_trans; [|exact Hf3].
    destruct (devices (db st) !! dev);
      [apply device_stage_frame_insert | apply device_stage_frame_refl]. }
  split; [eauto|].
  destruct created.
  - unfold modify_result in H. injection H as <-. simpl. rewrite Hr3.
    split; [eauto|]. split; [done|]. split; [done|by intros []].
  - apply update_device_returned in H as ((He & Hc) & Hf & _).
    split; [|split].
    + apply elem_of_dom. destruct Hf as (_ & _ & _ & Hsub). apply Hsub.
      apply elem_of_dom. eauto.
    + eapply device_stage_frame_trans; eauto.
    + rewrite Hr3 in He, Hc. by split.
Qed.

(** The device stage of a run without updates on a device that is
    already there. *)
Lemma sync_device_info_existing orm dev info d st dv :
  as_dict info = Ok d -> devices (db st) !! dev = Some dv ->
  sync_device_info orm dev false info st
  = (Ok tt,
     mkState (set_device_updated false (result st))
       (set_devices (insert dev (with_status "syncing" None dv)) (db st))).
Proof.
  intros Hd Hdv. unfold sync_device_info, atomic.
  unfold mbind, M_mbind, bind. rewrite mark_syncing_run, Hdv.
  unfold lift. rewrite Hd.
  rewrite (Device_get_or_create_found _ _ _ _ (with_status "syncing" None dv)).
  - reflexivity.
  - simpl. apply lookup_insert_eq.
Qed.

Lemma update_sync_status_missing orm dev st :
  devices (db st) !! dev = None ->
  update_sync_status orm dev st
  = (Ok tt, mkState (append_error
                       ("Error updating device sync status: "
                        +:+ "Device matching query does not exist.") (result st))
              (db st)).
Proof. intros E. unfold update_sync_status. unfold_M. by rewrite E. Qed.

(** A run that reports no error has gone through every stage. *)
Lemma run_clean orm fb dev ue db0 :
  errors (result (run_hard_sync orm fb dev ue db0)) = [] ->
  exists info stA stB stC stD dv,
    get_firebase_device_info fb dev = Ok info /\ truthy info = true
    /\ sync_device_info orm dev ue info (mkState (initial_result dev) db0) = (Ok tt, stA)
    /\ sync_messages orm fb dev ue stA = (Ok tt, stB)
    /\ sync_notifications orm fb dev ue stB = (Ok tt, stC)
    /\ sync_contacts orm fb dev ue stC = (Ok tt, stD)
    /\ devices (db stD) !! dev = Some dv
    /\ run_hard_sync orm fb dev ue db0
       = mkState (result stD)
           (set_devices (insert dev (status_after (timezone_now orm) (result stD) dv))
              (db stD)).
Proof.
  unfold run_hard_sync, try_except.
  destruct (hard_sync_body orm fb dev ue (mkState (initial_result dev) db0))
    as [[[]|e] st] eqn:Hbody; simpl.
  2: { rewrite hard_sync_failed_errors. intros E. by apply app_nil in E as [_ ?]. }
  intros Herr. unfold hard_sync_body, mbind, M_mbind in Hbody.
  apply bind_returned in Hbody as (info & st0 & H0 & H).
  unfold lift in H0. injection H0 as Hinfo <-.
  destruct (truthy info) eqn:Ht; simpl in H.
  2: { unfold modify_result in H. injection H as <-. simpl in Herr.
       discriminate Herr. }
  apply bind_returned in H as ([] & stA & HA & H).
  apply bind_returned in H as ([] & stB & HB & H).
  apply bind_returned in H as ([] & stC & HC & H).
  apply bind_returned in H as ([] & stD & HD & H).
  destruct (devices (db stD) !! dev) as [dv|] eqn:Hdv.
  - rewrite (update_sync_status_found _ _ _ _ Hdv) in H. injection H as <-.
    by exists info, stA, stB, stC, stD, dv.
  - rewrite (update_sync_status_missing _ _ _ Hdv) in H. injection H as <-.
    simpl in Herr. by apply app_nil in Herr as [_ ?].
Qed.

Lemma run_from_stages orm fb dev ue db0 info stA stB stC stD dv :
  get_firebase_device_info fb dev = Ok info -> truthy info = true ->
  sync_device_info orm dev ue info (mkState (initial_result dev) db0) = (Ok tt, stA) ->
  sync_messages orm fb dev ue stA = (Ok tt, stB) ->
  sync_notifications orm fb dev ue stB = (Ok tt, stC) ->
  sync_contacts orm fb dev ue stC = (Ok tt, stD) ->
  devices (db stD) !! dev = Some dv ->
  run_hard_sync orm fb dev ue db0
  = mkState (result stD)
      (set_devices (insert dev (status_after (timezone_now orm) (result stD) dv)) (db stD)).
Proof.
  intros Hinfo Ht HA HB HC HD Hdv.
  unfold run_hard_sync, try_except, hard_sync_body, mbind, M_mbind, bind, lift.
  rewrite Hinfo, Ht. simpl. rewrite HA, HB, HC, HD.
  by rewrite (update_sync_status_found _ _ _ _ Hdv).
Qed.

(** C4, amended.  Two runs in a row of
    [hard_sync_device_from_firebase] with [update_existing=False] on
    the same external data, the first of which reports no error: the
    second run creates no device, message, notification or contact
    row and leaves the three tables as they are, and for each kind its
    skipped count is the first run's created count plus the first
    run's skipped count. *)
Theorem second_run_skips orm fb dev db0 r1 db1 r2 db2 :
  hard_sync_device_from_firebase orm fb dev false db0 = (r1, db1) ->
  hard_sync_device_from_firebase orm fb dev false db1 = (r2, db2) ->
  errors r1 = [] ->
  (device_created r2 = false /\ messages_created r2 = 0 /\ notifications_created r2 = 0
   /\ contacts_created r2 = 0)%nat
  /\ (dom (devices db2) = dom (devices db1) /\ messages db2 = messages db1
      /\ notifications db2 = notifications db1 /\ contacts db2 = contacts db1)
  /\ (messages_skipped r2 = messages_created r1 + messages_skipped r1
      /\ notifications_skipped r2 = notifications_created r1 + notifications_skipped r1
      /\ contacts_skipped r2 = contacts_created r1 + contacts_skipped r1)%nat.
Proof.
  unfold hard_sync_device_from_firebase. intros [= <- <-] [= <- <-] Herr.
  destruct (run_clean _ _ _ _ _ Herr)
    as (info & stA & stB & stC & stD & dv & Hinfo & Ht & HA & HB & HC & HD & Hdv & Hrun1).
  rewrite Hrun1 in *. simpl in Herr. cbn [db result].
  set (dvF := status_after (timezone_now orm) (result stD) dv) in *.
  rewrite sync_messages_kind in HB. rewrite sync_notifications_kind in HC.
  rewrite sync_contacts_kind in HD.
  (* the first run, stage by stage *)
  destruct (sync_device_info_returned _ _ _ _ _ _ HA)
    as ((d & Hd) & _ & (HAm & HAn & HAc & _) & (HAe & HAk)).
  destruct (sync_kind_frame _ _ _ _ _ _ HB) as ((sB & HBe) & HBk & _ & HBf).
  destruct (sync_kind_frame _ _ _ _ _ _ HC) as ((sC & HCe) & HCk & _ & HCf).
  destruct (sync_kind_frame _ _ _ _ _ _ HD) as ((sD & HDe) & HDk & _ & HDf).
  rewrite HDe in Herr. apply app_eq_nil in Herr as [HeC ->].
  rewrite HCe in HeC. apply app_eq_nil in HeC as [HeB ->].
  rewrite HBe in HeB. apply app_eq_nil in HeB as [HeA ->].
  rewrite app_nil_r in HBe, HCe, HDe.
  (* the second run *)
  set (st0 := mkState (initial_result dev)
                (set_devices (insert dev dvF) (db stD))).
  assert (Hdev0 : devices (db st0) !! dev = Some dvF) by (simpl; apply lookup_insert_eq).
  pose proof (sync_device_info_existing orm dev info d st0 dvF Hd Hdev0) as HA'.
  set (stA' := mkState (set_device_updated false (result st0))
                 (set_devices (insert dev (with_status "syncing" None dvF)) (db st0))) in *.
  destruct (sync_kind_rerun (message_resource orm) (message_resource_lawful orm)
              (message_request dev) _ stA stB stA' HB HBe) as (nm & mm & HB' & Hnm).
  { simpl. rewrite (HDf _ messages), (HCf _ messages); done. }
  set (stB' := mkState _ _) in HB'.
  destruct (sync_kind_rerun (notification_resource orm) (notification_resource_lawful orm)
              (notification_request dev) _ stB stC stB' HC HCe) as (nn & mn & HC' & Hnn).
  { simpl. rewrite (HDf _ notifications); done. }
  set (stC' := mkState _ _) in HC'.
  destruct (sync_kind_rerun (contact_resource orm) (contact_resource_lawful orm)
              (contact_request dev) _ stC stD stC' HD HDe) as (nc & mc & HD' & Hnc).
  { simpl. done. }
  set (stD' := mkState _ _) in HD'.
  rewrite <- sync_messages_kind in HB'. rewrite <- sync_notifications_kind in HC'.
  rewrite <- sync_contacts_kind in HD'.
  assert (HdevD : devices (db stD') !! dev = Some (with_status "syncing" None dvF))
    by (simpl; apply lookup_insert_eq).
  rewrite (run_from_stages orm fb dev false _ info stA' stB' stC' stD' _
             Hinfo Ht HA' HB' HC' HD' HdevD).
  (* the counters of the first run *)
  assert (Hm1 : counts_of KMessages (result stD) = counts_of KMessages (result stB)).
  { rewrite (HDk KMessages), (HCk KMessages); done. }
  assert (Hn1 : counts_of KNotifications (result stD) = counts_of KNotifications (result stC)).
  { rewrite (HDk KNotifications); done. }
  pose proof (HAk KMessages) as HkA. pose proof (HBk KNotifications ltac:(done)) as HkB.
  pose proof (HBk KContacts ltac:(done)) as HkB'.
  pose proof (HCk KContacts ltac:(done)) as HkC.
  pose proof (HAk KNotifications) as HkAn. pose proof (HAk KContacts) as HkAc.
  simpl in *.
  unfold messages_created, messages_skipped, notifications_created, notifications_skipped,
    contacts_created, contacts_skipped.
  rewrite Hm1, Hn1. rewrite HkA in Hnm. rewrite HkB, HkAn in Hnn.
  rewrite HkC, HkB', HkAc in Hnc. simpl in *.
  split; [done|]. split.
  - rewrite !dom_insert_L. split; [|done].
    apply set_eq. intros x. rewrite !elem_of_union. tauto.
  - lia.
Qed.

(** ** The scenarios of the specification *)

(** Device D1 has no local rows and the store has three messages: the
    single-device hard sync creates three rows and leaves the device
    'synced'. *)
Example scenario_first_sync :
  let run := hard_sync_device_from_firebase permissive_orm three_messages "D1" true empty_db in
  messages_fetched run.1 = 3%nat /\ messages_created run.1 = 3%nat
  /\ messages_skipped run.1 = 0%nat
  /\ Device.sync_status <$> devices run.2 !! "D1" = Some "synced".
Proof. vm_compute. repeat split. Qed.

(** Run twice with [update_existing=True]: the second run updates the
    three rows and creates none. *)
Example scenario_second_sync :
  let run1 := hard_sync_device_from_firebase permissive_orm three_messages "D1" true empty_db in
  let run2 := hard_sync_device_from_firebase permissive_orm three_messages "D1" true run1.2 in
  messages_updated run2.1 = 3%nat /\ messages_created run2.1 = 0%nat.
Proof. vm_compute. repeat split. Qed.

(** ** The status written back *)

(** A run that reports no error leaves the device [synced], with no
    error text. *)
Lemma clean_run_is_synced orm fb dev ue db0 :
  errors (hard_sync_device_from_firebase orm fb dev ue db0).1 = [] ->
  exists dv,
    devices (hard_sync_device_from_firebase orm fb dev ue db0).2 !! dev = Some dv
    /\ Device.sync_status dv = "synced" /\ Device.sync_error_message dv = None.
Proof.
  unfold hard_sync_device_from_firebase. simpl. intros Herr.
  destruct (run_clean _ _ _ _ _ Herr)
    as (info & stA & stB & stC & stD & dv & _ & _ & _ & _ & _ & _ & Hdv & Hrun).
  rewrite Hrun in *. simpl in *. eexists. rewrite lookup_insert_eq. split; [done|].
  unfold status_after. by rewrite Herr.
Qed.

(** C1, the code at the input where it departs from the claim: the
    store has no record for a device that the database holds as
    'synced'.  The run returns with one error in its result, and the
    device is still 'synced', with no error text. *)
Theorem no_device_data_leaves_status :
  let run := hard_sync_device_from_firebase permissive_orm empty_store "D1" true db_with_d1 in
  errors run.1 = ["No device data found in Firebase for device D1"]
  /\ Device.sync_status <$> devices run.2 !! "D1" = Some "synced"
  /\ Device.sync_error_message <$> devices run.2 !! "D1" = Some None.
Proof. vm_compute. repeat split. Qed.

(** C2, the code at the input where it departs from the claim: eight
    messages whose keys are not timestamps.  The run records eight
    errors and marks the device 'sync_failed', and the error text it
    stores is 598 characters long. *)
Theorem error_text_over_500 :
  let run := hard_sync_device_from_firebase permissive_orm eight_bad_keys "D1" true empty_db in
  length (errors run.1) = 8%nat
  /\ Device.sync_status <$> devices run.2 !! "D1" = Some "sync_failed"
  /\ (String.length <$> (devices run.2 !! "D1" ≫= Device.sync_error_message)) = Some 598%nat.
Proof. vm_compute. repeat split. Qed.

(** C3, counterexample: a fetched notification without package name,
    no row under its key; no row is created and [created] stays 0. *)
Lemma nameless_notification_not_upserted :
  let run := hard_sync_device_from_firebase permissive_orm nameless_notification_store
               "D1" true empty_db in
  notifications_fetched run.1 = 1%nat
  /\ notifications empty_db !! ("D1", 100) = None
  /\ notifications run.2 !! ("D1", 100) = None
  /\ notifications_created run.1 = 0%nat.
Proof. vm_compute. repeat split. Qed.

(** C3, witness: a new message at timestamp 100. *)
Lemma upsert_by_natural_key_witness :
  sync_message_entry permissive_orm "D1" false "100" (msg "sent" "+1" "a") (start empty_db)
  = (Ok tt,
     upsert_state (message_resource permissive_orm) false ("D1", 100)
       (Message.mk "sent" (JStr "+1") (JStr "a") (JBool false)) (start empty_db)).
Proof.
  apply (proj1 (upsert_by_natural_key permissive_orm "D1" false (start empty_db))
           "100" (msg "sent" "+1" "a") 100 (JStr "sent") (JStr "+1") (JStr "a") (JBool false));
    reflexivity.
Defined.

(** C4, counterexample: the device already has the one message the
    store holds.  The first run creates nothing and skips one entry,
    the second run skips one entry too. *)
Lemma second_skipped_is_not_first_created :
  let run1 := hard_sync_device_from_firebase permissive_orm one_message "D1" false
                db_with_d1_message in
  let run2 := hard_sync_device_from_firebase permissive_orm one_message "D1" false run1.2 in
  errors run1.1 = [] /\ messages_created run1.1 = 0%nat /\ messages_skipped run1.1 = 1%nat
  /\ messages_skipped run2.1 = 1%nat
  /\ messages_skipped run2.1 <> messages_created run1.1.
Proof. vm_compute. repeat split. discriminate. Qed.

(** C4, witness: three new messages, twice. *)
Lemma second_run_skips_witness :
  let run1 := hard_sync_device_from_firebase permissive_orm three_messages "D1" false empty_db in
  let run2 := hard_sync_device_from_firebase permissive_orm three_messages "D1" false run1.2 in
  errors run1.1 = []
  /\ messages_created run2.1 = 0%nat
  /\ messages_skipped run2.1 = (messages_created run1.1 + messages_skipped run1.1)%nat.
Proof.
  intros run1 run2.
  assert (E : errors run1.1 = []) by reflexivity.
  destruct (second_run_skips permissive_orm three_messages "D1" empty_db
              run1.1 run1.2 run2.1 run2.2
              (surjective_pairing run1) (surjective_pairing run2) E)
    as ((_ & Hc & _) & _ & (Hs & _)).
  exact (conj E (conj Hc Hs)).
Defined.

(** Why the first run has to be free of errors for the sum: when the
    database refuses a row and a later entry writes under the same
    timestamp, the first run reports an error, creates one row and
    skips nothing, and the second run skips both entries. *)
Lemma rejected_row_breaks_the_sum :
  let run1 := hard_sync_device_from_firebase strict_orm colliding_keys "D1" false empty_db in
  let run2 := hard_sync_device_from_firebase strict_orm colliding_keys "D1" false run1.2 in
  length (errors run1.1) = 1%nat
  /\ messages_created run1.1 = 1%nat /\ messages_skipped run1.1 = 0%nat
  /\ messages_created run2.1 = 0%nat /\ messages_skipped run2.1 = 2%nat.
Proof. vm_compute. repeat split. Qed.

(** C5, counterexample: the SDK is not installed; no path yields data
    and the fetcher raises. *)
Lemma fetch_raises_without_sdk :
  no_data sdk_missing (message_paths "D1")
  /\ get_firebase_messages_for_device sdk_missing "D1" None
     = Raise "Firebase Admin SDK not available".
Proof. split; [|reflexivity]. intros path _. reflexivity. Qed.

(** C5, witness: a reachable store that holds nothing. *)
Lemma soft_fail_fetch_witness :
  FIREBASE_AVAILABLE empty_store = true
  /\ get_firebase_messages_for_device empty_store "D1" (Some 10) = Ok (JDict []).
Proof.
  split; [reflexivity|].
  apply (proj1 (proj1 (soft_fail_fetch empty_store "D1") eq_refl)).
  right. intros path _. reflexivity.
Defined.

(** C6, counterexample: a key that is not a timestamp is recorded as
    an error and not counted as skipped; a record that is a number is
    counted as skipped and no error is recorded. *)
Lemma malformed_is_not_both :
  let bad_key := hard_sync_device_from_firebase permissive_orm bad_key_message
                   "D1" true empty_db in
  let bad_shape := hard_sync_device_from_firebase permissive_orm bad_shape_message
                     "D1" true empty_db in
  (errors bad_key.1
   = ["Error processing message abc: invalid literal for int() with base 10: 'abc'"]
   /\ messages_skipped bad_key.1 = 0%nat)
  /\ (errors bad_shape.1 = [] /\ messages_skipped bad_shape.1 = 1%nat).
Proof. vm_compute. repeat split. Qed.

(** C6, witness: the key 'abc'. *)
Lemma malformed_entries_witness :
  sync_message_entry permissive_orm "D1" true "abc" (msg "received" "+1" "a") (start empty_db)
  = (Ok tt,
     mkState (append_error
                ("Error processing message abc: "
                 +:+ "invalid literal for int() with base 10: 'abc'")
                (initial_result "D1")) empty_db).
Proof.
  apply (proj1 (proj2 (malformed_entries permissive_orm "D1" true "abc"
                         (msg "received" "+1" "a") (start empty_db)))).
  reflexivity.
Defined.

(** C7, the code at an input where it departs from the claim: three
    new messages of which one has a key that is not a timestamp; the
    keys '100' and '0100' of the two others are read by [int()] as the
    same timestamp.  Without [update_existing] the run creates one row
    and skips the other entry: created plus updated is 1 for the 2
    well-formed new records, beside the one error. *)
Lemma colliding_keys_lose_a_record :
  let run := hard_sync_device_from_firebase permissive_orm colliding_and_bad "D1" false
               empty_db in
  messages_fetched run.1 = 3%nat
  /\ (messages_created run.1 + messages_updated run.1 = 1)%nat
  /\ messages_skipped run.1 = 1%nat
  /\ errors run.1
     = ["Error processing message abc: invalid literal for int() with base 10: 'abc'"]
  /\ size (messages run.2) = 1%nat.
Proof. vm_compute. repeat split. Qed.

(** C7, witness: in each loop two new entries around one that raises;
    a message and a notification whose key is not a timestamp, a
    contact that the database refuses. *)
Lemma error_isolation_witness :
  (exists st',
      message_loop permissive_orm "D1" true (good_before ++ bad_entry :: good_after)
        (start empty_db) = (Ok tt, st')
      /\ (messages_created (result st') + messages_updated (result st') = 2)%nat
      /\ errors (result st')
         = ["Error processing message abc: invalid literal for int() with base 10: 'abc'"])
  /\ (exists st',
      notification_loop permissive_orm "D1" true
        (notification_before ++ bad_notification :: notification_after)
        (start empty_db) = (Ok tt, st')
      /\ (notifications_created (result st') + notifications_updated (result st') = 2)%nat
      /\ errors (result st')
         = ["Error processing notification abc: invalid literal for int() with base 10: 'abc'"])
  /\ (exists st',
      contact_loop short_phone_orm "D1" true
        (contact_before ++ bad_contact :: contact_after) (start empty_db) = (Ok tt, st')
      /\ (contacts_created (result st') + contacts_updated (result st') = 2)%nat
      /\ errors (result st')
         = ["Error processing contact +12345678901234567890123456789: value too long for type character varying(20)"]).
Proof.
  assert (Hnd : forall {A} (a b : A), a <> b -> NoDup [a; b]).
  { intros A a b Hab. apply NoDup_cons. split; [|apply NoDup_singleton].
    intros Hin. by apply list_elem_of_singleton in Hin. }
  split; [|split].
  - destruct (proj1 (error_isolation permissive_orm "D1" true)
                good_before bad_entry good_after [("D1", 100); ("D1", 300)] (start empty_db)
                "invalid literal for int() with base 10: 'abc'")
      as (st' & Hrun & Hcount & Herr & _).
    + repeat constructor; eexists; repeat split; reflexivity.
    + apply Hnd. discriminate.
    + left. reflexivity.
    + exists st'. split; [exact Hrun|]. split; [exact Hcount|exact Herr].
  - destruct (proj1 (proj2 (error_isolation permissive_orm "D1" true))
                notification_before bad_notification notification_after
                [("D1", 100); ("D1", 300)] (start empty_db)
                "invalid literal for int() with base 10: 'abc'")
      as (st' & Hrun & Hcount & Herr & _).
    + repeat constructor; eexists; repeat split; reflexivity.
    + apply Hnd. discriminate.
    + left. reflexivity.
    + exists st'. split; [exact Hrun|]. split; [exact Hcount|exact Herr].
  - destruct (proj2 (proj2 (error_isolation short_phone_orm "D1" true))
                contact_before bad_contact contact_after
                [("D1", "+111"); ("D1", "+222")] (start empty_db)
                "value too long for type character varying(20)")
      as (st' & Hrun & Hcount & Herr & _).
    + repeat constructor; eexists; repeat split; reflexivity.
    + apply Hnd. discriminate.
    + right. eexists _, _. split; [reflexivity|]. split; [reflexivity|].
      split; [|reflexivity].
      intros Hin. apply elem_of_cons in Hin as [Hin|Hin]; [discriminate Hin|].
      apply list_elem_of_singleton in Hin. discriminate Hin.
    + exists st'. split; [exact Hrun|]. split; [exact Hcount|exact Herr].
Defined.

(** C8, counterexample: the 'device' collection has the key A, the
    read of 'fastpay' raises; no device is synchronised. *)
Lemma legacy_failure_drops_device_keys :
  reference_get legacy_unreadable "device" = Ok (JDict [("A", d1_info)])
  /\ all_device_ids legacy_unreadable empty_db = ∅
  /\ Fleet.device_results
       (hard_sync_all_devices_from_firebase permissive_orm legacy_unreadable true empty_db).1
     = [].
Proof. repeat split. Qed.

(** C8, witness: the database is empty; A comes from the 'device'
    collection, B from the legacy collection, whose other key is not
    taken for a device.  The run on A creates its message, the run on
    B finds no record of the device. *)
Lemma fleet_device_ids_witness :
  let run := hard_sync_all_devices_from_firebase permissive_orm fleet_store true empty_db in
  map (fun r => (device_id r, messages_created r, errors r)) (Fleet.device_results run.1)
  = [ ("A", 1%nat, []);
      ("B", 0%nat, ["No device data found in Firebase for device B"]) ]
  /\ is_Some (messages run.2 !! ("A", 100))
  /\ "testing" ∉ all_device_ids fleet_store empty_db.
Proof.
  intros run.
  destruct (fleet_device_ids permissive_orm fleet_store true empty_db)
    as ((Hres & Hdb) & Hids & _ & _ & Hin & _).
  fold run in Hres, Hdb, Hids. split; [|split].
  - rewrite Hres. vm_compute. reflexivity.
  - rewrite Hdb. vm_compute. eexists. reflexivity.
  - intros H. apply (Hin _ _ eq_refl eq_refl eq_refl) in H
      as [[dv H]|[(d & v & E & H)|(d & v & value & E & H & Hv & Hl)]].
    + vm_compute in H. discriminate H.
    + injection E as <-. apply list_elem_of_singleton in H. discriminate H.
    + injection E as <-. apply elem_of_cons in H as [H|H]; [discriminate H|].
      apply list_elem_of_singleton in H. injection H as Hv'. subst v.
      injection Hv as Hvalue. subst value.
      destruct Hl as [Hl|[Hl|Hl]]; discriminate Hl.
Defined.

(** C9.  A notification entry with a readable key whose normalised
    package name is false for Python, the empty string in particular,
    changes nothing: no row is created or updated, none of the three
    counters moves and no error is appended; and there is a run in
    which [notifications_fetched] exceeds created + updated + skipped
    + the number of errors. *)
Theorem nameless_notification_uncounted :
  (forall orm dev ue k v st ts p t x,
      py_int k = Ok ts -> notification_fields v = Some (p, t, x) -> truthy p = false ->
      sync_notification_entry orm dev ue k v st = (Ok tt, st))
  /\ exists orm fb dev ue db0,
       let r := (hard_sync_device_from_firebase orm fb dev ue db0).1 in
       (notifications_created r + notifications_updated r + notifications_skipped r
        + length (errors r) < notifications_fetched r)%nat.
Proof.
  split; [intros; by eapply nameless_notification|].
  exists permissive_orm, nameless_notification_store, "D1", true, empty_db.
  vm_compute. lia.
Qed.

(** C9, witness: a notification whose package is the empty string. *)
Lemma nameless_notification_uncounted_witness :
  sync_notification_entry permissive_orm "D1" true "100"
    (JDict [("package", JStr ""); ("title", JStr "t")]) (start empty_db)
  = (Ok tt, start empty_db).
Proof.
  apply (proj1 nameless_notification_uncounted permissive_orm "D1" true "100"
           (JDict [("package", JStr ""); ("title", JStr "t")]) (start empty_db)
           100 (JStr "") (JStr "t") (JStr ""));
    reflexivity.
Defined.



(** ** Relations between databases that a whole run respects *)

Lemma preserves_bind R {A B} (m : M A) (f : A -> M B) :
  (forall a b c, R a b -> R b c -> R a c) ->
  preserves R m -> (forall a, preserves R (f a)) -> preserves R (bind m f).
Proof.
  intros Htrans Hm Hf st. unfold bind. specialize (Hm st).
  destruct (m st) as [[a|e] st']; simpl in *; [|done].
  eapply Htrans; [exact Hm | apply Hf].
Qed.

Lemma preserves_try_except R body handler :
  (forall a b c, R a b -> R b c -> R a c) ->
  preserves R body -> (forall e, preserves R (handler e)) ->
  preserves R (try_except body handler).
Proof.
  intros Htrans Hb Hh st. unfold try_except. specialize (Hb st).
  destruct (body st) as [[a|e] st']; simpl in *; [done|].
  eapply Htrans; [exact Hb | apply Hh].
Qed.

Lemma reconcile_all_respects_read {K V} `{Countable K} (res : resource K V)
    (read : string -> json -> request K V) (R : State -> State -> Prop) ue :
  (forall st, R st st) ->
  (forall a b c, R a b -> R b c -> R a c) ->
  (forall k v st, R st (exec (reconcile res ue k (read k v)) st)) ->
  forall items st, R st (exec (reconcile_all res ue read items) st).
Proof.
  intros Hrefl Htrans Hstep items.
  induction items as [|[k v] items IH]; intros st; [apply Hrefl|].
  rewrite exec_all_cons. eapply Htrans; [apply Hstep | apply IH].
Qed.

Lemma message_request_key dev k v key row :
  message_request dev k v = Upsert key row -> exists ts, key = (dev, ts).
Proof.
  unfold message_request. destruct (py_int k) as [ts|]; [|done].
  destruct (message_fields v) as [[[[? ?] ?] ?]|]; [|done]. intros [= <- _]. eauto.
Qed.

Lemma notification_request_key dev k v key row :
  notification_request dev k v = Upsert key row ->
  exists ts, key = (dev, ts).
Proof.
  unfold notification_request. destruct (py_int k) as [ts|]; [|done].
  destruct (notification_fields v) as [[[p ?] ?]|]; [|done].
  destruct (truthy p); [|done]. intros [= <- _]. eauto.
Qed.

Lemma contact_request_key dev k v key row :
  contact_request dev k v = Upsert key row -> key = (dev, k).
Proof.
  unfold contact_request. destruct (convert_last_contacted _); [|done]. by intros [= <- _].
Qed.

Section Writes.
Variables (orm : ORM) (fb : Firebase) (dev : string) (ue : bool) (R : DB -> DB -> Prop).
Hypothesis HR : admits dev ue R.

Lemma message_loop_preserves items st :
  R (db st)
    (db (exec (reconcile_all (message_resource orm) ue (message_request dev) items) st)).
Proof.
  apply (reconcile_all_respects_read (message_resource orm) (message_request dev)
           (fun a b => R (db a) (db b))).
  - intros a. apply (admits_refl _ _ _ HR).
  - intros a b c. apply (admits_trans _ _ _ HR).
  - intros k v a.
    destruct (reconcile_turn (message_resource orm) ue k (message_request dev k v) a)
      as [e Hb| Hs | Hd | key row Hrq Hnone Hacc | key row old Hrq Hsome Hue Hacc];
      simpl; try apply (admits_refl _ _ _ HR).
    + destruct (message_request_key _ _ _ _ _ Hrq) as [ts ->].
      by apply (admits_message_created _ _ _ HR).
    + destruct (message_request_key _ _ _ _ _ Hrq) as [ts ->].
      by eapply (admits_message_updated _ _ _ HR).
Qed.

Lemma notification_loop_preserves items st :
  R (db st)
    (db (exec (reconcile_all (notification_resource orm) ue
                 (notification_request dev) items) st)).
Proof.
  apply (reconcile_all_respects_read (notification_resource orm) (notification_request dev)
           (fun a b => R (db a) (db b))).
  - intros a. apply (admits_refl _ _ _ HR).
  - intros a b c. apply (admits_trans _ _ _ HR).
  - intros k v a.
    destruct (reconcile_turn (notification_resource orm) ue k (notification_request dev k v) a)
      as [e Hb| Hs | Hd | key row Hrq Hnone Hacc | key row old Hrq Hsome Hue Hacc];
      simpl; try apply (admits_refl _ _ _ HR).
    + destruct (notification_request_key _ _ _ _ _ Hrq) as [ts ->].
      by apply (admits_notification_created _ _ _ HR).
    + destruct (notification_request_key _ _ _ _ _ Hrq) as [ts ->].
      by eapply (admits_notification_updated _ _ _ HR).
Qed.

Lemma contact_loop_preserves items st :
  R (db st)
    (db (exec (reconcile_all (contact_resource orm) ue (contact_request dev) items) st)).
Proof.
  apply (reconcile_all_respects_read (contact_resource orm) (contact_request dev)
           (fun a b => R (db a) (db b))).
  - intros a. apply (admits_refl _ _ _ HR).
  - intros a b c. apply (admits_trans _ _ _ HR).
  - intros k v a.
    destruct (reconcile_turn (contact_resource orm) ue k (contact_request dev k v) a)
      as [e Hb| Hs | Hd | key row Hrq Hnone Hacc | key row old Hrq Hsome Hue Hacc];
      simpl; try apply (admits_refl _ _ _ HR).
    + rewrite (contact_request_key _ _ _ _ _ Hrq) in *.
      by apply (admits_contact_created _ _ _ HR).
    + rewrite (contact_request_key _ _ _ _ _ Hrq) in *.
      by eapply (admits_contact_updated _ _ _ HR).
Qed.

Lemma sync_kind_preserves {K V} `{Countable K} (res : resource K V) read fetched_data :
  (forall items st, R (db st) (db (exec (reconcile_all res ue read items) st))) ->
  preserves R (sync_kind res read fetched_data ue).
Proof.
  intros Hloop st. unfold sync_kind. unfold_M.
  destruct fetched_data as [data|e]; simpl; [|apply (admits_refl _ _ _ HR)].
  destruct (py_len data) as [n|e]; simpl; [|apply (admits_refl _ _ _ HR)].
  destruct (py_items data) as [items|e]; simpl; [|apply (admits_refl _ _ _ HR)].
  rewrite reconcile_all_exec. simpl. apply (Hloop items (counted res n st)).
Qed.

Lemma sync_messages_preserves : preserves R (sync_messages orm fb dev ue).
Proof.
  intros st. rewrite sync_messages_kind.
  apply sync_kind_preserves. apply message_loop_preserves.
Qed.

Lemma sync_notifications_preserves : preserves R (sync_notifications orm fb dev ue).
Proof.
  intros st. rewrite sync_notifications_kind.
  apply sync_kind_preserves. apply notification_loop_preserves.
Qed.

Lemma sync_contacts_preserves : preserves R (sync_contacts orm fb dev ue).
Proof.
  intros st. rewrite sync_contacts_kind.
  apply sync_kind_preserves. apply contact_loop_preserves.
Qed.

Lemma sync_device_info_preserves info : preserves R (sync_device_info orm dev ue info).
Proof.
  intros st. unfold sync_device_info, atomic.
  match goal with |- context [match ?b st with _ => _ end] => destruct (b st) as [[[]|e] st'] eqn:H end;
    simpl; [|apply (admits_refl _ _ _ HR)].
  unfold mbind, M_mbind in H.
  apply bind_returned in H as ([] & st1 & H1 & H).
  rewrite mark_syncing_run in H1. injection H1 as <-.
  apply bind_returned in H as (d & st2 & H2 & H).
  unfold lift in H2. injection H2 as Hd <-.
  apply bind_returned in H as ([device created] & st3 & H3 & H).
  assert (R1 : R (db st)
                 match devices (db st) !! dev with
                 | Some device =>
                     set_devices (insert dev (with_status "syncing" None device)) (db st)
                 | None => db st
                 end).
  { destruct (devices (db st) !! dev) as [dv|] eqn:E; [|apply (admits_refl _ _ _ HR)].
    by eapply (admits_device_status _ _ _ HR). }
  eapply (admits_trans _ _ _ HR); [exact R1|]. clear R1.
  unfold Device_get_or_create in H3. unfold_M.
  match type of H3 with context [devices ?dd !! dev] => set (d1 := dd) in * end.
  destruct (devices d1 !! dev) as [dv1|] eqn:E1.
  - injection H3 as <- <- <-. simpl in H. unfold update_device in H.
    destruct ue eqn:Hue.
    + unfold_M. destruct (updated_profile d (Device.prof dv1)) as [p|e]; [|discriminate H].
      destruct (device_rejected orm dev p); [discriminate H|].
      injection H as <-. simpl. by eapply (admits_device_updated _ _ _ HR).
    + unfold_M. injection H as <-. simpl. apply (admits_refl _ _ _ HR).
  - destruct (device_rejected orm dev (device_defaults d)); [discriminate H3|].
    injection H3 as <- <- <-. unfold_M. injection H as <-. simpl.
    by apply (admits_device_created _ _ _ HR).
Qed.

Lemma update_sync_status_preserves : preserves R (update_sync_status orm dev).
Proof.
  intros st. destruct (devices (db st) !! dev) as [dv|] eqn:E.
  - rewrite (update_sync_status_found _ _ _ _ E). simpl.
    by eapply (admits_device_status _ _ _ HR).
  - rewrite (update_sync_status_missing _ _ _ E). simpl. apply (admits_refl _ _ _ HR).
Qed.

Lemma hard_sync_failed_preserves e : preserves R (hard_sync_failed dev e).
Proof.
  intros st. unfold hard_sync_failed. unfold_M. unfold mbind, M_mbind, bind. simpl.
  destruct (devices (db st) !! dev) as [dv|] eqn:E; simpl.
  - by eapply (admits_device_status _ _ _ HR).
  - apply (admits_refl _ _ _ HR).
Qed.

Lemma hard_sync_body_preserves : preserves R (hard_sync_body orm fb dev ue).
Proof.
  pose proof (admits_trans _ _ _ HR) as Htrans.
  unfold hard_sync_body, mbind, M_mbind.
  apply preserves_bind; [done| |intros info].
  { intros st. apply (admits_refl _ _ _ HR). }
  destruct (truthy info); simpl.
  2: { intros st. apply (admits_refl _ _ _ HR). }
  apply preserves_bind; [done|apply sync_device_info_preserves|intros _].
  apply preserves_bind; [done|apply sync_messages_preserves|intros _].
  apply preserves_bind; [done|apply sync_notifications_preserves|intros _].
  apply preserves_bind; [done|apply sync_contacts_preserves|intros _].
  apply update_sync_status_preserves.
Qed.

(** A relation that admits the writes of the reconciler holds between
    the database before a run and the database after it. *)
Lemma run_preserves database :
  R database (hard_sync_device_from_firebase orm fb dev ue database).2.
Proof.
  unfold hard_sync_device_from_firebase, run_hard_sync. simpl.
  apply (preserves_try_except R _ _ (admits_trans _ _ _ HR)
           hard_sync_body_preserves hard_sync_failed_preserves
           (mkState (initial_result dev) database)).
Qed.
End Writes.

Lemma other_devices_same_admits dev ue : admits dev ue (other_devices_same dev).
Proof.
  split.
  - intros d. unfold other_devices_same. repeat split; intros; reflexivity.
  - intros a b c (A1 & A2 & A3 & A4) (B1 & B2 & B3 & B4).
    repeat split; intros.
    + by rewrite B1, A1.
    + by rewrite B2, A2.
    + by rewrite B3, A3.
    + by rewrite B4, A4.
  - intros d dv _. repeat split; try done. intros d' Hd'. simpl.
    by rewrite lookup_insert_ne.
  - intros d dv dv' _ _. repeat split; try done. intros d' Hd'. simpl.
    by rewrite lookup_insert_ne.
  - intros d dv dv' _ _. repeat split; try done. intros d' Hd'. simpl.
    by rewrite lookup_insert_ne.
  - intros d ts row _. repeat split; try done. intros d' ts' Hd'. simpl.
    rewrite lookup_insert_ne; [done|congruence].
  - intros d ts old row _ _. repeat split; try done. intros d' ts' Hd'. simpl.
    rewrite lookup_insert_ne; [done|congruence].
  - intros d ts row _. repeat split; try done. intros d' ts' Hd'. simpl.
    rewrite lookup_insert_ne; [done|congruence].
  - intros d ts old row _ _ _. repeat split; try done. intros d' ts' Hd'. simpl.
    rewrite lookup_insert_ne; [done|congruence].
  - intros d p row _. repeat split; try done. intros d' p' Hd'. simpl.
    rewrite lookup_insert_ne; [done|congruence].
  - intros d p old row _ _. repeat split; try done. intros d' p' Hd'. simpl.
    rewrite lookup_insert_ne; [done|congruence].
Qed.

Lemma subseteq_dom_insert `{Countable K} {V} (m : gmap K V) k v :
  dom m ⊆ dom (<[k:=v]> m).
Proof. rewrite dom_insert. apply union_subseteq_r. Qed.

Lemma nothing_removed_admits dev ue : admits dev ue nothing_removed.
Proof.
  split.
  - intros d. unfold nothing_removed. repeat split; reflexivity.
  - intros a b c (A1 & A2 & A3 & A4) (B1 & B2 & B3 & B4).
    repeat split; etrans; eauto.
  - intros d dv _. repeat split; try done. apply subseteq_dom_insert.
  - intros d dv dv' _ _. repeat split; try done. apply subseteq_dom_insert.
  - intros d dv dv' _ _. repeat split; try done. apply subseteq_dom_insert.
  - intros d ts row _. repeat split; try done. apply subseteq_dom_insert.
  - intros d ts old row _ _. repeat split; try done. apply subseteq_dom_insert.
  - intros d ts row _. repeat split; try done. apply subseteq_dom_insert.
  - intros d ts old row _ _ _. repeat split; try done. apply subseteq_dom_insert.
  - intros d p row _. repeat split; try done. apply subseteq_dom_insert.
  - intros d p old row _ _. repeat split; try done. apply subseteq_dom_insert.
Qed.

Lemma rows_kept_refl d : rows_kept d d.
Proof. repeat split; try done. intros d' dv E. eauto. Qed.

Lemma rows_kept_admits dev : admits dev false rows_kept.
Proof.
  split.
  - apply rows_kept_refl.
  - intros a b c (A1 & A2 & A3 & A4) (B1 & B2 & B3 & B4).
    repeat split; eauto.
    intros d dv E. destruct (A4 _ _ E) as (dv' & E' & P').
    destruct (B4 _ _ E') as (dv'' & E'' & P''). exists dv''. split; [done|congruence].
  - intros d dv Hn. repeat split; try done. intros d' dv0 E. simpl.
    exists dv0. split; [|done]. rewrite lookup_insert_ne; [done|]. intros <-. congruence.
  - intros d dv dv' Hs Hp. repeat split; try done. intros d' dv0 E. simpl.
    destruct (decide (dev = d')) as [<-|Hne].
    + exists dv'. rewrite lookup_insert_eq. split; [done|]. congruence.
    + exists dv0. by rewrite lookup_insert_ne.
  - intros d dv dv' Hf. discriminate Hf.
  - intros d ts row Hn. repeat split; try done; [|intros d' dv0 E; eauto].
    intros key r E. simpl. rewrite lookup_insert_ne; [done|]. intros <-. congruence.
  - intros d ts old row Hf. discriminate Hf.
  - intros d ts row Hn. repeat split; try done; [|intros d' dv0 E; eauto].
    intros key r E. simpl. rewrite lookup_insert_ne; [done|]. intros <-. congruence.
  - intros d ts old row Hf. discriminate Hf.
  - intros d p row Hn. repeat split; try done; [|intros d' dv0 E; eauto].
    intros key r E. simpl. rewrite lookup_insert_ne; [done|]. intros <-. congruence.
  - intros d p old row Hf. discriminate Hf.
Qed.

(** X1.  [hard_sync_device_from_firebase] writes under its own device
    identifier only: whatever the store holds and whatever the database
    refuses, the device row, the messages, the notifications and the
    contacts of every other device are after the run what they were
    before it. *)
Theorem other_devices_untouched orm fb dev ue database :
  other_devices_same dev database
    (hard_sync_device_from_firebase orm fb dev ue database).2.
Proof. apply run_preserves, other_devices_same_admits. Qed.

(** X2.  [hard_sync_device_from_firebase] deletes nothing: every key
    of the four tables before the run is a key of the same table after
    it, also when the run fails. *)
Theorem hard_sync_removes_nothing orm fb dev ue database :
  nothing_removed database (hard_sync_device_from_firebase orm fb dev ue database).2.
Proof. apply run_preserves, nothing_removed_admits. Qed.

(** X3.  With [update_existing=False] the run only adds: every
    message, notification and contact row that was there is unchanged,
    and every device keeps its profile fields (the sync status and the
    sync stamps of the device are the only columns rewritten). *)
Theorem no_update_keeps_rows orm fb dev database :
  rows_kept database (hard_sync_device_from_firebase orm fb dev false database).2.
Proof. apply run_preserves, rows_kept_admits. Qed.

Lemma length_substring_le n : forall s, (String.length (substring 0 n s) <= n)%nat.
Proof.
  induction n as [|n IH]; intros [|c s]; simpl; try lia. specialize (IH s). lia.
Qed.

(** X4.  When the store has a record of the device (the fetch of the
    device information does not come back empty) and the database has
    the device, the status written agrees with the result returned:
    no error and 'synced' with no error text, or at least one error
    and 'sync_failed' with an error text.  The status 'syncing' set at
    the start never survives the run. *)
Theorem status_follows_errors orm fb dev ue database :
  (forall info, get_firebase_device_info fb dev = Ok info -> truthy info = true) ->
  is_Some (devices database !! dev) ->
  let run := hard_sync_device_from_firebase orm fb dev ue database in
  exists dv,
    devices run.2 !! dev = Some dv
    /\ ((errors run.1 = [] /\ Device.sync_status dv = "synced"
         /\ Device.sync_error_message dv = None)
        \/ (errors run.1 <> [] /\ Device.sync_status dv = "sync_failed"
            /\ is_Some (Device.sync_error_message dv))).
Proof.
  intros Hinfo Hdev run. unfold run, hard_sync_device_from_firebase, run_hard_sync.
  simpl. unfold try_except.
  pose proof (nothing_removed_admits dev ue) as HR.
  destruct (hard_sync_body orm fb dev ue (mkState (initial_result dev) database))
    as [[[]|e] st] eqn:Hbody.
  - (* every stage has returned *)
    pose proof (hard_sync_body_preserves orm fb dev ue nothing_removed HR
                  (mkState (initial_result dev) database)) as Hkeep.
    rewrite Hbody in Hkeep. simpl in Hkeep.
    unfold hard_sync_body, mbind, M_mbind in Hbody.
    apply bind_returned in Hbody as (info & st0 & H0 & H).
    unfold lift in H0. injection H0 as Hi <-.
    pose proof (Hinfo _ Hi) as Ht. rewrite Ht in H. simpl in H.
    apply bind_returned in H as ([] & stA & HA & H).
    apply bind_returned in H as ([] & stB & HB & H).
    apply bind_returned in H as ([] & stC & HC & H).
    apply bind_returned in H as ([] & stD & HD & H).
    assert (HdevD : is_Some (devices (db stD) !! dev)).
    { pose proof (sync_device_info_preserves orm dev ue nothing_removed HR info
                    (mkState (initial_result dev) database)) as R1.
      pose proof (sync_messages_preserves orm fb dev ue nothing_removed HR stA) as R2.
      pose proof (sync_notifications_preserves orm fb dev ue nothing_removed HR stB) as R3.
      pose proof (sync_contacts_preserves orm fb dev ue nothing_removed HR stC) as R4.
      rewrite HA in R1. rewrite HB in R2. rewrite HC in R3. rewrite HD in R4.
      simpl in *. destruct R1 as [R1 _], R2 as [R2 _], R3 as [R3 _], R4 as [R4 _].
      apply elem_of_dom, R4, R3, R2, R1, elem_of_dom. done. }
    destruct HdevD as [dv HdvD].
    rewrite (update_sync_status_found _ _ _ _ HdvD) in H. injection H as <-. simpl.
    eexists. rewrite lookup_insert_eq. split; [done|]. unfold status_after.
    destruct (errors (result stD)) as [|x l]; [left; done|right].
    split; [done|]. split; [done|]. simpl. eauto.
  - (* a stage has raised *)
    pose proof (hard_sync_body_preserves orm fb dev ue nothing_removed HR
                  (mkState (initial_result dev) database)) as Hkeep.
    rewrite Hbody in Hkeep. simpl in Hkeep. destruct Hkeep as [Hkeep _].
    assert (Hst : is_Some (devices (db st) !! dev)).
    { apply elem_of_dom, Hkeep, elem_of_dom. done. }
    destruct Hst as [dv Hdv].
    pose proof (hard_sync_failed_errors dev e st) as Herr.
    unfold hard_sync_failed in *. unfold_M. unfold mbind, M_mbind, bind in *. simpl in *.
    rewrite Hdv in *. simpl in *. eexists. rewrite lookup_insert_eq. split; [done|].
    right. split; [|split; [done|eauto]].
    intros E. by apply app_nil in E as [_ ?].
Qed.

(** X5.  When an exception reaches the outer handler (lines 675-686),
    the device is marked 'sync_failed', the text stored is the text of
    the exception cut to 500 characters, so never longer than 500, and
    the last error of the result is 'Hard sync failed: ' followed by
    the whole text. *)
Theorem aborted_run_message_bounded orm fb dev ue database e st :
  hard_sync_body orm fb dev ue (mkState (initial_result dev) database) = (Raise e, st) ->
  is_Some (devices database !! dev) ->
  let run := hard_sync_device_from_firebase orm fb dev ue database in
  exists dv,
    devices run.2 !! dev = Some dv
    /\ Device.sync_status dv = "sync_failed"
    /\ Device.sync_error_message dv = Some (str_take 500 e)
    /\ (String.length (str_take 500 e) <= 500)%nat
    /\ last (errors run.1) = Some ("Hard sync failed: " +:+ e).
Proof.
  intros Hbody Hdev run. unfold run, hard_sync_device_from_firebase, run_hard_sync.
  simpl. unfold try_except. 
  pose proof (nothing_removed_admits dev ue) as HR.
  pose proof (hard_sync_body_preserves orm fb dev ue nothing_removed HR
                (mkState (initial_result dev) database)) as Hkeep.
  rewrite Hbody in *. simpl in Hkeep. destruct Hkeep as [Hkeep _].
  assert (Hst : is_Some (devices (db st) !! dev)).
  { apply elem_of_dom, Hkeep, elem_of_dom. done. }
  destruct Hst as [dv Hdv].
  pose proof (hard_sync_failed_errors dev e st) as Herr.
  unfold hard_sync_failed in *. unfold_M. unfold mbind, M_mbind, bind in *. simpl in *.
  rewrite Hdv in *. simpl in *. eexists. rewrite lookup_insert_eq. split; [done|].
  split; [done|]. split; [done|]. split; [apply length_substring_le|].
  apply last_snoc.
Qed.

(** X4, witness: eight messages under keys that are not timestamps, for
    a device the database has. *)
Lemma status_follows_errors_witness :
  let run := hard_sync_device_from_firebase permissive_orm eight_bad_keys "D1" true db_with_d1 in
  exists dv,
    devices run.2 !! "D1" = Some dv
    /\ ((errors run.1 = [] /\ Device.sync_status dv = "synced"
         /\ Device.sync_error_message dv = None)
        \/ (errors run.1 <> [] /\ Device.sync_status dv = "sync_failed"
            /\ is_Some (Device.sync_error_message dv))).
Proof.
  apply (status_follows_errors permissive_orm eight_bad_keys "D1" true db_with_d1).
  - intros info H. vm_compute in H. injection H as <-. reflexivity.
  - exists synced_device. reflexivity.
Defined.

(** X5, witness: the record of the device is a string, so that reading
    a field of it raises. *)
Lemma aborted_run_message_bounded_witness :
  let run :=
    hard_sync_device_from_firebase permissive_orm scalar_device_info "D1" true db_with_d1 in
  exists dv,
    devices run.2 !! "D1" = Some dv
    /\ Device.sync_status dv = "sync_failed"
    /\ Device.sync_error_message dv = Some (str_take 500 "'str' object has no attribute 'get'")
    /\ (String.length (str_take 500 "'str' object has no attribute 'get'") <= 500)%nat
    /\ last (errors run.1) = Some ("Hard sync failed: " +:+ "'str' object has no attribute 'get'").
Proof.
  eapply (aborted_run_message_bounded permissive_orm scalar_device_info "D1" true db_with_d1).
  - vm_compute. reflexivity.
  - exists synced_device. reflexivity.
Defined.

(** ** Every entry is accounted for *)

Section Tally.
Context {K V : Type} `{Countable K} (res : resource K V).
Variable read : string -> json -> request K V.

Lemma turn_tally ue rq name st st' :
  turn res ue rq name st st' ->
  fetched (counts_of (res_kind res) (result st')) = fetched (counts_of (res_kind res) (result st))
  /\ ((rq = Dropped /\ st' = st)
      \/ (rq <> Dropped
          /\ (counted_entries (res_kind res) (result st') + length (errors (result st'))
              = S (counted_entries (res_kind res) (result st) + length (errors (result st))))%nat)).
Proof.
  unfold counted_entries.
  destruct 1 as [e Hb| Hs | Hd | key row Hrq Hnone Hacc | key row old Hrq Hsome Hue Hacc];
    simpl; rewrite ?counts_of_with_counts, ?errors_with_counts; simpl.
  - split; [by destruct (res_kind res)|]. right. split.
    + intros ->. simpl in Hb. discriminate Hb.
    + replace (counts_of (res_kind res) (append_error _ (result st)))
        with (counts_of (res_kind res) (result st)) by (by destruct (res_kind res)).
      rewrite length_app. simpl. lia.
  - split; [done|]. right. split; [|lia].
    destruct Hs as [->|(? & ? & -> & _)]; done.
  - split; [done|]. by left.
  - split; [done|]. right. split; [by rewrite Hrq|lia].
  - split; [done|]. right. split; [by rewrite Hrq|lia].
Qed.

Lemma all_tally_le ue items : forall st,
  let st' := exec (reconcile_all res ue read items) st in
  fetched (counts_of (res_kind res) (result st')) = fetched (counts_of (res_kind res) (result st))
  /\ (counted_entries (res_kind res) (result st') + length (errors (result st'))
      <= counted_entries (res_kind res) (result st) + length (errors (result st))
         + length items)%nat
  /\ ((forall k v, read k v <> Dropped) ->
      (counted_entries (res_kind res) (result st') + length (errors (result st'))
       = counted_entries (res_kind res) (result st) + length (errors (result st))
         + length items)%nat).
Proof.
  induction items as [|[k v] items IH]; intros st; simpl.
  - unfold exec, reconcile_all. simpl. split; [done|]. split; [lia|]. intros _. lia.
  - rewrite exec_all_cons.
    destruct (turn_tally _ _ _ _ _ (reconcile_turn res ue k (read k v) st)) as [Hf Ht].
    destruct (IH (exec (reconcile res ue k (read k v)) st)) as (IHf & IHle & IHeq).
    split; [by rewrite IHf|]. split.
    + destruct Ht as [[_ E]|[_ Ht]]; [rewrite E in IHle |- *|]; lia.
    + intros Hnd. specialize (IHeq Hnd). destruct Ht as [[Hd _]|[_ Ht]]; [|lia].
      by destruct (Hnd k v).
Qed.
End Tally.

Lemma message_request_not_dropped dev k v : message_request dev k v <> Dropped.
Proof.
  unfold message_request. destruct (py_int k); [|done].
  by destruct (message_fields v) as [[[[? ?] ?] ?]|].
Qed.

Lemma contact_request_not_dropped dev k v : contact_request dev k v <> Dropped.
Proof. unfold contact_request. by destruct (convert_last_contacted _). Qed.

(** X6.  The three loops of [hard_sync_device_from_firebase] account
    for what they are given.  The message loop and the contact loop
    count every entry exactly once: as created, updated or skipped, or
    by one error.  The notification loop counts an entry at most once
    (an entry with no package name is counted nowhere). *)
Theorem loops_account_for_entries orm dev ue items st :
  (counted_entries KMessages (result (exec (message_loop orm dev ue items) st))
   + length (errors (result (exec (message_loop orm dev ue items) st)))
   = counted_entries KMessages (result st) + length (errors (result st)) + length items)%nat
  /\ (counted_entries KContacts (result (exec (contact_loop orm dev ue items) st))
      + length (errors (result (exec (contact_loop orm dev ue items) st)))
      = counted_entries KContacts (result st) + length (errors (result st))
        + length items)%nat
  /\ (counted_entries KNotifications (result (exec (notification_loop orm dev ue items) st))
      + length (errors (result (exec (notification_loop orm dev ue items) st)))
      <= counted_entries KNotifications (result st) + length (errors (result st))
         + length items)%nat.
Proof.
  unfold exec. rewrite message_loop_reconcile, contact_loop_reconcile,
    notification_loop_reconcile.
  split; [|split].
  - apply (all_tally_le (message_resource orm) (message_request dev) ue items st).
    apply message_request_not_dropped.
  - apply (all_tally_le (contact_resource orm) (contact_request dev) ue items st).
    apply contact_request_not_dropped.
  - apply (all_tally_le (notification_resource orm) (notification_request dev) ue items st).
Qed.

Lemma len_items data n items : py_len data = Ok n -> py_items data = Ok items -> n = length items.
Proof. destruct data; simpl; try discriminate. by intros [= <-] [= <-]. Qed.

(** X7.  In a run that reports no error, every message and every
    contact fetched was created, updated or skipped: the three
    counters add up to [messages_fetched], respectively
    [contacts_fetched].  For notifications they add up to at most
    [notifications_fetched]. *)
Theorem clean_run_accounts_for_all orm fb dev ue database :
  let r := (hard_sync_device_from_firebase orm fb dev ue database).1 in
  errors r = [] ->
  (messages_created r + messages_updated r + messages_skipped r = messages_fetched r)%nat
  /\ (contacts_created r + contacts_updated r + contacts_skipped r = contacts_fetched r)%nat
  /\ (notifications_created r + notifications_updated r + notifications_skipped r
      <= notifications_fetched r)%nat.
Proof.
  intros r Herr. unfold r, hard_sync_device_from_firebase in *. simpl in *.
  destruct (run_clean _ _ _ _ _ Herr)
    as (info & stA & stB & stC & stD & dv & Hinfo & Ht & HA & HB & HC & HD & Hdv & Hrun).
  rewrite Hrun in *. simpl in *.
  rewrite sync_messages_kind in HB. rewrite sync_notifications_kind in HC.
  rewrite sync_contacts_kind in HD.
  destruct (sync_device_info_returned _ _ _ _ _ _ HA) as (_ & _ & _ & (HAe & HAk)).
  destruct (sync_kind_frame _ _ _ _ _ _ HB) as ((sB & HBe) & HBk & _ & _).
  destruct (sync_kind_frame _ _ _ _ _ _ HC) as ((sC & HCe) & HCk & _ & _).
  destruct (sync_kind_frame _ _ _ _ _ _ HD) as ((sD & HDe) & HDk & _ & _).
  rewrite HDe in Herr. apply app_eq_nil in Herr as [HeC ->].
  pose proof HeC as HeC'. rewrite HCe in HeC'. apply app_eq_nil in HeC' as [HeB ->].
  pose proof HeB as HeB'. rewrite HBe in HeB'. apply app_eq_nil in HeB' as [HeA ->].
  rewrite app_nil_r in HBe, HCe, HDe.
  apply sync_kind_returned in HB as (dm & nm & im & _ & Hlm & Him & EB).
  apply sync_kind_returned in HC as (dn & nn & inn & _ & Hln & Hin & EC).
  apply sync_kind_returned in HD as (dc & nc & ic & _ & Hlc & Hic & ED).
  pose proof (len_items _ _ _ Hlm Him) as ->.
  pose proof (len_items _ _ _ Hln Hin) as ->.
  pose proof (len_items _ _ _ Hlc Hic) as ->.
  destruct (all_tally_le (message_resource orm) (message_request dev) ue im
              (counted (message_resource orm) (length im) stA)) as (Fm & _ & Tm).
  destruct (all_tally_le (notification_resource orm) (notification_request dev) ue inn
              (counted (notification_resource orm) (length inn) stB)) as (Fn & Tn & _).
  destruct (all_tally_le (contact_resource orm) (contact_request dev) ue ic
              (counted (contact_resource orm) (length ic) stC)) as (Fc & _ & Tc).
  specialize (Tm (message_request_not_dropped dev)).
  specialize (Tc (contact_request_not_dropped dev)).
  rewrite <- EB in Fm, Tm. rewrite <- EC in Fn, Tn. rewrite <- ED in Fc, Tc.
  pose proof (HDk KMessages ltac:(done)) as D1. pose proof (HCk KMessages ltac:(done)) as C1.
  pose proof (HDk KNotifications ltac:(done)) as D2.
  pose proof (HBk KNotifications ltac:(done)) as B2.
  pose proof (HBk KContacts ltac:(done)) as B3. pose proof (HCk KContacts ltac:(done)) as C3.
  pose proof (HAk KMessages) as A1. pose proof (HAk KNotifications) as A2.
  pose proof (HAk KContacts) as A3.
  unfold counted_entries, counted in *. simpl in *.
  rewrite HeB, HeA in Tm. rewrite HeC, HeB in Tn. rewrite HDe, HeC in Tc.
  unfold messages_created, messages_updated, messages_skipped, messages_fetched,
    contacts_created, contacts_updated, contacts_skipped, contacts_fetched,
    notifications_created, notifications_updated, notifications_skipped,
    notifications_fetched.
  rewrite D1, C1, D2. rewrite A1 in Tm. rewrite B2, A2 in Tn. rewrite C3, B3, A3 in Tc.
  simpl in *. lia.
Qed.

(** X7, witness: three messages for a new device. *)
Lemma clean_run_accounts_for_all_witness :
  let r := (hard_sync_device_from_firebase permissive_orm three_messages "D1" true empty_db).1 in
  (messages_created r + messages_updated r + messages_skipped r = messages_fetched r)%nat
  /\ (contacts_created r + contacts_updated r + contacts_skipped r = contacts_fetched r)%nat
  /\ (notifications_created r + notifications_updated r + notifications_skipped r
      <= notifications_fetched r)%nat.
Proof.
  apply (clean_run_accounts_for_all permissive_orm three_messages "D1" true empty_db).
  reflexivity.
Defined.

(** ** The fetchers *)

Lemma first_data_first_nonempty fb paths :
  (exists before path after,
      paths = before ++ path :: after
      /\ reference_get fb path = Ok (first_data fb paths)
      /\ truthy (first_data fb paths) = true
      /\ forall q d, q ∈ before -> reference_get fb q = Ok d -> truthy d = false)
  \/ (first_data fb paths = JDict []
      /\ forall q d, q ∈ paths -> reference_get fb q = Ok d -> truthy d = false).
Proof.
  induction paths as [|p paths IH]; simpl.
  - right. split; [done|]. intros q d Hq. by apply elem_of_nil in Hq.
  - destruct (reference_get fb p) as [data|e] eqn:Hp.
    + destruct (truthy data) eqn:Ht.
      * left. exists [], p, paths. repeat split; try done.
        intros q d Hq. by apply elem_of_nil in Hq.
      * destruct IH as [(before & path & after & -> & Hg & Htr & Hb)|[He Hall]].
        -- left. exists (p :: before), path, after. repeat split; try done.
           intros q d [->|Hq]%elem_of_cons Hd; [congruence|eauto].
        -- right. split; [done|].
           intros q d [->|Hq]%elem_of_cons Hd; [congruence|eauto].
    + destruct IH as [(before & path & after & -> & Hg & Htr & Hb)|[He Hall]].
      * left. exists (p :: before), path, after. repeat split; try done.
        intros q d [->|Hq]%elem_of_cons Hd; [congruence|eauto].
      * right. split; [done|].
        intros q d [->|Hq]%elem_of_cons Hd; [congruence|eauto].
Qed.

(** X8.  What a fetcher returns when it returns: the data of the first
    candidate path, in the order of [paths_to_try], whose read comes
    back non-empty, every earlier path having raised or come back
    empty; or the empty dictionary, when the initialisation failed or
    no path has data. *)
Theorem fetch_returns_first_nonempty fb paths data :
  fetch fb paths = Ok data ->
  (truthy data = true
   /\ exists before path after,
        paths = before ++ path :: after
        /\ reference_get fb path = Ok data
        /\ forall q d, q ∈ before -> reference_get fb q = Ok d -> truthy d = false)
  \/ (data = JDict []
      /\ ((exists e, initialize_firebase fb = Raise e)
          \/ forall q d, q ∈ paths -> reference_get fb q = Ok d -> truthy d = false)).
Proof.
  unfold fetch. destruct (FIREBASE_AVAILABLE fb); simpl; [|discriminate].
  destruct (initialize_firebase fb) as [[]|e] eqn:Hinit.
  - intros [= <-].
    destruct (first_data_first_nonempty fb paths)
      as [(before & path & after & -> & Hg & Htr & Hb)|[He Hall]].
    + left. split; [done|]. by exists before, path, after.
    + right. split; [done|]. by right.
  - intros [= <-]. right. split; [done|]. left. by exists e.
Qed.

(** ** The limit of the message fetcher *)

Lemma insert_desc_perm x l : insert_desc x l ≡ₚ x :: l.
Proof.
  induction l as [|y l IH]; simpl; [done|].
  destruct (timestamp_key x <? timestamp_key y); [|done].
  rewrite IH. apply Permutation_swap.
Qed.

Lemma sorted_timestamps_perm keys : sorted_timestamps keys ≡ₚ keys.
Proof.
  induction keys as [|k keys IH]; simpl; [done|].
  rewrite insert_desc_perm. by rewrite IH.
Qed.

Lemma insert_desc_descending x l : descending l -> descending (insert_desc x l).
Proof.
  induction l as [|y l IH]; simpl.
  - intros _. split; [|done]. intros y Hy. by apply elem_of_nil in Hy.
  - intros [Hy Hl]. destruct (timestamp_key x <? timestamp_key y) eqn:E.
    + simpl. split; [|by apply IH].
      intros z Hz. rewrite insert_desc_perm in Hz.
      apply elem_of_cons in Hz as [->|Hz]; [lia|by apply Hy].
    + simpl. split; [|done].
      intros z [->|Hz]%elem_of_cons; [lia|]. specialize (Hy z Hz). lia.
Qed.

Lemma sorted_timestamps_descending keys : descending (sorted_timestamps keys).
Proof.
  induction keys as [|k keys IH]; simpl; [done|]. by apply insert_desc_descending.
Qed.

Lemma descending_take_drop n : forall l,
  descending l -> dominates (take n l) (drop n l).
Proof.
  induction n as [|n IH]; intros [|x l]; simpl; intros Hl k k' Hk Hk';
    try (by apply elem_of_nil in Hk); try (by apply elem_of_nil in Hk').
  destruct Hl as [Hx Hl].
  apply elem_of_cons in Hk as [->|Hk].
  - apply Hx. apply list_elem_of_lookup in Hk' as [i Hi].
    rewrite lookup_drop in Hi. by eapply list_elem_of_lookup_2.
  - by apply (IH l Hl).
Qed.

Lemma slice_to_take {A} n (l : list A) :
  exists m, slice_to n l = take m l
            /\ (0 < n -> m = Z.to_nat n)
            /\ (n < 0 -> m = (length l - Z.to_nat (- n))%nat).
Proof.
  unfold slice_to. destruct (0 <=? n) eqn:E.
  - exists (Z.to_nat n). split; [done|]. split; [done|lia].
  - exists (length l - Z.to_nat (- n))%nat. split; [done|]. split; [lia|done].
Qed.

Lemma dict_get_elem_of (d : pydict) ts dflt :
  ts ∈ map fst d -> (ts, dict_get d ts dflt) ∈ d.
Proof.
  induction d as [|[k v] d IH]; simpl; [by intros ?%elem_of_nil|].
  destruct (String.eqb k ts) eqn:E.
  - apply String.eqb_eq in E as ->. intros _. by left.
  - intros [->|H]%elem_of_cons; [by rewrite String.eqb_refl in E|]. right. by apply IH.
Qed.

(** X9.  The limit of [get_firebase_messages_for_device], for keys
    made of ASCII characters.  When the fetch without a limit returns
    the dictionary [d], every key of which is such a key, and the
    limit is not 0, the fetch with the limit returns entries of [d],
    each with
    the value it has in [d]; the keys returned and the keys left out
    are together the keys of [d]; no key left out has a larger
    timestamp than a key returned; a positive limit [n] returns
    [min n (len d)] entries and a negative one leaves the [min (-n)
    (len d)] oldest out.  The limit 0 is no limit. *)
Theorem limit_keeps_latest fb dev n d :
  get_firebase_messages_for_device fb dev None = Ok (JDict d) ->
  forallb store_key (map fst d) = true ->
  n <> 0 ->
  exists kept dropped,
    get_firebase_messages_for_device fb dev (Some n)
    = Ok (JDict (map (fun ts => (ts, dict_get d ts JNull)) kept))
    /\ kept ++ dropped ≡ₚ map fst d
    /\ dominates kept dropped
    /\ (forall ts, ts ∈ kept -> (ts, dict_get d ts JNull) ∈ d)
    /\ (0 < n -> length kept = Nat.min (Z.to_nat n) (length d))
    /\ (n < 0 -> length dropped = Nat.min (Z.to_nat (- n)) (length d))
    /\ get_firebase_messages_for_device fb dev (Some 0)
       = get_firebase_messages_for_device fb dev None.
Proof.
  unfold get_firebase_messages_for_device.
  destruct (FIREBASE_AVAILABLE fb); simpl; [|discriminate].
  destruct (initialize_firebase fb) as [[]|e].
  2: { intros [= <-] _ Hn. exists [], []. simpl.
       repeat split; try done; try lia.
       - intros k k' Hk. by apply elem_of_nil in Hk.
       - intros ts Hts. by apply elem_of_nil in Hts. }
  intros [= ->] _ Hn.
  destruct (slice_to_take n (sorted_timestamps (map fst d))) as (m & Hm & Hpos & Hneg).
  exists (take m (sorted_timestamps (map fst d))), (drop m (sorted_timestamps (map fst d))).
  assert (Hlen : length (sorted_timestamps (map fst d)) = length d).
  { rewrite (Permutation_length (sorted_timestamps_perm _)). apply length_map. }
  split; [|split; [|split; [|split; [|split; [|split]]]]].
  - destruct (n =? 0) eqn:E; [lia|]. destruct d as [|kv d].
    + simpl. by rewrite take_nil.
    + rewrite <- Hm. reflexivity.
  - rewrite take_drop. apply sorted_timestamps_perm.
  - apply descending_take_drop, sorted_timestamps_descending.
  - intros ts Hts. apply dict_get_elem_of.
    rewrite <- (sorted_timestamps_perm (map fst d)).
    apply elem_of_take in Hts as (i & Hi & _). by eapply list_elem_of_lookup_2.
  - intros H. rewrite (Hpos H), length_take, Hlen. done.
  - intros H. rewrite (Hneg H), length_drop, Hlen. lia.
  - done.
Qed.

(** X8, witness: two collections that both hold messages; the one of
    the first path is returned. *)
Lemma fetch_returns_first_nonempty_witness :
  let data := JDict [("100", JStr "received~+1~a"); ("200", JStr "sent~+2~b")] in
  (truthy data = true
   /\ exists before path after,
        message_paths "D1" = before ++ path :: after
        /\ reference_get two_collections_of_messages path = Ok data
        /\ forall q d, q ∈ before ->
                       reference_get two_collections_of_messages q = Ok d -> truthy d = false)
  \/ (data = JDict []
      /\ ((exists e, initialize_firebase two_collections_of_messages = Raise e)
          \/ forall q d, q ∈ message_paths "D1" ->
                         reference_get two_collections_of_messages q = Ok d ->
                         truthy d = false)).
Proof.
  apply (fetch_returns_first_nonempty two_collections_of_messages (message_paths "D1")).
  reflexivity.
Defined.

(** X9, witness: the later of two messages is the one a limit of 1
    returns. *)
Lemma limit_keeps_latest_witness :
  let d := [("100", JStr "received~+1~a"); ("200", JStr "sent~+2~b")] in
  exists kept dropped,
    get_firebase_messages_for_device two_collections_of_messages "D1" (Some 1)
    = Ok (JDict (map (fun ts => (ts, dict_get d ts JNull)) kept))
    /\ kept ++ dropped ≡ₚ map fst d
    /\ dominates kept dropped
    /\ length kept = 1%nat.
Proof.
  intros d.
  destruct (limit_keeps_latest two_collections_of_messages "D1" 1 d)
    as (kept & dropped & Hrun & Hperm & Hdom & _ & Hlen & _); [reflexivity|reflexivity|lia|].
  exists kept, dropped. split; [exact Hrun|]. split; [exact Hperm|]. split; [exact Hdom|].
  apply Hlen. lia.
Defined.

(** ** The text form of a message or notification *)

Lemma split_0 sep s : split sep 0 s = [s].
Proof.
  induction s as [|c s IH]; simpl; [done|].
  destruct (Ascii.eqb c sep); [done|]. by rewrite IH.
Qed.

Lemma split_no_sep sep n s : has_char sep s = false -> split sep n s = [s].
Proof.
  induction s as [|c s IH]; simpl; [done|].
  destruct (Ascii.eqb c sep); simpl; [discriminate|]. intros H. by rewrite IH.
Qed.

Lemma split_first sep m a rest :
  has_char sep a = false ->
  split sep (S m) (a +:+ String sep rest) = a :: split sep m rest.
Proof.
  induction a as [|c a IH]; simpl.
  - intros _. by rewrite Ascii.eqb_refl.
  - destruct (Ascii.eqb c sep); simpl; [discriminate|]. intros H.
    by rewrite (IH H).
Qed.

(** X10.  The text form [type~phone~body] of a message, and
    [package~title~text] of a notification, is cut at the first two
    [~] only: when the first two parts contain no [~], the three
    fields read are exactly the three parts, the third one with every
    [~] it contains.  A text with no [~] at all is read as the first
    field, the two others empty. *)
Theorem text_form_fields a b c :
  has_char "~" a = false -> has_char "~" b = false ->
  message_fields (JStr (a +:+ "~" +:+ b +:+ "~" +:+ c))
  = Some (JStr a, JStr b, JStr c, JBool false)
  /\ notification_fields (JStr (a +:+ "~" +:+ b +:+ "~" +:+ c))
     = Some (JStr a, JStr b, JStr c)
  /\ message_fields (JStr a) = Some (JStr a, JStr "", JStr "", JBool false)
  /\ notification_fields (JStr a) = Some (JStr a, JStr "", JStr "").
Proof.
  intros Ha Hb. unfold message_fields, notification_fields.
  change ("~" +:+ b +:+ "~" +:+ c) with (String "~" (b +:+ String "~" c)).
  rewrite (split_first "~" 1 a _ Ha), (split_first "~" 0 b _ Hb), split_0.
  rewrite (split_no_sep "~" 2 a Ha). done.
Qed.

(** ** The update of a device that exists *)

Lemma dict_get_dict_set d k v k' dflt :
  dict_get (dict_set d k v) k' dflt
  = if String.eqb k k' then v else dict_get d k' dflt.
Proof.
  induction d as [|[k0 v0] d IH]; simpl; [done|].
  destruct (String.eqb k0 k) eqn:E0; simpl.
  - apply String.eqb_eq in E0 as ->. by destruct (String.eqb k k').
  - rewrite IH. destruct (String.eqb k0 k') eqn:E1; [|done].
    apply String.eqb_eq in E1 as ->. by rewrite String.eqb_sym, E0.
Qed.

Lemma dict_has_false_get d k dflt : dict_has d k = false -> dict_get d k dflt = dflt.
Proof.
  induction d as [|[k0 v0] d IH]; simpl; [done|].
  destruct (String.eqb k0 k); simpl; [discriminate|done].
Qed.

Lemma dict_has_elem_of d k : dict_has d k = true <-> k ∈ map fst d.
Proof.
  induction d as [|[k0 v0] d IH]; simpl.
  - split; [discriminate|by intros ?%elem_of_nil].
  - rewrite elem_of_cons, <- IH. destruct (String.eqb k0 k) eqn:E; simpl.
    + apply String.eqb_eq in E as ->. split; auto.
    + apply String.eqb_neq in E. split; [auto|]. intros [->|?]; done.
Qed.

Lemma dict_get_update n : forall c k dflt,
  NoDup (map fst n) ->
  dict_get (fold_left (fun acc kv => dict_set acc kv.1 kv.2) n c) k dflt
  = if dict_has n k then dict_get n k dflt else dict_get c k dflt.
Proof.
  induction n as [|[k0 v0] n IH]; intros c k dflt Hnd; simpl; [done|].
  apply NoDup_cons in Hnd as [Hk0 Hnd]. rewrite (IH _ _ _ Hnd), dict_get_dict_set.
  destruct (String.eqb k0 k) eqn:E; simpl; [|done].
  apply String.eqb_eq in E as ->.
  destruct (dict_has n k) eqn:Hh; [|done]. by apply dict_has_elem_of in Hh.
Qed.

Lemma truthy_py_or a b : truthy (py_or a b) = truthy a || truthy b.
Proof. unfold py_or. by destruct (truthy a) eqn:E; rewrite ?E. Qed.

(** X11.  The update of a device that exists merges the system
    information: when the device holds the dictionary [c] and the
    record of the store brings the dictionary [n], the device holds
    afterwards, under every key of [n], the value of [n], and under
    every other key what it held. *)
Theorem system_info_is_merged info p p' c n :
  updated_profile info p = Ok p' ->
  Device.system_info p = JDict c ->
  dict_get info "systemInfo" JNull = JDict n ->
  NoDup (map fst n) ->
  exists d,
    Device.system_info p' = JDict d
    /\ forall k dflt,
         dict_get d k dflt = if dict_has n k then dict_get n k dflt else dict_get c k dflt.
Proof.
  unfold updated_profile. intros H Hc Hn Hnd.
  assert (Hn' : dict_get info "systemInfo" (JDict []) = JDict n).
  { clear -Hn. induction info as [|[k v] info IH]; simpl in *; [discriminate|].
    destruct (String.eqb k "systemInfo"); [done|by apply IH]. }
  rewrite Hn, Hn', Hc in H. destruct n as [|kv n].
  - simpl in H. injection H as <-. simpl. by exists c.
  - cbn [truthy] in H. unfold py_or in H. destruct c as [|kc c]; cbn [truthy] in H.
    + cbn [dict_update mbind exc_mbind] in H. simpl in H. injection H as <-. simpl.
      eexists. split; [done|]. intros k dflt.
      pose proof (dict_get_update (kv :: n) [] k dflt Hnd) as E. simpl in E.
      exact E.
    + simpl in H. injection H as <-. simpl.
      eexists. split; [done|]. intros k dflt.
      pose proof (dict_get_update (kv :: n) (kc :: c) k dflt Hnd) as E. simpl in E.
      exact E.
Qed.

(** X12.  The update of a device that exists blanks none of the
    fields it takes with [or]: a name, model, phone, code, last-seen
    time, current phone, current identifier or time that the device
    holds non-empty is non-empty afterwards, whatever the record of
    the store holds; and a field for which the store has nothing is
    left as it is. *)
Theorem update_blanks_nothing info p p' :
  updated_profile info p = Ok p' ->
  (truthy (Device.name p) = true -> truthy (Device.name p') = true)
  /\ (truthy (Device.model p) = true -> truthy (Device.model p') = true)
  /\ (truthy (Device.phone p) = true -> truthy (Device.phone p') = true)
  /\ (truthy (Device.code p) = true -> truthy (Device.code p') = true)
  /\ (truthy (Device.last_seen p) = true -> truthy (Device.last_seen p') = true)
  /\ (truthy (Device.current_phone p) = true -> truthy (Device.current_phone p') = true)
  /\ (truthy (Device.current_identifier p) = true
      -> truthy (Device.current_identifier p') = true)
  /\ (truthy (Device.time p) = true -> truthy (Device.time p') = true)
  /\ (truthy (dict_get info "model" JNull) = false -> Device.model p' = Device.model p)
  /\ (truthy (dict_get info "code" JNull) = false -> Device.code p' = Device.code p)
  /\ (dict_has info "batteryPercentage" = false
      -> Device.battery_percentage p' = Device.battery_percentage p)
  /\ (dict_has info "bankcard" = false -> Device.bankcard p' = Device.bankcard p).
Proof.
  unfold updated_profile. intros H.
  destruct (if truthy (dict_get info "systemInfo" JNull) then _ else _) as [si|e];
    [|discriminate H].
  simpl in H. injection H as <-. simpl.
  repeat split; intros E; rewrite ?truthy_py_or, ?E, ?orb_true_r; try done.
  - unfold py_or. by rewrite E.
  - unfold py_or. by rewrite E.
  - by apply dict_has_false_get.
Qed.

(** X10, witness: a body that itself contains the separator. *)
Lemma text_form_fields_witness :
  message_fields (JStr "sent~+2~b~c") = Some (JStr "sent", JStr "+2", JStr "b~c", JBool false).
Proof.
  apply (text_form_fields "sent" "+2" "b~c"); reflexivity.
Defined.

(** X11, witness: one entry changed, one new, one kept. *)
Lemma system_info_is_merged_witness :
  exists p' d,
    updated_profile partial_info stored_profile = Ok p'
    /\ Device.system_info p' = JDict d
    /\ dict_get d "os" JNull = JStr "14"
    /\ dict_get d "cpu" JNull = JStr "arm"
    /\ dict_get d "ram" JNull = JStr "8".
Proof.
  destruct (updated_profile partial_info stored_profile) as [p'|e] eqn:E;
    [|vm_compute in E; discriminate E].
  destruct (system_info_is_merged partial_info stored_profile p'
              [("os", JStr "13"); ("ram", JStr "8")]
              [("os", JStr "14"); ("cpu", JStr "arm")] E)
    as (d & Hd & Hget); [reflexivity|reflexivity| |].
  - repeat (apply NoDup_cons; split; [vm_compute; intros H; inversion H; subst;
      repeat match goal with H : _ ∈ _ |- _ => inversion H; clear H; subst end|]).
    apply NoDup_nil_2.
  - exists p', d. split; [done|]. split; [done|].
    rewrite !Hget. repeat split.
Defined.

(** X12, witness: the store brings an empty name and no model; both
    stay. *)
Lemma update_blanks_nothing_witness :
  exists p',
    updated_profile partial_info stored_profile = Ok p'
    /\ truthy (Device.name p') = true
    /\ Device.model p' = JStr "Pixel 7".
Proof.
  destruct (updated_profile partial_info stored_profile) as [p'|e] eqn:E;
    [|vm_compute in E; discriminate E].
  destruct (update_blanks_nothing partial_info stored_profile p' E)
    as (Hname & _ & _ & _ & _ & _ & _ & _ & Hmodel & _).
  exists p'. split; [done|]. split; [by apply Hname|by apply Hmodel].
Defined.

(** ** The counters of the fleet driver *)

Lemma total_snoc f results r : total f (results ++ [r]) = (total f results + f r)%nat.
Proof. induction results as [|x results IH]; simpl; [lia|]. rewrite IH. lia. Qed.

Lemma filter_snoc {A} (p : A -> bool) l x :
  List.filter p (l ++ [x]) = List.filter p l ++ (if p x then [x] else []).
Proof. by rewrite List.filter_app. Qed.

Lemma fleet_step_tally orm fb ue acc id :
  fleet_tally acc.1 -> fleet_tally (fleet_step orm fb ue acc id).1.
Proof.
  destruct acc as [r database]. unfold fleet_step.
  destruct (hard_sync_device_from_firebase orm fb id ue database) as [dr database'].
  unfold fleet_tally. simpl.
  intros (H1 & H2 & H3 & H4 & H5 & H6 & H7 & H8 & H9).
  rewrite !total_snoc, filter_snoc, !length_app.
  change (match errors dr with [] => false | _ => true end) with (has_errors dr).
  destruct (has_errors dr); simpl; repeat split; lia || done.
Qed.

Lemma fleet_fold_tally orm fb ue ids : forall acc,
  fleet_tally acc.1 -> fleet_tally (fold_left (fleet_step orm fb ue) ids acc).1.
Proof.
  induction ids as [|id ids IH]; intros acc Hacc; simpl; [done|].
  apply IH. by apply fleet_step_tally.
Qed.

Lemma fleet_fold_processed orm fb ue ids : forall acc,
  Fleet.total_devices_processed (fold_left (fleet_step orm fb ue) ids acc).1
  = Fleet.total_devices_processed acc.1.
Proof.
  induction ids as [|id ids IH]; intros [r database]; simpl; [done|].
  rewrite IH. unfold fleet_step.
  by destruct (hard_sync_device_from_firebase orm fb id ue database).
Qed.

Lemma fleet_fold_preserves orm fb ue (R : DB -> DB -> Prop) :
  (forall d, R d d) -> (forall a b c, R a b -> R b c -> R a c) ->
  (forall dev database,
      R database (hard_sync_device_from_firebase orm fb dev ue database).2) ->
  forall ids acc, R acc.2 (fold_left (fleet_step orm fb ue) ids acc).2.
Proof.
  intros Hrefl Htrans Hrun ids.
  induction ids as [|id ids IH]; intros [r database]; simpl; [apply Hrefl|].
  apply (Htrans _ (fleet_step orm fb ue (r, database) id).2); [|apply IH].
  unfold fleet_step. specialize (Hrun id database).
  destruct (hard_sync_device_from_firebase orm fb id ue database) as [dr database'].
  exact Hrun.
Qed.

(** X13.  The counters of [hard_sync_all_devices_from_firebase] agree
    with the list of results it returns: there is one result for each
    device processed, [devices_synced + devices_failed] is their
    number, [devices_failed] counts the results that carry an error,
    each of the six totals is the sum of the counter of the same name
    over the results, and the list of errors of the driver itself is
    empty. *)
Theorem fleet_counters_add_up orm fb ue database :
  let r := (hard_sync_all_devices_from_firebase orm fb ue database).1 in
  Fleet.total_devices_processed r = length (Fleet.device_results r)
  /\ (Fleet.devices_synced r + Fleet.devices_failed r = Fleet.total_devices_processed r)%nat
  /\ Fleet.devices_failed r = length (List.filter has_errors (Fleet.device_results r))
  /\ Fleet.total_messages_created r = total messages_created (Fleet.device_results r)
  /\ Fleet.total_messages_updated r = total messages_updated (Fleet.device_results r)
  /\ Fleet.total_notifications_created r
     = total notifications_created (Fleet.device_results r)
  /\ Fleet.total_notifications_updated r
     = total notifications_updated (Fleet.device_results r)
  /\ Fleet.total_contacts_created r = total contacts_created (Fleet.device_results r)
  /\ Fleet.total_contacts_updated r = total contacts_updated (Fleet.device_results r)
  /\ Fleet.errors r = [].
Proof.
  intros r. unfold r, hard_sync_all_devices_from_firebase.
  set (ids := all_device_ids fb database).
  set (acc := (Fleet.mk (size ids) 0 0 0 0 0 0 0 0 [] [], database)).
  assert (Hlen : Fleet.total_devices_processed
                   (fold_left (fleet_step orm fb ue) (elements ids) acc).1
                 = length (Fleet.device_results
                             (fold_left (fleet_step orm fb ue) (elements ids) acc).1)).
  { rewrite fleet_fold_processed. simpl.
    rewrite <- (length_map device_id), fleet_results. simpl. reflexivity. }
  destruct (fleet_fold_tally orm fb ue (elements ids) acc) as (H1 & H2).
  { unfold fleet_tally. simpl. repeat split. }
  split; [exact Hlen|]. split; [by rewrite Hlen|]. exact H2.
Qed.

(** X14.  [hard_sync_all_devices_from_firebase] deletes nothing: every
    key of the four tables before the fleet run is a key of the same
    table after it. *)
Theorem fleet_removes_nothing orm fb ue database :
  nothing_removed database (hard_sync_all_devices_from_firebase orm fb ue database).2.
Proof.
  unfold hard_sync_all_devices_from_firebase.
  set (ids := all_device_ids fb database).
  apply (fleet_fold_preserves orm fb ue nothing_removed) with
    (ids := elements ids) (acc := (Fleet.mk (size ids) 0 0 0 0 0 0 0 0 [] [], database)).
  - intros d. apply (admits_refl _ _ _ (nothing_removed_admits "" ue)).
  - apply (admits_trans _ _ _ (nothing_removed_admits "" ue)).
  - intros dev db0. apply run_preserves, nothing_removed_admits.
Qed.

(** ** The message sync of one device *)

Lemma loop_step_refl device a : loop_step device 0 a a.
Proof.
  split; try done; try lia. intros key row E1 E2. congruence.
Qed.

Lemma loop_step_trans device n m a b c :
  loop_step device n a b -> loop_step device m b c -> loop_step device (n + m) a c.
Proof.
  intros [A1 A2 A3 A4 A5] [B1 B2 B3 B4 B5]. split.
  - lia.
  - by etrans.
  - intros key row Hc Ha. destruct (MessageSync.table b !! key) as [rb|] eqn:Hb.
    + by apply (A3 key rb).
    + by apply (B3 key row).
  - lia.
  - auto.
Qed.

Lemma sync_messages_entry_step orm device k v st :
  loop_step device 1 st (sync_messages_entry orm device k v st).
Proof.
  assert (Herr : forall e b, loop_step device 1 st (message_loop_error k e st b)).
  { intros e b. split; simpl; try done.
    - rewrite length_app. simpl. lia.
    - intros key row E1 E2. congruence.
    - intros _ _ E. by apply app_nil in E as [_ ?]. }
  assert (Hskip : loop_step device 1 st (message_loop_skip st)).
  { split; simpl; try done; try lia. intros key row E1 E2. congruence. }
  unfold sync_messages_entry. destruct (py_int k) as [ts|e]; [|apply Herr].
  destruct (message_fields v) as [[[[ty ph] bd] rd]|]; [|apply Hskip].
  destruct (MessageSync.needs_rollback st); [apply Herr|].
  destruct (MessageSync.table st !! (device, ts)) as [old|] eqn:Hold; [apply Hskip|].
  destruct (message_rejected orm _ _); [apply Herr|].
  split; simpl; try done; try lia.
  - by apply insert_subseteq.
  - intros key row E1 E2. destruct (decide (key = (device, ts))) as [->|Hne]; [done|].
    rewrite lookup_insert_ne in E1 by done. congruence.
  - rewrite map_size_insert_None by done. lia.
Qed.

Lemma sync_messages_fold_step orm device items : forall st,
  loop_step device (length items) st
    (fold_left (fun st kv => sync_messages_entry orm device kv.1 kv.2 st) items st).
Proof.
  induction items as [|[k v] items IH]; intros st; simpl; [apply loop_step_refl|].
  apply (loop_step_trans device 1 (length items) _ _ _
           (sync_messages_entry_step orm device k v st) (IH _)).
Qed.

Lemma message_sync_inserts orm fb dev keep_latest database :
  messages_inserted (fun d => d = dev /\ is_Some (devices database !! d)) database
    (sync_messages_from_firebase orm fb dev keep_latest database).2.
Proof.
  assert (Hsame : messages_inserted (fun d => d = dev /\ is_Some (devices database !! d))
                    database database).
  { split; [done|]. split; [done|]. split; [done|]. split; [done|].
    intros key row E1 E2. congruence. }
  unfold sync_messages_from_firebase.
  destruct (devices database !! dev) as [dv|] eqn:Hdv; [|exact Hsame].
  destruct (get_firebase_messages_for_device fb dev None) as [fm|e]; [|exact Hsame].
  destruct (py_len fm) as [n|e]; [|exact Hsame].
  destruct (truthy fm); cbn [negb]; [|exact Hsame].
  destruct (py_items fm) as [items|e]; [|exact Hsame].
  pose proof (sync_messages_fold_step orm dev items
                (MessageSync.mk_loop 0 0 [] (messages database) false)) as [_ H2 H3 _ _].
  simpl in H2, H3.
  set (st := fold_left _ items _) in *.
  assert (Hdb : messages_inserted (fun d => d = dev /\ is_Some (devices database !! d))
                  database
                  (if MessageSync.needs_rollback st then database
                   else set_messages (fun _ => MessageSync.table st) database)).
  { destruct (MessageSync.needs_rollback st); [exact Hsame|].
    split; [done|]. split; [done|]. split; [done|]. split; [exact H2|].
    intros key row E1 E2. simpl in E1. rewrite (H3 _ _ E1 E2), Hdv.
    split; [done|by eexists]. }
  destruct (clean_firebase_messages fb dev keep_latest); exact Hdb.
Qed.

(** X15.  [sync_messages_from_firebase] only inserts messages of its
    own device: the device, notification and contact tables are as
    they were, every message row that was there is there unchanged,
    and every row that is new belongs to the device synchronised,
    which has a row in the device table. *)
Theorem message_sync_only_inserts orm fb dev keep_latest database :
  let run := sync_messages_from_firebase orm fb dev keep_latest database in
  devices run.2 = devices database
  /\ notifications run.2 = notifications database
  /\ contacts run.2 = contacts database
  /\ messages database ⊆ messages run.2
  /\ forall key row,
       messages run.2 !! key = Some row -> messages database !! key = None ->
       key.1 = dev /\ is_Some (devices database !! key.1).
Proof. apply message_sync_inserts. Qed.

(** X16.  What [sync_messages_from_firebase] reports against what it
    has done.  The counters never exceed what was fetched.  A run
    that has reached the cleaning of the store has counted every
    fetched message once: created, skipped, or an error of the loop.
    The message table has grown by exactly [messages_created] rows,
    or the transaction was rolled back and the database is as it
    was.  A run that reports no error has persisted every row it
    reports as created, and created and skipped add up to fetched. *)
Theorem message_sync_accounts orm fb dev keep_latest database :
  let run := sync_messages_from_firebase orm fb dev keep_latest database in
  let r := run.1 in
  (MessageSync.messages_created r + MessageSync.messages_skipped r
   <= MessageSync.messages_fetched r)%nat
  /\ (MessageSync.firebase_cleaned r = true ->
      (MessageSync.messages_created r + MessageSync.messages_skipped r
       + length (MessageSync.errors r) = MessageSync.messages_fetched r)%nat)
  /\ (run.2 = database
      \/ size (messages run.2)
         = (size (messages database) + MessageSync.messages_created r)%nat)
  /\ (MessageSync.errors r = [] ->
      (MessageSync.messages_created r + MessageSync.messages_skipped r
       = MessageSync.messages_fetched r)%nat
      /\ size (messages run.2)
         = (size (messages database) + MessageSync.messages_created r)%nat).
Proof.
  intros run r. unfold r, run, sync_messages_from_firebase. clear r run.
  destruct (devices database !! dev); simpl.
  2: { repeat split; try lia; try discriminate; try (by left). }
  destruct (get_firebase_messages_for_device fb dev None) as [fm|e]; simpl.
  2: { repeat split; try lia; try discriminate; try (by left). }
  destruct (py_len fm) as [n|e] eqn:Hn; simpl.
  2: { repeat split; try lia; try discriminate; try (by left). }
  destruct (truthy fm) eqn:Ht; simpl.
  2: { assert (n = 0%nat) as ->.
       { destruct fm as [| | | |s|l|d]; simpl in *; try discriminate.
         - destruct s; [|discriminate]. by injection Hn as <-.
         - destruct l; [|discriminate]. by injection Hn as <-.
         - destruct d; [|discriminate]. by injection Hn as <-. }
       repeat split; try lia; try discriminate; try (by left). }
  destruct (py_items fm) as [items|e] eqn:Hi; simpl.
  2: { repeat split; try lia; try discriminate; try (by left). }
  pose proof (len_items _ _ _ Hn Hi) as ->.
  pose proof (sync_messages_fold_step orm dev items
                (MessageSync.mk_loop 0 0 [] (messages database) false)) as [H1 _ _ H4 H5].
  simpl in H1, H4, H5.
  set (st := fold_left _ items _) in *.
  assert (Hroll : MessageSync.needs_rollback st = true -> MessageSync.loop_errors st <> []).
  { apply H5. discriminate. }
  destruct (clean_firebase_messages fb dev keep_latest); simpl.
  - split; [lia|]. split; [intros _; lia|]. split.
    + destruct (MessageSync.needs_rollback st); [by left|right]. simpl. lia.
    + intros Hnil. split; [rewrite Hnil in H1; simpl in H1; lia|].
      destruct (MessageSync.needs_rollback st); [by destruct Hroll|]. simpl. lia.
  - split; [lia|]. split; [discriminate|]. split.
    + destruct (MessageSync.needs_rollback st); [by left|right]. simpl. lia.
    + intros Hnil. by apply app_nil in Hnil as [_ ?].
Qed.

(** ** The message sync of all devices *)

Lemma message_sync_device_id orm fb dev keep_latest database :
  MessageSync.device_id (sync_messages_from_firebase orm fb dev keep_latest database).1 = dev.
Proof.
  unfold sync_messages_from_firebase.
  destruct (devices database !! dev); [|done].
  destruct (get_firebase_messages_for_device fb dev None) as [fm|e]; [|done].
  destruct (py_len fm) as [n|e]; [|done].
  destruct (truthy fm); cbn [negb]; [|done].
  destruct (py_items fm) as [items|e]; [|done].
  by destruct (clean_firebase_messages fb dev keep_latest).
Qed.

Lemma message_total_snoc f results r :
  message_total f (results ++ [r]) = (message_total f results + f r)%nat.
Proof. induction results as [|x results IH]; simpl; [lia|]. rewrite IH. lia. Qed.

Lemma message_fleet_fold orm fb keep_latest queryset : forall acc,
  let out := (fold_left (message_fleet_step orm fb keep_latest) queryset acc).1 in
  (MessageFleet.devices_synced acc.1 + MessageFleet.devices_failed acc.1
   = length (MessageFleet.device_results acc.1))%nat ->
  MessageFleet.devices_failed acc.1
  = length (List.filter message_sync_failed (MessageFleet.device_results acc.1)) ->
  MessageFleet.total_messages_created acc.1
  = message_total MessageSync.messages_created (MessageFleet.device_results acc.1) ->
  MessageFleet.total_messages_skipped acc.1
  = message_total MessageSync.messages_skipped (MessageFleet.device_results acc.1) ->
  MessageFleet.total_devices out = MessageFleet.total_devices acc.1
  /\ MessageFleet.errors out = MessageFleet.errors acc.1
  /\ map MessageSync.device_id (MessageFleet.device_results out)
     = map MessageSync.device_id (MessageFleet.device_results acc.1) ++ queryset
  /\ (MessageFleet.devices_synced out + MessageFleet.devices_failed out
      = length (MessageFleet.device_results out))%nat
  /\ MessageFleet.devices_failed out
     = length (List.filter message_sync_failed (MessageFleet.device_results out))
  /\ MessageFleet.total_messages_created out
     = message_total MessageSync.messages_created (MessageFleet.device_results out)
  /\ MessageFleet.total_messages_skipped out
     = message_total MessageSync.messages_skipped (MessageFleet.device_results out).
Proof.
  induction queryset as [|id queryset IH]; intros [r database]; simpl.
  - intros. by rewrite app_nil_r.
  - intros H1 H2 H3 H4.
    pose proof (message_sync_device_id orm fb id keep_latest database) as Hid.
    destruct (sync_messages_from_firebase orm fb id keep_latest database)
      as [dr database'] eqn:Hrun.
    simpl in Hid.
    match goal with |- context [fold_left _ queryset ?a] => specialize (IH a) end.
    simpl in IH.
    change (match MessageSync.errors dr with [] => false | _ => true end)
      with (message_sync_failed dr) in *.
    rewrite !message_total_snoc, filter_snoc, !length_app, map_app in IH. simpl in IH.
    rewrite Hid, <- app_assoc in IH. simpl in IH.
    apply IH; destruct (message_sync_failed dr); simpl; lia.
Qed.

Lemma messages_inserted_trans (own : string -> Prop) a b c :
  messages_inserted own a b -> messages_inserted own b c -> messages_inserted own a c.
Proof.
  intros (A1 & A2 & A3 & A4 & A5) (B1 & B2 & B3 & B4 & B5).
  repeat split; try congruence; [by etrans|].
  intros key row Hc Ha. destruct (messages b !! key) as [rb|] eqn:Hb; eauto.
Qed.

Lemma messages_inserted_mono (own own' : string -> Prop) a b :
  (forall d, own d -> own' d) -> messages_inserted own a b -> messages_inserted own' a b.
Proof. intros Hsub (A1 & A2 & A3 & A4 & A5). repeat split; eauto. Qed.

Lemma message_fleet_inserts orm fb keep_latest queryset : forall acc,
  messages_inserted (fun d => d ∈ queryset /\ is_Some (devices acc.2 !! d)) acc.2
    (fold_left (message_fleet_step orm fb keep_latest) queryset acc).2.
Proof.
  induction queryset as [|id queryset IH]; intros [r database]; simpl.
  - split; [done|]. split; [done|]. split; [done|]. split; [done|].
    intros key row E1 E2. congruence.
  - pose proof (message_sync_inserts orm fb id keep_latest database) as Hstep.
    destruct (sync_messages_from_firebase orm fb id keep_latest database)
      as [dr database'] eqn:Hrun.
    cbn [snd] in Hstep.
    match goal with |- context [fold_left _ queryset ?a] => specialize (IH a) end.
    cbn [snd] in IH. pose proof Hstep as (S1 & _).
    eapply messages_inserted_trans.
    + eapply messages_inserted_mono; [|exact Hstep].
      intros d [-> Hd]. split; [by left|done].
    + eapply messages_inserted_mono; [|exact IH].
      intros d [Hin Hd]. split; [by right|]. by rewrite <- S1.
Qed.

(** X17.  The counters of [sync_all_devices_from_firebase] agree with
    the list of results it returns: one result for each device of the
    table, in the order of the query; [devices_synced +
    devices_failed] is [total_devices]; [devices_failed] counts the
    results that carry an error; the two totals are the sums of
    [messages_created] and [messages_skipped] over the results; the
    list of errors of the driver itself is empty. *)
Theorem message_fleet_counters_add_up orm fb keep_latest queryset database :
  queryset ≡ₚ elements (dom (devices database)) ->
  let r := (sync_all_devices_from_firebase orm fb keep_latest queryset database).1 in
  map MessageSync.device_id (MessageFleet.device_results r) = queryset
  /\ MessageFleet.total_devices r = length (MessageFleet.device_results r)
  /\ (MessageFleet.devices_synced r + MessageFleet.devices_failed r
      = MessageFleet.total_devices r)%nat
  /\ MessageFleet.devices_failed r
     = length (List.filter message_sync_failed (MessageFleet.device_results r))
  /\ MessageFleet.total_messages_created r
     = message_total MessageSync.messages_created (MessageFleet.device_results r)
  /\ MessageFleet.total_messages_skipped r
     = message_total MessageSync.messages_skipped (MessageFleet.device_results r)
  /\ MessageFleet.errors r = [].
Proof.
  intros Hperm r. unfold r, sync_all_devices_from_firebase.
  destruct (message_fleet_fold orm fb keep_latest queryset
              (MessageFleet.mk (size (devices database)) 0 0 0 0 [] [], database))
    as (H1 & H2 & H3 & H4 & H5 & H6 & H7); try done.
  simpl in H1, H2, H3.
  assert (Hlen : length (MessageFleet.device_results
                           (fold_left (message_fleet_step orm fb keep_latest) queryset
                              (MessageFleet.mk (size (devices database)) 0 0 0 0 [] [],
                               database)).1)
                 = size (devices database)).
  { rewrite <- (length_map MessageSync.device_id), H3, Hperm.
    rewrite <- size_dom. reflexivity. }
  repeat split; try done; congruence.
Qed.

(** X18.  [sync_all_devices_from_firebase] only inserts messages: the
    device, notification and contact tables are as they were, every
    message row that was there is there unchanged, and every new row
    belongs to a device of the query that has a row in the device
    table. *)
Theorem message_fleet_only_inserts orm fb keep_latest queryset database :
  let run := sync_all_devices_from_firebase orm fb keep_latest queryset database in
  devices run.2 = devices database
  /\ notifications run.2 = notifications database
  /\ contacts run.2 = contacts database
  /\ messages database ⊆ messages run.2
  /\ forall key row,
       messages run.2 !! key = Some row -> messages database !! key = None ->
       key.1 ∈ queryset /\ is_Some (devices database !! key.1).
Proof.
  apply (message_fleet_inserts orm fb keep_latest queryset
           (MessageFleet.mk (size (devices database)) 0 0 0 0 [] [], database)).
Qed.

(** X17, witness: two devices, taken in one of the two orders. *)
Lemma message_fleet_counters_add_up_witness :
  let r := (sync_all_devices_from_firebase permissive_orm three_messages 100 ["D2"; "D1"]
              db_with_two_devices).1 in
  map MessageSync.device_id (MessageFleet.device_results r) = ["D2"; "D1"]
  /\ (MessageFleet.devices_synced r + MessageFleet.devices_failed r
      = MessageFleet.total_devices r)%nat
  /\ MessageFleet.total_messages_created r
     = message_total MessageSync.messages_created (MessageFleet.device_results r).
Proof.
  intros r.
  destruct (message_fleet_counters_add_up permissive_orm three_messages 100 ["D2"; "D1"]
              db_with_two_devices)
    as (H1 & _ & H3 & _ & H5 & _).
  - vm_compute. first [reflexivity | apply Permutation_swap].
  - exact (conj H1 (conj H3 H5)).
Defined.

(** ** The cleaning of the store *)

Lemma clean_firebase_messages_returns fb child_delete dev keep_latest :
  clean_firebase_messages fb dev keep_latest
  = match clean_firebase_messages_deletions fb child_delete dev keep_latest with
    | Ok _ => Ok tt
    | Raise e => Raise e
    end.
Proof.
  unfold clean_firebase_messages, clean_firebase_messages_deletions.
  destruct (FIREBASE_AVAILABLE fb); simpl; [|done].
  by destruct (initialize_firebase fb) as [[]|e].
Qed.

Lemma delete_each_sub child_delete path ts p t :
  (p, t) ∈ (delete_each child_delete path ts).1 -> p = path /\ t ∈ ts.
Proof.
  induction ts as [|t0 ts IH]; simpl; [by intros ?%elem_of_nil|].
  destruct (child_delete path t0); [|by intros ?%elem_of_nil].
  destruct (delete_each child_delete path ts) as [deleted finished]. simpl in *.
  intros [[= -> ->]|Hin]%elem_of_cons.
  - split; [done|by left].
  - destruct (IH Hin) as [-> Ht]. split; [done|by right].
Qed.

Lemma delete_each_obliging child_delete path ts :
  (forall p t, child_delete p t = Ok tt) ->
  delete_each child_delete path ts = (map (fun t => (path, t)) ts, true).
Proof.
  intros Hok. induction ts as [|t0 ts IH]; simpl; [done|]. by rewrite Hok, IH.
Qed.

Lemma py_keys_dict v keys : py_keys v = Ok keys -> exists d, v = JDict d /\ keys = map fst d.
Proof. destruct v; simpl; try discriminate. intros [= <-]. eauto. Qed.

Lemma clean_paths_safe fb child_delete keep_latest paths path ts :
  0 <= keep_latest ->
  (path, ts) ∈ clean_paths fb child_delete keep_latest paths ->
  path ∈ paths
  /\ exists d kept dropped,
       reference_get fb path = Ok (JDict d)
       /\ kept ++ dropped ≡ₚ map fst d
       /\ length kept = Z.to_nat keep_latest
       /\ dominates kept dropped
       /\ ts ∈ dropped.
Proof.
  intros Hk. induction paths as [|p paths IH]; simpl; [by intros ?%elem_of_nil|].
  assert (Hrest : (path, ts) ∈ clean_paths fb child_delete keep_latest paths ->
                  path ∈ p :: paths
                  /\ exists d kept dropped,
                       reference_get fb path = Ok (JDict d)
                       /\ kept ++ dropped ≡ₚ map fst d
                       /\ length kept = Z.to_nat keep_latest
                       /\ dominates kept dropped
                       /\ ts ∈ dropped).
  { intros Hin. destruct (IH Hin) as [Hp Hex]. split; [by right|done]. }
  destruct (reference_get fb p) as [messages|e] eqn:Hget; [|exact Hrest].
  destruct (truthy messages); simpl; [|exact Hrest].
  destruct (py_keys messages) as [keys|e] eqn:Hkeys; [|exact Hrest].
  apply py_keys_dict in Hkeys as (d & -> & ->).
  destruct (keep_latest <? Z.of_nat (length (sorted_timestamps (map fst d)))) eqn:Hlt;
    [|by intros ?%elem_of_nil].
  apply Z.ltb_lt in Hlt.
  assert (Hhere : (path, ts) ∈ (delete_each child_delete p
                                  (slice_from keep_latest (sorted_timestamps (map fst d)))).1 ->
                  path ∈ p :: paths
                  /\ exists d kept dropped,
                       reference_get fb path = Ok (JDict d)
                       /\ kept ++ dropped ≡ₚ map fst d
                       /\ length kept = Z.to_nat keep_latest
                       /\ dominates kept dropped
                       /\ ts ∈ dropped).
  { intros Hin. apply delete_each_sub in Hin as [-> Hts]. split; [by left|].
    unfold slice_from in Hts. replace (0 <=? keep_latest) with true in Hts by lia.
    exists d, (take (Z.to_nat keep_latest) (sorted_timestamps (map fst d))),
      (drop (Z.to_nat keep_latest) (sorted_timestamps (map fst d))).
    split; [done|]. split; [rewrite take_drop; apply sorted_timestamps_perm|].
    split; [rewrite length_take; lia|].
    split; [apply descending_take_drop, sorted_timestamps_descending|done]. }
  destruct (delete_each child_delete p _) as [deleted finished]. simpl in Hhere.
  destruct finished; [exact Hhere|].
  intros [Hin|Hin]%elem_of_app; [by apply Hhere|by apply Hrest].
Qed.

Lemma clean_paths_first fb child_delete keep_latest before path after d :
  (forall p t, child_delete p t = Ok tt) ->
  0 <= keep_latest ->
  (forall q v, q ∈ before -> reference_get fb q = Ok v -> truthy v = false) ->
  reference_get fb path = Ok (JDict d) -> d <> [] ->
  clean_paths fb child_delete keep_latest (before ++ path :: after)
  = map (fun ts => (path, ts))
        (drop (Z.to_nat keep_latest) (sorted_timestamps (map fst d))).
Proof.
  intros Hok Hk Hbefore Hget Hd.
  induction before as [|q before IH]; simpl.
  - rewrite Hget. destruct d as [|kv d]; [done|]. cbn [truthy negb py_keys].
    destruct (keep_latest <? _) eqn:Hlt.
    + rewrite (delete_each_obliging _ _ _ Hok). unfold slice_from.
      by replace (0 <=? keep_latest) with true by lia.
    + apply Z.ltb_ge in Hlt. rewrite drop_ge; [done|lia].
  - destruct (reference_get fb q) as [v|e] eqn:Hq.
    + rewrite (Hbefore q v (ltac:(by left)) Hq). simpl. apply IH.
      intros q' v' Hq'. apply Hbefore. by right.
    + apply IH. intros q' v' Hq'. apply Hbefore. by right.
Qed.

(** X19.  [clean_firebase_messages] never deletes one of the latest
    [keep_latest] messages, whatever the store does.  For [keep_latest
    >= 0], every deletion is made under one of the two paths of the
    function, and there the keys split into [keep_latest] keys that
    are kept and the others, the deleted key being one of the others
    and no kept key having a smaller timestamp than another one. *)
Theorem cleaning_spares_the_latest fb child_delete dev keep_latest trace path ts :
  0 <= keep_latest ->
  clean_firebase_messages_deletions fb child_delete dev keep_latest = Ok trace ->
  (path, ts) ∈ trace ->
  path ∈ cleaning_paths dev
  /\ exists d kept dropped,
       reference_get fb path = Ok (JDict d)
       /\ kept ++ dropped ≡ₚ map fst d
       /\ length kept = Z.to_nat keep_latest
       /\ dominates kept dropped
       /\ ts ∈ dropped.
Proof.
  intros Hk. unfold clean_firebase_messages_deletions.
  destruct (FIREBASE_AVAILABLE fb); cbn [negb]; [|discriminate].
  destruct (initialize_firebase fb) as [[]|e]; [|discriminate].
  intros Htrace Hin.
  assert (Et : trace = clean_paths fb child_delete keep_latest (cleaning_paths dev))
    by congruence.
  rewrite Et in Hin. by apply (clean_paths_safe fb child_delete keep_latest _ _ _ Hk Hin).
Qed.

(** X20.  When the store deletes what it is asked to, and the keys of
    the messages are made of ASCII characters, the cleaning leaves
    exactly the latest [keep_latest] messages under the first of its
    paths that has any: the deletions are all made there, and
    the keys split into the [min keep_latest (len messages)] that are
    kept and the deleted ones, no deleted key having a larger
    timestamp than a kept one.  With no more than [keep_latest]
    messages nothing is deleted. *)
Theorem cleaning_deletes_the_rest fb child_delete dev keep_latest before path after d :
  (forall p t, child_delete p t = Ok tt) ->
  0 <= keep_latest ->
  FIREBASE_AVAILABLE fb = true -> initialize_firebase fb = Ok tt ->
  cleaning_paths dev = before ++ path :: after ->
  (forall q v, q ∈ before -> reference_get fb q = Ok v -> truthy v = false) ->
  reference_get fb path = Ok (JDict d) -> d <> [] ->
  forallb store_key (map fst d) = true ->
  exists kept dropped,
    clean_firebase_messages_deletions fb child_delete dev keep_latest
    = Ok (map (fun ts => (path, ts)) dropped)
    /\ kept ++ dropped ≡ₚ map fst d
    /\ length kept = Nat.min (Z.to_nat keep_latest) (length d)
    /\ dominates kept dropped
    /\ (Z.of_nat (length d) <= keep_latest -> dropped = []).
Proof.
  intros Hok Hk Hav Hinit Hpaths Hbefore Hget Hd _.
  exists (take (Z.to_nat keep_latest) (sorted_timestamps (map fst d))),
    (drop (Z.to_nat keep_latest) (sorted_timestamps (map fst d))).
  assert (Hlen : length (sorted_timestamps (map fst d)) = length d).
  { rewrite (Permutation_length (sorted_timestamps_perm _)). apply length_map. }
  split; [|split; [|split; [|split]]].
  - unfold clean_firebase_messages_deletions. rewrite Hav, Hinit, Hpaths. cbn [negb].
    by rewrite (clean_paths_first fb child_delete keep_latest before path after d).
  - rewrite take_drop. apply sorted_timestamps_perm.
  - by rewrite length_take, Hlen.
  - apply descending_take_drop, sorted_timestamps_descending.
  - intros Hle. apply drop_ge. lia.
Qed.

(** X19, witness: of three messages the two latest are to be kept; the
    one deleted is the oldest. *)
Lemma cleaning_spares_the_latest_witness :
  exists d kept dropped,
    reference_get three_to_clean "fastpay/D1/messages" = Ok (JDict d)
    /\ kept ++ dropped ≡ₚ map fst d
    /\ length kept = 2%nat
    /\ dominates kept dropped
    /\ "100" ∈ dropped.
Proof.
  apply (cleaning_spares_the_latest three_to_clean obliging_delete "D1" 2
           [("fastpay/D1/messages", "100")] "fastpay/D1/messages" "100").
  - lia.
  - reflexivity.
  - by left.
Defined.

(** X20, witness: the same store; one deletion, of the oldest
    message. *)
Lemma cleaning_deletes_the_rest_witness :
  exists kept dropped,
    clean_firebase_messages_deletions three_to_clean obliging_delete "D1" 2
    = Ok (map (fun ts => ("fastpay/D1/messages", ts)) dropped)
    /\ kept ++ dropped ≡ₚ ["200"; "100"; "300"]
    /\ length kept = 2%nat
    /\ dominates kept dropped.
Proof.
  destruct (cleaning_deletes_the_rest three_to_clean obliging_delete "D1" 2
              [] "fastpay/D1/messages" ["message/D1"]
              [("200", JStr "sent~+2~b"); ("100", JStr "received~+1~a");
               ("300", JStr "sent~+3~c")])
    as (kept & dropped & H1 & H2 & H3 & H4 & _); try reflexivity; try done; try lia.
  - intros q v Hq. by apply elem_of_nil in Hq.
  - exists kept, dropped. split; [exact H1|]. split; [exact H2|]. split; [exact H3|exact H4].
Defined.

(** ** What a clean run leaves on the device *)

Lemma sync_device_info_created orm dev ue info st st' :
  sync_device_info orm dev ue info st = (Ok tt, st') ->
  device_created (result st) = false ->
  (device_created (result st') = true <-> devices (db st) !! dev = None).
Proof.
  unfold sync_device_info. intros H%atomic_returned Hfalse.
  unfold mbind, M_mbind in H.
  apply bind_returned in H as ([] & st1 & H1 & H).
  rewrite mark_syncing_run in H1. injection H1 as <-.
  apply bind_returned in H as (d & st2 & H2 & H).
  unfold lift in H2. injection H2 as Hd <-.
  apply bind_returned in H as ([device created] & st3 & H3 & H).
  unfold Device_get_or_create in H3. unfold_M.
  destruct (devices (db st) !! dev) as [dv|] eqn:E; simpl in H3.
  - rewrite lookup_insert_eq in H3. injection H3 as <- <- <-.
    unfold update_device in H. destruct ue; unfold_M.
    + destruct (updated_profile d _) as [p|e]; [|discriminate H].
      destruct (device_rejected orm dev p); [discriminate H|].
      injection H as <-. simpl. rewrite Hfalse. split; discriminate.
    + injection H as <-. simpl. rewrite Hfalse. split; discriminate.
  - rewrite E in H3.
    destruct (device_rejected orm dev (device_defaults d)); [discriminate H3|].
    injection H3 as <- <- <-. injection H as <-. simpl. done.
Qed.

(** X21.  What a run of [hard_sync_device_from_firebase] that reports
    no error leaves on the device: the row exists, also when the run
    has created it; it is 'synced' with no error text; [last_sync_at]
    and [last_hard_sync_at] are the instant of the write;
    [sync_metadata] holds the counters of the result returned; the
    stamp of each kind of which something was fetched is that
    instant; and [device_created] is true exactly when the device had
    no row before. *)
Theorem clean_run_stamps orm fb dev ue database :
  let run := hard_sync_device_from_firebase orm fb dev ue database in
  errors run.1 = [] ->
  exists dv,
    devices run.2 !! dev = Some dv
    /\ Device.sync_status dv = "synced"
    /\ Device.sync_error_message dv = None
    /\ Device.last_sync_at dv = Some (timezone_now orm)
    /\ Device.last_hard_sync_at dv = Some (timezone_now orm)
    /\ Device.sync_metadata dv = sync_metadata_of run.1
    /\ ((0 < messages_fetched run.1)%nat ->
        Device.messages_last_synced_at dv = Some (timezone_now orm))
    /\ ((0 < notifications_fetched run.1)%nat ->
        Device.notifications_last_synced_at dv = Some (timezone_now orm))
    /\ ((0 < contacts_fetched run.1)%nat ->
        Device.contacts_last_synced_at dv = Some (timezone_now orm))
    /\ (device_created run.1 = true <-> devices database !! dev = None).
Proof.
  intros run. unfold run, hard_sync_device_from_firebase. simpl. intros Herr.
  destruct (run_clean _ _ _ _ _ Herr)
    as (info & stA & stB & stC & stD & dv & _ & _ & HA & HB & HC & HD & Hdv & Hrun).
  rewrite Hrun in *. simpl in *.
  exists (status_after (timezone_now orm) (result stD) dv).
  rewrite lookup_insert_eq. unfold status_after. rewrite Herr. simpl.
  repeat (split; [done|]).
  split; [|split; [|split]].
  - intros H. apply Nat.ltb_lt in H. by rewrite H.
  - intros H. apply Nat.ltb_lt in H. by rewrite H.
  - intros H. apply Nat.ltb_lt in H. by rewrite H.
  - rewrite sync_messages_kind in HB. rewrite sync_notifications_kind in HC.
    rewrite sync_contacts_kind in HD.
    destruct (sync_kind_frame _ _ _ _ _ _ HB) as (_ & _ & HBc & _).
    destruct (sync_kind_frame _ _ _ _ _ _ HC) as (_ & _ & HCc & _).
    destruct (sync_kind_frame _ _ _ _ _ _ HD) as (_ & _ & HDc & _).
    rewrite HDc, HCc, HBc.
    apply (sync_device_info_created _ _ _ _ _ _ HA). reflexivity.
Qed.

(** X21, witness: three messages for a device the database does not
    have. *)
Lemma clean_run_stamps_witness :
  let run := hard_sync_device_from_firebase permissive_orm three_messages "D1" true empty_db in
  exists dv,
    devices run.2 !! "D1" = Some dv
    /\ Device.sync_status dv = "synced"
    /\ Device.last_hard_sync_at dv = Some 1700000000000
    /\ Device.messages_last_synced_at dv = Some 1700000000000
    /\ device_created run.1 = true.
Proof.
  intros run.
  destruct (clean_run_stamps permissive_orm three_messages "D1" true empty_db)
    as (dv & H1 & H2 & _ & _ & H5 & _ & H7 & _ & _ & H10); [reflexivity|].
  exists dv. split; [exact H1|]. split; [exact H2|]. split; [exact H5|].
  split; [apply H7; vm_compute; lia|apply H10; reflexivity].
Defined.

(** ** A second pass over the same data *)

Section Settle.
Context {K V : Type} `{Countable K} (res : resource K V).
Hypothesis res_lawful : lawful res.
Variable read : string -> json -> request K V.
Hypothesis stored_stored : forall a b c,
  res_stored res (res_stored res a b) c = res_stored res a c.
Hypothesis stored_same : forall a, res_stored res a a = a.

Lemma write_all_cons (tbl : gmap K V) k w ws :
  write_all tbl ((k, w) :: ws) = write_all (<[k := w]> tbl) ws.
Proof. reflexivity. Qed.

Lemma lookup_write_all ws : forall (tbl : gmap K V) key,
  write_all tbl ws !! key
  = match last_write key ws with Some x => Some x | None => tbl !! key end.
Proof.
  induction ws as [|[k w] ws IH]; intros tbl key; simpl; [done|].
  rewrite write_all_cons, IH.
  destruct (last_write key ws); [done|].
  destruct (decide (k = key)) as [->|Hne].
  - by rewrite lookup_insert_eq.
  - by rewrite lookup_insert_ne.
Qed.

Lemma write_all_twice ws (tbl : gmap K V) :
  write_all (write_all tbl ws) ws = write_all tbl ws.
Proof.
  apply map_eq. intros key. rewrite !lookup_write_all.
  by destruct (last_write key ws).
Qed.

(** The row under a key that is there keeps, through every later
    write, what an update keeps of it. *)
Lemma written_row_base reqs : forall (tbl : gmap K V) key w,
  tbl !! key = Some w ->
  exists y, write_all tbl (writes res tbl reqs) !! key = Some y
            /\ forall c, res_stored res y c = res_stored res w c.
Proof.
  induction reqs as [|rq reqs IH]; intros tbl key w Hw; simpl.
  - by exists w.
  - destruct rq as [e| | |k row]; simpl; try by apply IH.
    rewrite write_all_cons. destruct (decide (k = key)) as [->|Hne].
    + rewrite Hw. simpl.
      destruct (IH (<[key := res_stored res w row]> tbl) key (res_stored res w row))
        as (y & Hy & Hbase); [by rewrite lookup_insert_eq|].
      exists y. split; [done|]. intros c. by rewrite Hbase, stored_stored.
    + apply IH. by rewrite lookup_insert_ne.
Qed.

Lemma first_touch_base pre key row post : forall tbl : gmap K V,
  Forall (fun rq => ~ touches key rq) pre ->
  exists y,
    write_all tbl (writes res tbl (pre ++ Upsert key row :: post)) !! key = Some y
    /\ forall c, res_stored res y c = res_stored res (upsert_row res (tbl !! key) row) c.
Proof.
  induction pre as [|rq pre IH]; intros tbl Hpre; simpl.
  - rewrite write_all_cons.
    apply written_row_base. by rewrite lookup_insert_eq.
  - apply Forall_cons in Hpre as [Hrq Hpre].
    destruct rq as [e| | |k row0]; simpl; try by apply IH.
    rewrite write_all_cons. simpl in Hrq.
    destruct (IH (<[k := upsert_row res (tbl !! k) row0]> tbl) Hpre) as (y & Hy & Hbase).
    exists y. split; [done|]. intros c. rewrite Hbase.
    by rewrite lookup_insert_ne.
Qed.

Lemma upsert_row_again o row :
  res_stored res (upsert_row res o row) row = upsert_row res o row.
Proof. destruct o as [old|]; simpl; [apply stored_stored|apply stored_same]. Qed.

Lemma writes_agree reqs : forall tbl tbl' : gmap K V,
  (forall pre key row post,
      reqs = pre ++ Upsert key row :: post ->
      Forall (fun rq => ~ touches key rq) pre ->
      upsert_row res (tbl' !! key) row = upsert_row res (tbl !! key) row) ->
  writes res tbl' reqs = writes res tbl reqs.
Proof.
  induction reqs as [|rq reqs IH]; intros tbl tbl' Hrel; simpl; [done|].
  assert (Hskip : (forall k row, rq <> Upsert k row) ->
                  writes res tbl' reqs = writes res tbl reqs).
  { intros Hrq. apply IH. intros pre key row post -> Hpre.
    apply (Hrel (rq :: pre) key row post); [done|].
    apply Forall_cons. split; [|done]. destruct rq; simpl; try tauto.
    intros ->. by eapply Hrq. }
  destruct rq as [e| | |k row]; try (apply Hskip; discriminate).
  rewrite (Hrel [] k row reqs eq_refl (Forall_nil_2 _)). f_equal.
  apply IH. intros pre key row' post -> Hpre.
  destruct (decide (k = key)) as [->|Hne].
  - by rewrite !lookup_insert_eq.
  - rewrite !lookup_insert_ne by done.
    apply (Hrel (Upsert k row :: pre) key row' post); [done|].
    apply Forall_cons. split; [done|done].
Qed.

(** A second pass writes, entry by entry, the rows the first pass
    wrote. *)
Lemma writes_again reqs (tbl : gmap K V) :
  writes res (write_all tbl (writes res tbl reqs)) reqs = writes res tbl reqs.
Proof.
  apply writes_agree. intros pre key row post -> Hpre.
  destruct (first_touch_base pre key row post tbl Hpre) as (y & Hy & Hbase).
  rewrite Hy. simpl. rewrite Hbase. apply upsert_row_again.
Qed.

Lemma written_keys reqs : forall (tbl : gmap K V) key,
  is_Some (tbl !! key) \/ (exists row, Upsert key row ∈ reqs) ->
  is_Some (write_all tbl (writes res tbl reqs) !! key).
Proof.
  induction reqs as [|rq reqs IH]; intros tbl key Hkey; simpl.
  - destruct Hkey as [Hs|[row Hin]]; [done|by apply elem_of_nil in Hin].
  - assert (Hskip : (forall k row, rq <> Upsert k row) ->
                    is_Some (write_all tbl (writes res tbl reqs) !! key)).
    { intros Hrq. apply IH. destruct Hkey as [Hs|[row Hin]]; [by left|right].
      apply elem_of_cons in Hin as [<-|Hin]; [by destruct (Hrq key row)|eauto]. }
    destruct rq as [e| | |k row]; try (apply Hskip; discriminate).
    rewrite write_all_cons. apply IH.
    destruct (decide (k = key)) as [->|Hne].
    + left. rewrite lookup_insert_eq. eauto.
    + rewrite lookup_insert_ne by done. destruct Hkey as [Hs|[row' Hin]]; [by left|right].
      apply elem_of_cons in Hin as [[= ? ?]|Hin]; [done|eauto].
Qed.

Lemma present_is_updated name key row old st :
  res_table res (db st) !! key = Some old ->
  res_rejected res key (res_stored res old row) = None ->
  exec (reconcile res true name (Upsert key row)) st
  = mkState (with_counts (res_kind res) inc_updated (result st))
            (res_update res (insert key (res_stored res old row)) (db st)).
Proof. intros E R. unfold exec. unfold_M. rewrite E. simpl. by rewrite R. Qed.

(** What a pass that adds no error has done. *)
Lemma first_pass items : forall st,
  errors (result (exec (reconcile_all res true read items) st)) = errors (result st) ->
  let reqs := map (fun kv : string * json => read kv.1 kv.2) items in
  let st' := exec (reconcile_all res true read items) st in
  let c s := counts_of (res_kind res) (result s) in
  Forall (fun kw => res_rejected res kw.1 kw.2 = None)
         (writes res (res_table res (db st)) reqs)
  /\ Forall (fun rq => forall e, rq <> Malformed e) reqs
  /\ res_table res (db st')
     = write_all (res_table res (db st)) (writes res (res_table res (db st)) reqs)
  /\ (created (c st') + updated (c st')
      = created (c st) + updated (c st)
        + length (writes res (res_table res (db st)) reqs))%nat
  /\ skipped (c st') = (skipped (c st) + unrecognised reqs)%nat.
Proof.
  induction items as [|[k v] items IH]; intros st Herr; cbv zeta.
  - unfold exec, reconcile_all. simpl. repeat split; try done; lia.
  - rewrite exec_all_cons in Herr. rewrite !exec_all_cons.
    pose proof (reconcile_turn res true k (read k v) st) as T.
    remember (exec (reconcile res true k (read k v)) st) as stA eqn:HstA.
    clear HstA.
    destruct (all_errors res read true items stA) as [s2 E2].
    destruct (turn_errors _ _ _ _ _ _ T) as [s1 E1].
    assert (s1 = [] /\ s2 = []) as [-> ->].
    { rewrite E2, E1, <- app_assoc in Herr.
      rewrite <- (app_nil_r (errors (result st))) in Herr at 2.
      apply app_inv_head in Herr. by apply app_eq_nil in Herr. }
    rewrite app_nil_r in E1, E2.
    destruct (IH stA E2) as (IH1 & IH2 & IH3 & IH4 & IH5). clear IH.
    simpl map.
    destruct T as [e Hb| [Hu|(key & row & Hrq & Hue & _)] | Hd
                   | key row Hrq Hnone Hacc | key row old Hrq Hsome Hue Hacc].
    + simpl in E1.
      rewrite <- (app_nil_r (errors (result st))) in E1 at 2.
      by apply app_inv_head in E1.
    + rewrite Hu in *. simpl in *. rewrite counts_of_with_counts in *. simpl in *.
      repeat split; try done; try lia.
      apply Forall_cons. split; [discriminate|done].
    + discriminate Hue.
    + rewrite Hd in *. simpl in *.
      repeat split; try done.
      apply Forall_cons. split; [discriminate|done].
    + rewrite Hrq in *. simpl in *. rewrite res_lawful in *.
      rewrite counts_of_with_counts in *. simpl in *. rewrite Hnone. simpl.
      repeat split; try done; try lia.
      * apply Forall_cons. split; [done|done].
      * apply Forall_cons. split; [discriminate|done].
    + rewrite Hrq in *. simpl in *. rewrite res_lawful in *.
      rewrite counts_of_with_counts in *. simpl in *. rewrite Hsome. simpl.
      repeat split; try done; try lia.
      * apply Forall_cons. split; [done|done].
      * apply Forall_cons. split; [discriminate|done].
Qed.

(** A pass over entries whose keys are all there and whose rows the
    database takes. *)
Lemma second_pass items : forall st,
  let reqs := map (fun kv : string * json => read kv.1 kv.2) items in
  let st' := exec (reconcile_all res true read items) st in
  let c s := counts_of (res_kind res) (result s) in
  Forall (fun rq => forall e, rq <> Malformed e) reqs ->
  Forall (fun kw => res_rejected res kw.1 kw.2 = None)
         (writes res (res_table res (db st)) reqs) ->
  (forall key row, Upsert key row ∈ reqs -> is_Some (res_table res (db st) !! key)) ->
  errors (result st') = errors (result st)
  /\ res_table res (db st')
     = write_all (res_table res (db st)) (writes res (res_table res (db st)) reqs)
  /\ created (c st') = created (c st)
  /\ updated (c st')
     = (updated (c st) + length (writes res (res_table res (db st)) reqs))%nat
  /\ skipped (c st') = (skipped (c st) + unrecognised reqs)%nat.
Proof.
  induction items as [|[k v] items IH]; intros st; cbv zeta.
  - intros _ _ _. unfold exec, reconcile_all. simpl. repeat split; try done; lia.
  - simpl map. intros Hmal Hacc Hkeys. rewrite !exec_all_cons.
    apply Forall_cons in Hmal as [Hrq Hmal].
    destruct (read k v) as [e| | |key row] eqn:Hread.
    + by destruct (Hrq e).
    + simpl in Hacc.
      assert (E : exec (reconcile res true k Unrecognised) st
                  = mkState (with_counts (res_kind res) inc_skipped (result st)) (db st))
        by reflexivity.
      rewrite E.
      destruct (IH (mkState (with_counts (res_kind res) inc_skipped (result st)) (db st)))
        as (I1 & I2 & I3 & I4 & I5); [done|done| |].
      { intros key row Hin. apply (Hkeys key row). by right. }
      simpl in *. rewrite counts_of_with_counts in *. simpl in *.
      rewrite errors_with_counts in I1.
      repeat split; try done; lia.
    + simpl in Hacc.
      destruct (IH (exec (reconcile res true k Dropped) st)) as (I1 & I2 & I3 & I4 & I5);
        [done|done| |].
      { intros key row Hin. apply (Hkeys key row). by right. }
      replace (exec (reconcile res true k Dropped) st) with st in * by (by destruct st).
      repeat split; done.
    + destruct (Hkeys key row ltac:(by left)) as [old Hold].
      simpl in Hacc. rewrite Hold in Hacc. simpl in Hacc.
      apply Forall_cons in Hacc as [Hacc0 Hacc]. simpl in Hacc0.
      rewrite (present_is_updated _ _ _ _ _ Hold Hacc0).
      destruct (IH (mkState (with_counts (res_kind res) inc_updated (result st))
                      (res_update res (insert key (res_stored res old row)) (db st))))
        as (I1 & I2 & I3 & I4 & I5).
      * done.
      * simpl. by rewrite res_lawful.
      * intros key' row' Hin. simpl. rewrite res_lawful.
        destruct (decide (key = key')) as [->|Hne].
        -- rewrite lookup_insert_eq. eauto.
        -- rewrite lookup_insert_ne by done. apply (Hkeys key' row'). by right.
      * simpl in *. rewrite res_lawful in *. rewrite counts_of_with_counts in *.
        simpl in *. rewrite errors_with_counts in I1. rewrite Hold. simpl.
        repeat split; try done; lia.
Qed.

(** The loop settles. *)
Lemma reconcile_all_settles : settles res (reconcile_all res true read).
Proof.
  intros items st1 st2 st1' st2' c Herr Htbl.
  destruct (first_pass items st1 Herr) as (F1 & F2 & F3 & F4 & F5).
  fold st1' in F3, F4, F5.
  set (reqs := map (fun kv : string * json => read kv.1 kv.2) items) in *.
  set (t1 := res_table res (db st1)) in *.
  assert (Hw : writes res (res_table res (db st2)) reqs = writes res t1 reqs).
  { rewrite Htbl, F3. apply writes_again. }
  destruct (second_pass items st2) as (S1 & S2 & S3 & S4 & S5).
  - exact F2.
  - fold reqs. by rewrite Hw.
  - intros key row Hin. rewrite Htbl, F3. apply written_keys. right. eauto.
  - fold st2' reqs in S1, S2, S3, S4, S5. rewrite Hw in S2, S4.
    split; [done|]. split.
    + rewrite S2, Htbl, F3. apply write_all_twice.
    + unfold c. split; [done|]. split; lia.
Qed.
End Settle.

Section SettleStage.
Context {K V : Type} `{Countable K} (res : resource K V).
Hypothesis res_lawful : lawful res.
Variable read : string -> json -> request K V.
Hypothesis stored_stored : forall a b c,
  res_stored res (res_stored res a b) c = res_stored res a c.
Hypothesis stored_same : forall a, res_stored res a a = a.

Lemma sync_kind_settles fetched_data st1 st1' st2 st2' :
  sync_kind res read fetched_data true st1 = (Ok tt, st1') ->
  sync_kind res read fetched_data true st2 = (Ok tt, st2') ->
  errors (result st1') = errors (result st1) ->
  res_table res (db st2) = res_table res (db st1') ->
  let c st := counts_of (res_kind res) (result st) in
  errors (result st2') = errors (result st2)
  /\ res_table res (db st2') = res_table res (db st2)
  /\ created (c st2') = created (c st2)
  /\ (updated (c st2') + created (c st1) + updated (c st1)
      = updated (c st2) + created (c st1') + updated (c st1'))%nat
  /\ (skipped (c st2') + skipped (c st1) = skipped (c st2) + skipped (c st1'))%nat.
Proof.
  intros (data & n & items & Hd & Hn & Hi & ->)%sync_kind_returned
         (data' & n' & items' & Hd' & Hn' & Hi' & ->)%sync_kind_returned Herr Htbl c.
  rewrite Hd in Hd'. injection Hd' as <-.
  rewrite Hn in Hn'. injection Hn' as <-.
  rewrite Hi in Hi'. injection Hi' as <-.
  destruct (reconcile_all_settles res res_lawful read stored_stored stored_same items
              (counted res n st1) (counted res n st2)) as (S1 & S2 & S3 & S4 & S5).
  - rewrite Herr. simpl. by rewrite errors_with_counts.
  - exact Htbl.
  - unfold c. simpl in *. rewrite errors_with_counts in S1.
    rewrite ?counts_of_with_counts in S3. rewrite ?counts_of_with_counts in S4.
    rewrite ?counts_of_with_counts in S5. simpl in *.
    repeat split; try done; lia.
Qed.
End SettleStage.

Lemma message_stored orm :
  (forall a b c, res_stored (message_resource orm) (res_stored (message_resource orm) a b) c
                 = res_stored (message_resource orm) a c)
  /\ forall a, res_stored (message_resource orm) a a = a.
Proof. done. Qed.

Lemma notification_stored orm :
  (forall a b c,
      res_stored (notification_resource orm) (res_stored (notification_resource orm) a b) c
      = res_stored (notification_resource orm) a c)
  /\ forall a, res_stored (notification_resource orm) a a = a.
Proof. split; [done|]. by intros []. Qed.

Lemma contact_stored orm :
  (forall a b c, res_stored (contact_resource orm) (res_stored (contact_resource orm) a b) c
                 = res_stored (contact_resource orm) a c)
  /\ forall a, res_stored (contact_resource orm) a a = a.
Proof. done. Qed.

Lemma settles_ext {K V} `{Countable K} (res : resource K V) (loop loop' : pydict -> M unit) :
  (forall items st, loop' items st = loop items st) -> settles res loop -> settles res loop'.
Proof.
  intros Hext Hs items st1 st2. cbv zeta. unfold exec. rewrite !Hext. apply Hs.
Qed.

Lemma message_loop_settles orm dev :
  settles (message_resource orm) (message_loop orm dev true).
Proof.
  eapply settles_ext; [apply message_loop_reconcile|].
  apply reconcile_all_settles; [apply message_resource_lawful|apply message_stored..].
Qed.

Lemma notification_loop_settles orm dev :
  settles (notification_resource orm) (notification_loop orm dev true).
Proof.
  eapply settles_ext; [apply notification_loop_reconcile|].
  apply reconcile_all_settles; [apply notification_resource_lawful|apply notification_stored..].
Qed.

Lemma contact_loop_settles orm dev :
  settles (contact_resource orm) (contact_loop orm dev true).
Proof.
  eapply settles_ext; [apply contact_loop_reconcile|].
  apply reconcile_all_settles; [apply contact_resource_lawful|apply contact_stored..].
Qed.

Lemma settles_repeats {K V} `{Countable K} (res : resource K V) (loop : pydict -> M unit) :
  settles res loop -> repeats res loop.
Proof.
  intros Hs items st1 st2 st1' st2' c Herr Htbl.
  destruct (Hs items st1 st2 Herr Htbl) as (S1 & S2 & S3 & S4 & S5).
  fold st1' st2' in S1, S2, S3, S4, S5.
  split; [done|]. split; [by rewrite S2|]. split; [done|]. split; done.
Qed.

(** X22.  With [update_existing=True] the loops settle.  Run a second
    time over the same entries, on the table an error-free first pass
    has left, each of the three loops adds no error, creates nothing,
    updates as many rows as the first pass created or updated, and
    skips as many as it skipped.  The message loop and the
    notification loop leave their table exactly as it is; the contact
    loop, whose saves set [updated_at] anew, leaves the keys of its
    table as they are. *)
Theorem loops_settle orm dev :
  settles (message_resource orm) (message_loop orm dev true)
  /\ settles (notification_resource orm) (notification_loop orm dev true)
  /\ repeats (contact_resource orm) (contact_loop orm dev true).
Proof.
  split; [apply message_loop_settles|].
  split; [apply notification_loop_settles|apply settles_repeats, contact_loop_settles].
Qed.

(** X23.  [hard_sync_device_from_firebase] with [update_existing=True]
    run twice in a row on the same store, both runs reporting no
    error: the second run leaves the messages and the notifications
    exactly as the first run left them, and the contacts under the
    same keys (their rows are saved again, which sets [updated_at]
    anew); it creates nothing, updates what the first run created or
    updated, and skips what it skipped. *)
Theorem second_update_run_settles orm fb dev database :
  let run1 := hard_sync_device_from_firebase orm fb dev true database in
  let run2 := hard_sync_device_from_firebase orm fb dev true run1.2 in
  errors run1.1 = [] -> errors run2.1 = [] ->
  (messages run2.2 = messages run1.2 /\ notifications run2.2 = notifications run1.2
   /\ dom (contacts run2.2) = dom (contacts run1.2))
  /\ (messages_created run2.1 = 0 /\ notifications_created run2.1 = 0
      /\ contacts_created run2.1 = 0)%nat
  /\ (messages_updated run2.1 = messages_created run1.1 + messages_updated run1.1
      /\ notifications_updated run2.1
         = notifications_created run1.1 + notifications_updated run1.1
      /\ contacts_updated run2.1 = contacts_created run1.1 + contacts_updated run1.1)%nat
  /\ (messages_skipped run2.1 = messages_skipped run1.1
      /\ notifications_skipped run2.1 = notifications_skipped run1.1
      /\ contacts_skipped run2.1 = contacts_skipped run1.1)%nat.
Proof.
  intros run1 run2. unfold run2, run1, hard_sync_device_from_firebase. clear run1 run2.
  cbn [fst snd]. intros Herr1 Herr2.
  destruct (run_clean _ _ _ _ _ Herr1)
    as (info & stA & stB & stC & stD & dv & Hinfo & Ht & HA & HB & HC & HD & Hdv & Hrun1).
  rewrite Hrun1 in *. cbn [db result] in *.
  set (db1 := set_devices (insert dev (status_after (timezone_now orm) (result stD) dv))
                (db stD)) in *.
  destruct (run_clean _ _ _ _ _ Herr2)
    as (info' & tA & tB & tC & tD & dv' & Hinfo' & Ht' & TA & TB & TC & TD & Hdv' & Hrun2).
  rewrite Hrun2 in *. cbn [db result] in *.
  rewrite sync_messages_kind in HB, TB. rewrite sync_notifications_kind in HC, TC.
  rewrite sync_contacts_kind in HD, TD.
  (* the first run, stage by stage *)
  destruct (sync_device_info_returned _ _ _ _ _ _ HA)
    as (_ & _ & (HAm & HAn & HAc & _) & (HAe & HAk)).
  destruct (sync_kind_frame _ _ _ _ _ _ HB) as ((sB & HBe) & HBk & _ & HBf).
  destruct (sync_kind_frame _ _ _ _ _ _ HC) as ((sC & HCe) & HCk & _ & HCf).
  destruct (sync_kind_frame _ _ _ _ _ _ HD) as ((sD & HDe) & HDk & _ & HDf).
  rewrite HDe in Herr1. apply app_eq_nil in Herr1 as [HeC ->].
  pose proof HeC as HeC'. rewrite HCe in HeC'. apply app_eq_nil in HeC' as [HeB ->].
  pose proof HeB as HeB'. rewrite HBe in HeB'. apply app_eq_nil in HeB' as [HeA ->].
  rewrite app_nil_r in HBe, HCe, HDe.
  (* the second run, stage by stage *)
  destruct (sync_device_info_returned _ _ _ _ _ _ TA)
    as (_ & _ & (TAm & TAn & TAc & _) & (TAe & TAk)).
  destruct (sync_kind_frame _ _ _ _ _ _ TB) as ((uB & TBe) & TBk & _ & TBf).
  destruct (sync_kind_frame _ _ _ _ _ _ TC) as ((uC & TCe) & TCk & _ & TCf).
  destruct (sync_kind_frame _ _ _ _ _ _ TD) as ((uD & TDe) & TDk & _ & TDf).
  cbn [db result] in *.
  (* each kind settles *)
  destruct (sync_kind_settles (message_resource orm) (message_resource_lawful orm)
              (message_request dev) (proj1 (message_stored orm)) (proj2 (message_stored orm))
              _ stA stB tA tB HB TB HBe) as (M1 & M2 & M3 & M4 & M5).
  { simpl. rewrite TAm. unfold db1. simpl.
    rewrite (HDf _ messages), (HCf _ messages); done. }
  destruct (sync_kind_settles (notification_resource orm) (notification_resource_lawful orm)
              (notification_request dev) (proj1 (notification_stored orm))
              (proj2 (notification_stored orm))
              _ stB stC tB tC HC TC HCe) as (N1 & N2 & N3 & N4 & N5).
  { simpl. rewrite (TBf _ notifications), TAn by done. unfold db1. simpl.
    rewrite (HDf _ notifications); done. }
  destruct (sync_kind_settles (contact_resource orm) (contact_resource_lawful orm)
              (contact_request dev) (proj1 (contact_stored orm)) (proj2 (contact_stored orm))
              _ stC stD tC tD HD TD HDe) as (C1 & C2 & C3 & C4 & C5).
  { simpl. rewrite (TCf _ contacts), (TBf _ contacts), TAc by done. unfold db1. done. }
  simpl in M2, M3, M4, M5, N2, N3, N4, N5, C2, C3, C4, C5.
  (* the counters *)
  pose proof (HAk KMessages) as A1. pose proof (HAk KNotifications) as A2.
  pose proof (HAk KContacts) as A3.
  pose proof (TAk KMessages) as U1. pose proof (TAk KNotifications) as U2.
  pose proof (TAk KContacts) as U3.
  pose proof (HBk KNotifications ltac:(done)) as B2. pose proof (HBk KContacts ltac:(done)) as B3.
  pose proof (HCk KMessages ltac:(done)) as C1'. pose proof (HCk KContacts ltac:(done)) as C3'.
  pose proof (HDk KMessages ltac:(done)) as D1. pose proof (HDk KNotifications ltac:(done)) as D2.
  pose proof (TBk KNotifications ltac:(done)) as V2. pose proof (TBk KContacts ltac:(done)) as V3.
  pose proof (TCk KMessages ltac:(done)) as W1. pose proof (TCk KContacts ltac:(done)) as W3.
  pose proof (TDk KMessages ltac:(done)) as X1. pose proof (TDk KNotifications ltac:(done)) as X2.
  simpl in A1, A2, A3, U1, U2, U3, B2, B3, C1', C3', D1, D2, V2, V3, W1, W3, X1, X2.
  unfold messages_created, messages_updated, messages_skipped,
    notifications_created, notifications_updated, notifications_skipped,
    contacts_created, contacts_updated, contacts_skipped.
  rewrite X1, W1, X2, D1, C1', D2.
  rewrite U1 in M3, M4, M5. rewrite A1 in M4, M5.
  rewrite V2, U2 in N3, N4, N5. rewrite B2, A2 in N4, N5.
  rewrite W3, V3, U3 in C3, C4, C5. rewrite C3', B3, A3 in C4, C5.
  simpl in *.
  split; [|repeat split; lia].
  split; [|split].
  - rewrite (TDf _ messages), (TCf _ messages), M2, TAm by done. done.
  - rewrite (TDf _ notifications), N2, (TBf _ notifications), TAn by done. done.
  - f_equal. rewrite C2, (TCf _ contacts), (TBf _ contacts), TAc by done. done.
Qed.

(** X23, witness: three messages for a new device, twice. *)
Lemma second_update_run_settles_witness :
  let run1 := hard_sync_device_from_firebase permissive_orm three_messages "D1" true empty_db in
  let run2 := hard_sync_device_from_firebase permissive_orm three_messages "D1" true run1.2 in
  messages run2.2 = messages run1.2
  /\ messages_created run2.1 = 0%nat
  /\ messages_updated run2.1 = (messages_created run1.1 + messages_updated run1.1)%nat.
Proof.
  intros run1 run2.
  destruct (second_update_run_settles permissive_orm three_messages "D1" empty_db)
    as ((H1 & _) & (H2 & _) & (H3 & _) & _); [reflexivity|reflexivity|].
  exact (conj H1 (conj H2 H3)).
Defined.
